(** * user-feedback-mcp: the command runner and log pipeline of feedback_ui.py

    A shallow embedding of the parts of [feedback_ui.py] that classify log
    lines, keep the log stores of the window, start and stop the child
    process, and assemble the feedback result, followed by the properties
    proved about them.

    Python values are modelled as follows.
    - A [str] is the list of its Unicode code points.
    - The level names and widget texts the program compares
      (["Error"], ["All"], ["&Run"], ...) are ASCII, and are kept as Rocq
      strings.
    - A method of [FeedbackUI] is a computation in the monad [M]: it reads and
      updates the window object, calls the host (psutil, subprocess, the file
      system) and may raise. *)

From Stdlib Require Import String Ascii NArith ZArith DecimalString Bool Arith Lia List.
Import ListNotations.
Open Scope string_scope.
Open Scope list_scope.

(** ** Python strings *)

Definition codepoint := N.
Definition str := list codepoint.

(** The [str] of an ASCII literal of the source. *)
Definition lit (s : string) : str := map N_of_ascii (list_ascii_of_string s).

(** The line feed, written ['\n'] in the source. *)
Definition NL : codepoint := 10%N.

Definition in_range (lo hi c : codepoint) : bool := (N.leb lo c && N.leb c hi)%bool.

(** [str.isspace] on one code point: the code points CPython's
    [_PyUnicode_IsWhitespace] accepts. *)
Definition isspace (c : codepoint) : bool :=
  (in_range 0x09 0x0d c || in_range 0x1c 0x20 c || N.eqb c 0x85 || N.eqb c 0xa0
   || N.eqb c 0x1680 || in_range 0x2000 0x200a c || in_range 0x2028 0x2029 c
   || N.eqb c 0x202f || N.eqb c 0x205f || N.eqb c 0x3000)%N.

(** [s.rstrip()]: every trailing whitespace code point is removed. *)
Fixpoint rstrip (s : str) : str :=
  match s with
  | [] => []
  | c :: s' =>
      match rstrip s' with
      | [] => if isspace c then [] else [c]
      | r => c :: r
      end
  end.

(** [s.lstrip()]. *)
Fixpoint lstrip (s : str) : str :=
  match s with
  | [] => []
  | c :: s' => if isspace c then lstrip s' else s
  end.

(** [s.strip()]. *)
Definition strip (s : str) : str := rstrip (lstrip s).

(** [s.split(sep)] for a separator of one code point. The result is never
    empty: [''.split('\n')] is [['']]. *)
Fixpoint split (sep : codepoint) (s : str) : list str :=
  match s with
  | [] => [[]]
  | c :: s' =>
      if N.eqb c sep then [] :: split sep s'
      else match split sep s' with
           | l :: ls => (c :: l) :: ls
           | [] => [[c]]
           end
  end.

(** ["".join(parts)]. *)
Definition join (parts : list str) : str := concat parts.

(** ** Regular expressions of the shape [\b(w1|w2|...)\b]

    [detect_log_level] only asks whether [re.search] finds a match, so the
    model is the boolean "some position of the line matches". [\w] of a [str]
    pattern is [_] or an alphanumeric code point; outside ASCII that is the
    Unicode database of the interpreter, which the model takes as the
    parameter [isalnum_nonascii]. *)

Section Classifier.

Variable isalnum_nonascii : codepoint -> bool.

Definition is_word (c : codepoint) : bool :=
  if N.ltb c 128%N then
    (in_range 48 57 c || in_range 65 90 c || in_range 97 122 c || N.eqb c 95)%N
  else isalnum_nonascii c.

Definition is_word_opt (c : option codepoint) : bool :=
  match c with Some c => is_word c | None => false end.

(** [\b] between the code point before a position and the one at it
    ([None] at either end of the line). *)
Definition word_boundary (prev next : option codepoint) : bool :=
  xorb (is_word_opt prev) (is_word_opt next).

(** The rest of [s] after the literal [w], when [s] starts with [w]. *)
Fixpoint strip_prefix (w s : str) : option str :=
  match w, s with
  | [], _ => Some s
  | a :: w', b :: s' => if N.eqb a b then strip_prefix w' s' else None
  | _ :: _, [] => None
  end.

(** The code point before the position reached after reading [w]. *)
Definition last_of (prev : option codepoint) (w : str) : option codepoint :=
  match rev w with c :: _ => Some c | [] => prev end.

(** [\b(w1|...|wn)\b] anchored at the current position. *)
Definition match_here (alts : list str) (prev : option codepoint) (s : str) : bool :=
  (word_boundary prev (hd_error s)
   && existsb (fun w =>
                 match strip_prefix w s with
                 | Some rest => word_boundary (last_of prev w) (hd_error rest)
                 | None => false
                 end) alts)%bool.

(** [re.search]: the positions of [s] tried from left to right. *)
Fixpoint search_from (alts : list str) (prev : option codepoint) (s : str) : bool :=
  (match_here alts prev s
   || match s with
      | [] => false
      | c :: s' => search_from alts (Some c) s'
      end)%bool.

Definition re_search_words (alts : list str) (line : str) : bool :=
  search_from alts None line.

Definition error_words : list str :=
  [lit "error"; lit "ERROR"; lit "Error"; lit "failed"; lit "FAILED"; lit "Failed";
   lit "exception"; lit "Exception"; lit "EXCEPTION"].

Definition warning_words : list str :=
  [lit "warning"; lit "WARNING"; lit "Warning"; lit "warn"; lit "WARN"; lit "Warn"].

(** The last two alternatives are the check marks U+2713 and U+2714. *)
Definition success_words : list str :=
  [lit "success"; lit "SUCCESS"; lit "Success"; lit "passed"; lit "PASSED"; lit "Passed";
   lit "completed"; lit "COMPLETED"; lit "Completed"; [0x2713%N]; [0x2714%N]].

Definition info_words : list str :=
  [lit "info"; lit "INFO"; lit "Info"; lit "note"; lit "NOTE"; lit "Note"].

Definition detect_log_level (line : str) : string :=
  if re_search_words error_words line then "Error"
  else if re_search_words warning_words line then "Warning"
  else if re_search_words success_words line then "Success"
  else if re_search_words info_words line then "Info"
  else "Other".

End Classifier.

(** ** The window object

    Only the attributes the command runner and the log pipeline use are kept.
    A [subprocess.Popen] object is identified with its pid; it is always truthy,
    so [if self.process] tests for [None]. *)

Definition pid := nat.

(** [FeedbackResult(logs=..., user_feedback=...)], with the keys the
    constructor calls of the source give it. *)
Record FeedbackResult := mkResult { logs : str; user_feedback : str }.

(** One element of [self.log_entries]: [(line, level, line_number)]. *)
Definition log_entry := (str * string * nat)%type.
Definition entry_line (e : log_entry) : str := fst (fst e).
Definition entry_level (e : log_entry) : string := snd (fst e).
Definition entry_number (e : log_entry) : nat := snd e.

(** One paragraph of the [log_text] widget, as [self.log_text.append] adds it:
    the line number of the prefix when line numbers are shown, and the line
    whose highlighted form follows. The HTML markup itself is not modelled. *)
Record log_row := mkRow { row_number : option nat; row_line : str }.

Record FeedbackUI := mkUI {
  project_directory : str;
  process : option pid;
  log_buffer : list str;
  log_entries : list log_entry;
  feedback_result : option FeedbackResult;
  log_text : list log_row;
  log_level_filter : string;          (* currentText() of the combo box *)
  show_line_numbers_check : bool;     (* isChecked() *)
  command_entry : str;                (* text() *)
  feedback_text : str;                (* toPlainText() *)
  run_button : string;                (* the button's caption *)
  closed : bool                       (* the close event was delivered *)
}.

Definition set_process (v : option pid) (ui : FeedbackUI) : FeedbackUI :=
  mkUI (project_directory ui) v (log_buffer ui) (log_entries ui) (feedback_result ui)
       (log_text ui) (log_level_filter ui) (show_line_numbers_check ui)
       (command_entry ui) (feedback_text ui) (run_button ui) (closed ui).

Definition set_log_buffer (v : list str) (ui : FeedbackUI) : FeedbackUI :=
  mkUI (project_directory ui) (process ui) v (log_entries ui) (feedback_result ui)
       (log_text ui) (log_level_filter ui) (show_line_numbers_check ui)
       (command_entry ui) (feedback_text ui) (run_button ui) (closed ui).

Definition set_log_entries (v : list log_entry) (ui : FeedbackUI) : FeedbackUI :=
  mkUI (project_directory ui) (process ui) (log_buffer ui) v (feedback_result ui)
       (log_text ui) (log_level_filter ui) (show_line_numbers_check ui)
       (command_entry ui) (feedback_text ui) (run_button ui) (closed ui).

Definition set_feedback_result (v : option FeedbackResult) (ui : FeedbackUI) : FeedbackUI :=
  mkUI (project_directory ui) (process ui) (log_buffer ui) (log_entries ui) v
       (log_text ui) (log_level_filter ui) (show_line_numbers_check ui)
       (command_entry ui) (feedback_text ui) (run_button ui) (closed ui).

Definition set_log_text (v : list log_row) (ui : FeedbackUI) : FeedbackUI :=
  mkUI (project_directory ui) (process ui) (log_buffer ui) (log_entries ui) (feedback_result ui)
       v (log_level_filter ui) (show_line_numbers_check ui)
       (command_entry ui) (feedback_text ui) (run_button ui) (closed ui).

Definition set_run_button (v : string) (ui : FeedbackUI) : FeedbackUI :=
  mkUI (project_directory ui) (process ui) (log_buffer ui) (log_entries ui) (feedback_result ui)
       (log_text ui) (log_level_filter ui) (show_line_numbers_check ui)
       (command_entry ui) (feedback_text ui) v (closed ui).

Definition set_closed (v : bool) (ui : FeedbackUI) : FeedbackUI :=
  mkUI (project_directory ui) (process ui) (log_buffer ui) (log_entries ui) (feedback_result ui)
       (log_text ui) (log_level_filter ui) (show_line_numbers_check ui)
       (command_entry ui) (feedback_text ui) (run_button ui) v.

(** The attributes [__init__] sets before the window is shown; the texts of the
    widgets come from the saved configuration and settings. *)
Definition new_ui (directory command : str) (line_numbers : bool) : FeedbackUI :=
  mkUI directory None [] [] None [] "All" line_numbers command [] "&Run (Ctrl+R / F5)" false.

(** ** The log stores: [_append_log], [_apply_log_filter], [clear_logs] *)

(** The test both loops make before they show a line:
    [current_filter != "All" and level != current_filter and level != "Other"]. *)
Definition filtered_out (current_filter level : string) : bool :=
  negb (current_filter =? "All") && negb (level =? current_filter) && negb (level =? "Other").

(** [line_prefix + highlight_log_line(line)]. *)
Definition render_row (show_line_numbers : bool) (line : str) (line_number : nat) : log_row :=
  mkRow (if show_line_numbers then Some line_number else None) line.

Section LogStore.

Variable isalnum_nonascii : codepoint -> bool.

(** The body of the [for line in lines] loop of [_append_log]. *)
Definition append_line (ui : FeedbackUI) (line : str) : FeedbackUI :=
  let level := detect_log_level isalnum_nonascii line in
  let line_number := List.length (log_entries ui) + 1 in
  let ui := set_log_entries (log_entries ui ++ [(line, level, line_number)]) ui in
  let current_filter := log_level_filter ui in
  if filtered_out current_filter level then ui
  else
    let show_line_numbers := show_line_numbers_check ui in
    set_log_text (log_text ui ++ [render_row show_line_numbers line line_number]) ui.

Definition _append_log (text : str) (ui : FeedbackUI) : FeedbackUI :=
  let ui := set_log_buffer (log_buffer ui ++ [text]) ui in
  let lines := split NL (rstrip text) in
  fold_left append_line lines ui.

End LogStore.

(** The body of the loop of [_apply_log_filter]. *)
Definition show_entry (current_filter : string) (show_line_numbers : bool)
    (ui : FeedbackUI) (e : log_entry) : FeedbackUI :=
  let '(line, level, line_number) := e in
  if filtered_out current_filter level then ui
  else set_log_text (log_text ui ++ [render_row show_line_numbers line line_number]) ui.

Definition _apply_log_filter (ui : FeedbackUI) : FeedbackUI :=
  let ui := set_log_text [] ui in
  let current_filter := log_level_filter ui in
  let show_line_numbers := show_line_numbers_check ui in
  fold_left (show_entry current_filter show_line_numbers) (log_entries ui) ui.

Definition clear_logs (ui : FeedbackUI) : FeedbackUI :=
  let ui := set_log_buffer [] ui in
  set_log_text [] ui.

(** ** The host: psutil, subprocess and the file system

    What the program asks of the operating system is an interface: each call
    gets the current world and yields a result or the failure the library
    raises, and the next world. psutil reports its failures as subclasses of
    [psutil.Error]; the other calls raise exceptions of other classes, kept by
    their message. *)

Inductive psutil_Error := NoSuchProcess | AccessDenied | ZombieProcess.

Inductive exn :=
| PsutilError (e : psutil_Error)
| OtherException (message : str).

(** [json.dump] of a dict whose values are strings: the object written, its
    members in insertion order. *)
Inductive json_value := JString (s : str).
Definition json := list (string * json_value).

Class Host := {
  World : Type;
  (** [psutil.Process(pid)] *)
  psutil_Process : pid -> World -> (psutil_Error + unit) * World;
  (** [proc.children(recursive=True)] *)
  psutil_children : pid -> World -> (psutil_Error + list pid) * World;
  psutil_kill : pid -> World -> (psutil_Error + unit) * World;
  psutil_is_running : pid -> World -> (psutil_Error + bool) * World;
  psutil_terminate : pid -> World -> (psutil_Error + unit) * World;
  (** [subprocess.Popen(command, shell=True, cwd=..., env=get_user_environment(), ...)] *)
  subprocess_Popen : str -> str -> World -> (str + pid) * World;
  os_path_dirname : str -> str;
  (** [os.makedirs(path, exist_ok=True)] *)
  os_makedirs : str -> World -> (str + unit) * World;
  (** [with open(path, "w") as f: json.dump(doc, f)] *)
  write_json : str -> json -> World -> (str + unit) * World
}.

(** The calls made to the host, in order, each with its outcome. *)
Inductive event :=
| EProcess (p : pid) (r : psutil_Error + unit)
| EChildren (p : pid) (r : psutil_Error + list pid)
| EKill (p : pid) (r : psutil_Error + unit)
| EIsRunning (p : pid) (r : psutil_Error + bool)
| ETerminate (p : pid) (r : psutil_Error + unit)
| EPopen (command cwd : str) (r : str + pid)
| EMakedirs (path : str) (r : str + unit)
| EWriteJson (path : str) (doc : json) (r : str + unit).

Definition is_popen (ev : event) : bool :=
  match ev with EPopen _ _ _ => true | _ => false end.

(** *** What a run of [kill_tree] looks like in the list of calls *)

(** The first loop over the descendants [cs]: one [kill] each, in order;
    [killed] collects those whose [kill] returned. *)
Inductive kill_pass : list pid -> list event -> list pid -> Prop :=
| kill_pass_nil : kill_pass [] [] []
| kill_pass_ok c cs tr killed :
    kill_pass cs tr killed ->
    kill_pass (c :: cs) (EKill c (inr tt) :: tr) (c :: killed)
| kill_pass_failed c cs tr killed err :
    kill_pass cs tr killed ->
    kill_pass (c :: cs) (EKill c (inl err) :: tr) killed.

(** The last loop over [killed]: each process is asked whether it still runs,
    and [terminate] is called on it exactly when it does. A failure of either
    call moves on to the next process. *)
Inductive fallback_pass : list pid -> list event -> Prop :=
| fallback_nil : fallback_pass [] []
| fallback_gone p ps tr :
    fallback_pass ps tr ->
    fallback_pass (p :: ps) (EIsRunning p (inr false) :: tr)
| fallback_unknown p ps tr err :
    fallback_pass ps tr ->
    fallback_pass (p :: ps) (EIsRunning p (inl err) :: tr)
| fallback_alive p ps tr r :
    fallback_pass ps tr ->
    fallback_pass (p :: ps) (EIsRunning p (inr true) :: ETerminate p r :: tr).

(** ** The monad of the methods *)

Section Program.

Context {host : Host}.
Variable isalnum_nonascii : codepoint -> bool.

Record Env := mkEnv { self : FeedbackUI; world : World; calls : list event }.

(** A computation returns a value or raises; the environment it leaves
    behind is kept in both cases. *)
Definition M (A : Type) : Type := Env -> (exn + A) * Env.

Definition ret {A} (a : A) : M A := fun e => (inr a, e).

Definition bind {A B} (m : M A) (k : A -> M B) : M B :=
  fun e => match m e with
           | (inr a, e') => k a e'
           | (inl x, e') => (inl x, e')
           end.

Local Notation "x <- m ;; k" := (bind m (fun x => k))
  (at level 61, m at next level, right associativity).
Local Notation "m ;; k" := (bind m (fun _ => k))
  (at level 61, right associativity).

(** [try: body / except psutil.Error: handler] *)
Definition try_except_psutil {A} (body : M A) (handler : M A) : M A :=
  fun e => match body e with
           | (inl (PsutilError _), e') => handler e'
           | r => r
           end.

(** [try: body / except Exception as e: handler(e)] *)
Definition try_except {A} (body : M A) (handler : exn -> M A) : M A :=
  fun e => match body e with
           | (inl x, e') => handler x e'
           | r => r
           end.

(** [str(e)] *)
Definition str_of_exn (x : exn) : str :=
  match x with
  | PsutilError NoSuchProcess => lit "NoSuchProcess"
  | PsutilError AccessDenied => lit "AccessDenied"
  | PsutilError ZombieProcess => lit "ZombieProcess"
  | OtherException message => message
  end.

Definition gets {A} (f : FeedbackUI -> A) : M A := fun e => (inr (f (self e)), e).

Definition update (f : FeedbackUI -> FeedbackUI) : M unit :=
  fun e => (inr tt, mkEnv (f (self e)) (world e) (calls e)).

(** A call of psutil: the host answers, the call is recorded, a failure is
    raised as [psutil.Error]. *)
Definition psutil_call {A} (op : World -> (psutil_Error + A) * World)
    (record : psutil_Error + A -> event) : M A :=
  fun e => let (r, w) := op (world e) in
           let e' := mkEnv (self e) w (calls e ++ [record r]) in
           match r with
           | inl err => (inl (PsutilError err), e')
           | inr a => (inr a, e')
           end.

(** A call of the standard library. *)
Definition os_call {A} (op : World -> (str + A) * World)
    (record : str + A -> event) : M A :=
  fun e => let (r, w) := op (world e) in
           let e' := mkEnv (self e) w (calls e ++ [record r]) in
           match r with
           | inl message => (inl (OtherException message), e')
           | inr a => (inr a, e')
           end.

Definition Process (p : pid) : M pid :=
  psutil_call (psutil_Process p) (EProcess p) ;; ret p.
Definition children (p : pid) : M (list pid) := psutil_call (psutil_children p) (EChildren p).
Definition kill (p : pid) : M unit := psutil_call (psutil_kill p) (EKill p).
Definition is_running (p : pid) : M bool := psutil_call (psutil_is_running p) (EIsRunning p).
Definition terminate (p : pid) : M unit := psutil_call (psutil_terminate p) (ETerminate p).
Definition Popen (command cwd : str) : M pid :=
  os_call (subprocess_Popen command cwd) (EPopen command cwd).
Definition makedirs (path : str) : M unit := os_call (os_makedirs path) (EMakedirs path).
Definition dump_json (path : str) (doc : json) : M unit :=
  os_call (write_json path doc) (EWriteJson path doc).

(** [for x in xs: acc = body(acc, x)], for a loop that updates a local. *)
Fixpoint for_fold {A B} (xs : list A) (acc : B) (body : B -> A -> M B) : M B :=
  match xs with
  | [] => ret acc
  | x :: xs' => acc' <- body acc x ;; for_fold xs' acc' body
  end.

Fixpoint for_each {A} (xs : list A) (body : A -> M unit) : M unit :=
  match xs with
  | [] => ret tt
  | x :: xs' => body x ;; for_each xs' body
  end.

(** ** [kill_tree] *)

(** The body of the loop over the descendants. *)
Definition kill_descendant (killed : list pid) (proc : pid) : M (list pid) :=
  try_except_psutil (kill proc ;; ret (killed ++ [proc])) (ret killed).

(** The body of the loop over [killed]. *)
Definition terminate_remaining (proc : pid) : M unit :=
  try_except_psutil
    (running <- is_running proc ;; if running then terminate proc else ret tt)
    (ret tt).

Definition kill_tree (process_pid : pid) : M unit :=
  let killed := [] in
  parent <- Process process_pid ;;
  cs <- children parent ;;
  killed <- for_fold cs killed kill_descendant ;;
  try_except_psutil (kill parent) (ret tt) ;;
  let killed := killed ++ [parent] in
  for_each killed terminate_remaining.

(** [if self.process: kill_tree(self.process)], as [closeEvent] and [run]
    have it. *)
Definition kill_running_process : M unit :=
  p <- gets process ;;
  match p with
  | Some h => kill_tree h
  | None => ret tt
  end.

(** ** [FeedbackUI._run_command]

    The reader threads and the status timer started after a successful
    [Popen] are not part of the model. *)

Definition _run_command : M unit :=
  p <- gets process ;;
  match p with
  | Some h =>
      kill_tree h ;;
      update (set_process None) ;;
      update (set_run_button "&Run") ;;
      ret tt
  | None =>
      update (set_log_buffer []) ;;
      command <- gets command_entry ;;
      match command with
      | [] =>
          update (_append_log isalnum_nonascii (lit "Please enter a command to run" ++ [NL])) ;;
          ret tt
      | _ :: _ =>
          update (_append_log isalnum_nonascii (lit "$ " ++ command ++ [NL])) ;;
          update (set_run_button "Sto&p") ;;
          try_except
            (cwd <- gets project_directory ;;
             h <- Popen command cwd ;;
             update (set_process (Some h)))
            (fun x =>
               update (_append_log isalnum_nonascii
                         (lit "Error running command: " ++ str_of_exn x ++ [NL])) ;;
               update (set_run_button "&Run"))
      end
  end.

(** ** [closeEvent], [_submit_feedback], [run], [feedback_ui]

    Saving the window geometry and the feedback history touch neither the
    process nor the logs and are left out. *)

Definition closeEvent : M unit :=
  kill_running_process ;;
  update (set_closed true).

(** [self.close()] delivers the close event to [closeEvent]. An exception
    that leaves the handler is kept as the outcome. *)
Definition close : M unit := closeEvent.

Definition _submit_feedback : M unit :=
  text <- gets (fun ui => strip (feedback_text ui)) ;;
  buffer <- gets log_buffer ;;
  update (set_feedback_result (Some (mkResult (join buffer) text))) ;;
  close.

(** [run]: [exec] stands for [self.show()] and the event loop, whatever the
    slots it runs do. *)
Definition run (exec : M unit) : M FeedbackResult :=
  exec ;;
  kill_running_process ;;
  r <- gets feedback_result ;;
  match r with
  | None => buffer <- gets log_buffer ;; ret (mkResult (join buffer) [])
  | Some result => ret result
  end.

Definition json_of_result (result : FeedbackResult) : json :=
  [("logs", JString (logs result)); ("user_feedback", JString (user_feedback result))].

(** [feedback_ui]; [result] is a dict of two keys, hence truthy, and
    [output_file] is truthy when it is neither [None] nor empty. *)
Definition feedback_ui (exec : M unit) (output_file : option str) : M (option FeedbackResult) :=
  result <- run exec ;;
  match output_file with
  | Some (c :: path) =>
      let output_file := c :: path in
      let dir := match os_path_dirname output_file with
                 | [] => lit "."
                 | d => d
                 end in
      makedirs dir ;;
      dump_json output_file (json_of_result result) ;;
      ret None
  | _ => ret (Some result)
  end.

End Program.

Arguments Env {host}.
Arguments mkEnv {host} _ _ _.

(** ** A small host for the examples

    A process table (pid, parent pid, whether the process refuses signals) and
    a table of files. It serves to run the model on concrete inputs. *)

Record sim_process := mkProc { proc_pid : pid; proc_ppid : pid; proc_protected : bool }.

Record sim_world := mkWorld { procs : list sim_process; files : list (str * json) }.

Definition sim_exists (p : pid) (w : sim_world) : bool :=
  existsb (fun q => Nat.eqb (proc_pid q) p) (procs w).

Definition sim_direct_children (p : pid) (w : sim_world) : list pid :=
  map proc_pid (filter (fun q => Nat.eqb (proc_ppid q) p) (procs w)).

Fixpoint sim_descendants (fuel : nat) (p : pid) (w : sim_world) : list pid :=
  match fuel with
  | 0 => []
  | S fuel' => flat_map (fun c => c :: sim_descendants fuel' c w) (sim_direct_children p w)
  end.

Definition sim_signal (p : pid) (w : sim_world) : (psutil_Error + unit) * sim_world :=
  match find (fun q => Nat.eqb (proc_pid q) p) (procs w) with
  | None => (inl NoSuchProcess, w)
  | Some q =>
      if proc_protected q then (inl AccessDenied, w)
      else (inr tt, mkWorld (filter (fun q => negb (Nat.eqb (proc_pid q) p)) (procs w)) (files w))
  end.

Fixpoint drop_while (f : codepoint -> bool) (s : str) : str :=
  match s with
  | [] => []
  | c :: s' => if f c then drop_while f s' else s
  end.

(** [posixpath.dirname]. *)
Definition sim_dirname (path : str) : str :=
  let slash := 47%N in
  let head := rev (drop_while (fun c => negb (N.eqb c slash)) (rev path)) in
  if forallb (N.eqb slash) head then head
  else rev (drop_while (N.eqb slash) (rev head)).

Definition sim_Popen (command cwd : str) (w : sim_world) : (str + pid) * sim_world :=
  match cwd with
  | [] => (inl (lit "[Errno 2] No such file or directory: ''"), w)
  | _ :: _ =>
      let h := S (fold_right Nat.max 0 (map proc_pid (procs w))) in
      (inr h, mkWorld (procs w ++ [mkProc h 0 false]) (files w))
  end.

#[local] Instance sim_host : Host := {|
  World := sim_world;
  psutil_Process p w := (if sim_exists p w then inr tt else inl NoSuchProcess, w);
  psutil_children p w :=
    (if sim_exists p w then inr (sim_descendants (List.length (procs w)) p w)
     else inl NoSuchProcess, w);
  psutil_kill := sim_signal;
  psutil_is_running p w := (inr (sim_exists p w), w);
  psutil_terminate := sim_signal;
  subprocess_Popen := sim_Popen;
  os_path_dirname := sim_dirname;
  os_makedirs path w := (inr tt, w);
  write_json path doc w := (inr tt, mkWorld (procs w) ((path, doc) :: files w))
|}.

(** No code point beyond ASCII counts as alphanumeric: enough for the ASCII
    lines of the examples, on which the table is never consulted. *)
Definition ascii_only : codepoint -> bool := fun _ => false.

(** ** The specification's reading of [append]

    These two definitions follow the words of the specification rather than
    the source, to compare the source with. *)

(** "trimming only a single trailing newline from the whole chunk". *)
Fixpoint trim_one_trailing_newline (s : str) : str :=
  match s with
  | [] => []
  | [c] => if N.eqb c NL then [] else [c]
  | c :: s' => c :: trim_one_trailing_newline s'
  end.

Definition lines_of_specification (chunk : str) : list str :=
  split NL (trim_one_trailing_newline chunk).

(** ** Vocabulary of the statements *)

(** Lower case of an ASCII letter, to compare words "regardless of case". *)
Definition ascii_lower (c : codepoint) : codepoint :=
  if in_range 65%N 90%N c then (c + 32)%N else c.

(** The text [_copy_logs] and [_export_logs] hand out. *)
Definition exported_logs (ui : FeedbackUI) : str := join (log_buffer ui).

(** The entries [_append_log] adds for the lines [ls], the first of them
    numbered [n]. *)
Fixpoint numbered (level_of : str -> string) (n : nat) (ls : list str) : list log_entry :=
  match ls with
  | [] => []
  | l :: ls' => (l, level_of l, n) :: numbered level_of (S n) ls'
  end.

(** The entries a level filter lets through. *)
Definition shown (current_filter : string) (e : log_entry) : bool :=
  (current_filter =? "All") || (entry_level e =? current_filter) || (entry_level e =? "Other").

Definition row_of_entry (show_line_numbers : bool) (e : log_entry) : log_row :=
  render_row show_line_numbers (entry_line e) (entry_number e).

(** The operations on the log stores, for statements over sequences of calls. *)
Inductive log_op :=
| Append (text : str)
| Clear
| Refilter.

Definition apply_log_op (isalnum_nonascii : codepoint -> bool) (ui : FeedbackUI) (op : log_op)
    : FeedbackUI :=
  match op with
  | Append text => _append_log isalnum_nonascii text ui
  | Clear => clear_logs ui
  | Refilter => _apply_log_filter ui
  end.

(** [sep.join(parts)] for a separator of one code point. *)
Fixpoint join_with (sep : codepoint) (parts : list str) : str :=
  match parts with
  | [] => []
  | [l] => l
  | l :: ls => l ++ sep :: join_with sep ls
  end.

(** ** Example inputs *)

(** A fresh window: no command typed, line numbers off. *)
Definition ui_fresh : FeedbackUI := new_ui (lit "/work") [] false.

(** A window whose store holds four lines, of levels Error, Info, Other and
    Warning, with the filter set to Error. *)
Definition ui_four_levels : FeedbackUI :=
  mkUI (lit "/work") None []
       [(lit "error: x", "Error", 1); (lit "info: y", "Info", 2);
        (lit "plain", "Other", 3); (lit "warning: z", "Warning", 4)]
       None [] "Error" false [] [] "&Run" false.

(** A host with the child process 1 of the window and its own child 2, which
    refuses signals. *)
Definition world_tree : sim_world :=
  mkWorld [mkProc 1 0 false; mkProc 2 1 true] [].

(** The window while process 1 runs, with a line in its buffer and feedback
    typed with blanks around it. *)
Definition ui_running : FeedbackUI :=
  mkUI (lit "/work") (Some 1) [lit "$ make" ++ [NL]] [(lit "$ make", "Other", 1)]
       None [mkRow None (lit "$ make")] "All" false (lit "make") (lit " looks good ")
       "Sto&p" false.

Definition env_running : Env := mkEnv ui_running world_tree [].

(** The fresh window on the same host. *)
Definition env_idle : Env := mkEnv ui_fresh world_tree [].

(** * The rest of the program

    The slots, helpers and start-up code that the sections above leave out. *)

(** ** The remaining slots of the log pipeline *)

Definition set_log_level_filter (v : string) (ui : FeedbackUI) : FeedbackUI :=
  mkUI (project_directory ui) (process ui) (log_buffer ui) (log_entries ui) (feedback_result ui)
       (log_text ui) v (show_line_numbers_check ui)
       (command_entry ui) (feedback_text ui) (run_button ui) (closed ui).

Definition set_show_line_numbers_check (v : bool) (ui : FeedbackUI) : FeedbackUI :=
  mkUI (project_directory ui) (process ui) (log_buffer ui) (log_entries ui) (feedback_result ui)
       (log_text ui) (log_level_filter ui) v
       (command_entry ui) (feedback_text ui) (run_button ui) (closed ui).

Definition set_command_entry (v : str) (ui : FeedbackUI) : FeedbackUI :=
  mkUI (project_directory ui) (process ui) (log_buffer ui) (log_entries ui) (feedback_result ui)
       (log_text ui) (log_level_filter ui) (show_line_numbers_check ui)
       v (feedback_text ui) (run_button ui) (closed ui).

Definition set_feedback_text (v : str) (ui : FeedbackUI) : FeedbackUI :=
  mkUI (project_directory ui) (process ui) (log_buffer ui) (log_entries ui) (feedback_result ui)
       (log_text ui) (log_level_filter ui) (show_line_numbers_check ui)
       (command_entry ui) v (run_button ui) (closed ui).

(** [_toggle_line_numbers]: the check box already has its new state when the
    slot runs; the slot saves the setting (left out) and renders again. *)
Definition _toggle_line_numbers (ui : FeedbackUI) : FeedbackUI := _apply_log_filter ui.

(** ** [Popen.poll] and [_check_process_status] *)

(** [self.process.poll()]: the exit code once the child has ended. The Popen
    object keeps the code it saw, so a later poll gives the same answer without
    asking the system again ([poll_stable]). Polls are not among the recorded
    calls. *)
Class Polling {host : Host} := {
  Popen_poll : pid -> World -> option Z * World;
  poll_stable :
    forall (p : pid) (w w' : World) (code : Z),
      Popen_poll p w = (Some code, w') -> Popen_poll p w' = (Some code, w')
}.

(** [str(n)] of an int. *)
Definition str_of_int (n : Z) : str := lit (DecimalString.NilZero.string_of_int (Z.to_int n)).

(** [f"{exit_code}"], where [exit_code] is what [poll()] returned. *)
Definition format_exit_code (exit_code : option Z) : str :=
  match exit_code with
  | Some n => str_of_int n
  | None => lit "None"
  end.

(** The user's actions and the signals that reach the window while the event
    loop runs, each with the slot it is connected to. *)
Inductive ui_event :=
| RunRequested                      (* run button, Return in the entry, Ctrl+R, F5 *)
| CommandEdited (text : str)        (* typing in [command_entry] *)
| FeedbackEdited (text : str)       (* typing in [feedback_text] *)
| LogReceived (text : str)          (* [log_signals.append_log] from a reader thread *)
| StatusTimeout                     (* [status_timer.timeout] *)
| ClearRequested                    (* clear button, Ctrl+L *)
| FilterChanged (level : string)    (* [log_level_filter.currentTextChanged] *)
| LineNumbersToggled (checked : bool)
| SubmitRequested                   (* submit button, Ctrl+Return *)
| CloseRequested.                   (* the window's close button *)

Definition is_submit (ev : ui_event) : bool :=
  match ev with SubmitRequested => true | _ => false end.

Definition is_clear (ev : ui_event) : bool :=
  match ev with ClearRequested => true | _ => false end.

Section Slots.

Context {host : Host} {polling : Polling}.
Variable isalnum_nonascii : codepoint -> bool.

Local Notation "x <- m ;; k" := (bind m (fun x => k))
  (at level 61, m at next level, right associativity).
Local Notation "m ;; k" := (bind m (fun _ => k))
  (at level 61, right associativity).

Definition poll (p : pid) : M (option Z) :=
  fun e => let (r, w) := Popen_poll p (world e) in (inr r, mkEnv (self e) w (calls e)).

(** Bringing the window to the front and focusing the feedback box are left
    out. *)
Definition _check_process_status : M unit :=
  p <- gets process ;;
  match p with
  | None => ret tt
  | Some h =>
      r <- poll h ;;
      match r with
      | None => ret tt
      | Some _ =>
          exit_code <- poll h ;;
          update (_append_log isalnum_nonascii
                    ([NL] ++ lit "Process exited with code " ++ format_exit_code exit_code
                       ++ [NL])) ;;
          update (set_run_button "&Run") ;;
          update (set_process None)
      end
  end.

(** The slot an event runs. *)
Definition dispatch (ev : ui_event) : M unit :=
  match ev with
  | RunRequested => _run_command isalnum_nonascii
  | CommandEdited text => update (set_command_entry text)
  | FeedbackEdited text => update (set_feedback_text text)
  | LogReceived text => update (_append_log isalnum_nonascii text)
  | StatusTimeout => _check_process_status
  | ClearRequested => update clear_logs
  | FilterChanged level =>
      update (set_log_level_filter level) ;; update _apply_log_filter
  | LineNumbersToggled checked =>
      update (set_show_line_numbers_check checked) ;; update _toggle_line_numbers
  | SubmitRequested => _submit_feedback
  | CloseRequested => close
  end.

(** The event loop: one slot after the other. Qt reports an exception raised
    in a slot and goes on with the next event, so the outcome of a slot is
    dropped and what it did to the window and the host stays. *)
Definition event_loop (events : list ui_event) : M unit :=
  fun e => (inr tt, fold_left (fun e ev => snd (dispatch ev e)) events e).

End Slots.

(** The simulated host tells a process has ended, with exit code 0, once it is
    gone from the process table. *)
Definition sim_poll (p : pid) (w : sim_world) : option Z * sim_world :=
  (if sim_exists p w then None else Some 0%Z, w).

#[local] Instance sim_polling : @Polling sim_host :=
  @Build_Polling sim_host sim_poll
    ltac:(intros p w w' code H; unfold sim_poll in *;
          destruct (sim_exists p w) eqn:E; [discriminate|];
          injection H as <- <-; rewrite E; reflexivity).

(** The code points of a decimal numeral: the sign and the ten digits. *)
Definition numeral_char (c : codepoint) : bool := (N.eqb c 45 || in_range 48 57 c)%N.

(** A host on which process 5, held by the window, has ended. *)
Definition env_exited : Env :=
  mkEnv (mkUI (lit "/work") (Some 5) [lit "$ true" ++ [NL]] [(lit "$ true", "Other", 1)]
              None [mkRow None (lit "$ true")] "All" false (lit "true") [] "Sto&p" false)
        world_tree [].

(** The fresh window with the command [make] typed. *)
Definition env_typed : Env := mkEnv (set_command_entry (lit "make") ui_fresh) world_tree [].

(** The same in a window without project directory, where nothing can be
    started. *)
Definition env_no_directory : Env := mkEnv (new_ui [] (lit "make") false) world_tree [].

(** The display shows the store: the rows are the stored entries the filter
    lets through, in order. *)
Definition display_matches_store (ui : FeedbackUI) : Prop :=
  log_text ui
  = map (row_of_entry (show_line_numbers_check ui))
      (filter (shown (log_level_filter ui)) (log_entries ui)).

(** The caption of the run button goes with the handle: "Sto&p" while a
    process is held; with none held, "&Run", or the caption [__init__] gave the
    button. *)
Definition button_in_step (ui : FeedbackUI) : Prop :=
  match process ui with
  | Some _ => run_button ui = "Sto&p"
  | None => run_button ui = "&Run" \/ run_button ui = "&Run (Ctrl+R / F5)"
  end.

(** ** [highlight_log_line] *)

(** [s.replace(old, new)] for [old] of one code point. *)
Fixpoint replace_char (old : codepoint) (new s : str) : str :=
  match s with
  | [] => []
  | c :: s' =>
      if N.eqb c old then new ++ replace_char old new s' else c :: replace_char old new s'
  end.

(** The first statement of [highlight_log_line]: the three replacements, one
    after the other. *)
Definition escape_html (line : str) : str :=
  replace_char 62%N (lit "&gt;")
    (replace_char 60%N (lit "&lt;") (replace_char 38%N (lit "&amp;") line)).

(** The double quote, which a literal of this file cannot hold. *)
Definition QUOTE : codepoint := 34%N.

(** [f'<span style="{style}">{text}</span>']. *)
Definition span (style : string) (text : str) : str :=
  lit "<span style=" ++ [QUOTE] ++ lit style ++ [QUOTE] ++ lit ">" ++ text ++ lit "</span>".

Fixpoint take_while (f : codepoint -> bool) (s : str) : str :=
  match s with
  | [] => []
  | c :: s' => if f c then c :: take_while f s' else []
  end.

(** [re.sub(pattern, r'<span style="...">\1</span>', s)] for a pattern whose
    matches are not empty and are the whole of group 1. [match_at prev s] is
    the length of the match that starts at the current position, [prev] being
    the code point before it. Positions are tried from left to right; [skip]
    counts the code points of a match still to pass, which are emitted with the
    match. *)
Fixpoint re_sub_from (match_at : option codepoint -> str -> option nat) (style : string)
    (skip : nat) (prev : option codepoint) (s : str) : str :=
  match s with
  | [] => []
  | c :: s' =>
      match skip with
      | S k => re_sub_from match_at style k (Some c) s'
      | 0 =>
          match match_at prev s with
          | Some n =>
              span style (firstn n s) ++ re_sub_from match_at style (Nat.pred n) (Some c) s'
          | None => c :: re_sub_from match_at style 0 (Some c) s'
          end
      end
  end.

Definition re_sub (match_at : option codepoint -> str -> option nat) (style : string)
    (s : str) : str :=
  re_sub_from match_at style 0 None s.

Section Highlight.

(** The Unicode database outside ASCII: which code points [\w] and [\d]
    accept. *)
Variable isalnum_nonascii : codepoint -> bool.
Variable isdecimal_nonascii : codepoint -> bool.

(** [\d] of a [str] pattern. *)
Definition is_digit (c : codepoint) : bool :=
  if N.ltb c 128%N then in_range 48%N 57%N c else isdecimal_nonascii c.

(** The class [[\w/\\.-]]. *)
Definition in_path_class (c : codepoint) : bool :=
  (is_word isalnum_nonascii c || N.eqb c 47 || N.eqb c 92 || N.eqb c 46 || N.eqb c 45)%N.

(** The end of a path: within a run [r] of the class, the last dot that a word
    character follows, with the word characters after it. The result counts
    the code points of [r] up to there. *)
Fixpoint path_extension (r : str) : option nat :=
  match r with
  | [] => None
  | c :: r' =>
      match path_extension r' with
      | Some n => Some (S n)
      | None =>
          if (N.eqb c 46%N && is_word_opt isalnum_nonascii (hd_error r'))%bool
          then Some (S (List.length (take_while (is_word isalnum_nonascii) r')))
          else None
      end
  end.

(** [([/\\][\w/\\.-]+\.\w+)] at the current position: a slash or backslash, the
    longest run of the class that still leaves a dot and a word character to
    follow, the dot, and all the word characters after it. *)
Definition match_path (prev : option codepoint) (s : str) : option nat :=
  match s with
  | c :: t =>
      if (N.eqb c 47 || N.eqb c 92)%N then
        match take_while in_path_class t with
        | _ :: r' =>
            match path_extension r' with
            | Some n => Some (S (S n))
            | None => None
            end
        | [] => None
        end
      else None
  | [] => None
  end.

(** [(https?://[^\s]+)] at the current position. *)
Definition match_url (prev : option codepoint) (s : str) : option nat :=
  let rest :=
    match strip_prefix (lit "https://") s with
    | Some rest => Some (8, rest)
    | None =>
        match strip_prefix (lit "http://") s with
        | Some rest => Some (7, rest)
        | None => None
        end
    end in
  match rest with
  | Some (n, rest) =>
      match take_while (fun c => negb (isspace c)) rest with
      | [] => None
      | run => Some (n + List.length run)
      end
  | None => None
  end.

(** The digits of [\b(\d+)\b] after the digit [last]: as many as possible such
    that a word boundary follows. The result counts the digits after [last]. *)
Fixpoint number_rest (last : codepoint) (s : str) : option nat :=
  let here :=
    if word_boundary isalnum_nonascii (Some last) (hd_error s) then Some 0 else None in
  match s with
  | c :: s' =>
      if is_digit c then
        match number_rest c s' with
        | Some n => Some (S n)
        | None => here
        end
      else here
  | [] => here
  end.

(** [\b(\d+)\b] at the current position. *)
Definition match_number (prev : option codepoint) (s : str) : option nat :=
  match s with
  | c :: s' =>
      if (word_boundary isalnum_nonascii prev (Some c) && is_digit c)%bool then
        match number_rest c s' with
        | Some n => Some (S n)
        | None => None
        end
      else None
  | [] => None
  end.

(** [(\d{2}:\d{2}:\d{2})] at the current position. *)
Definition match_timestamp (prev : option codepoint) (s : str) : option nat :=
  match s with
  | a :: b :: c :: d :: e :: f :: g :: h :: _ =>
      if (is_digit a && is_digit b && N.eqb c 58%N && is_digit d && is_digit e
          && N.eqb f 58%N && is_digit g && is_digit h)%bool
      then Some 8
      else None
  | _ => None
  end.

(** The four substitutions at the end of [highlight_log_line]. *)
Definition highlight_tokens (line : str) : str :=
  let line := re_sub match_path "color: #1abc9c;" line in
  let line := re_sub match_url "color: #3498db; text-decoration: underline;" line in
  let line := re_sub match_number "color: #9b59b6;" line in
  let line := re_sub match_timestamp "color: #95a5a6;" line in
  line.

Definition highlight_log_line (line : str) : str :=
  let line := escape_html line in
  if re_search_words isalnum_nonascii error_words line
  then span "color: #e74c3c; font-weight: bold;" line
  else if re_search_words isalnum_nonascii warning_words line
  then span "color: #f39c12; font-weight: bold;" line
  else if re_search_words isalnum_nonascii success_words line
  then span "color: #2ecc71; font-weight: bold;" line
  else if re_search_words isalnum_nonascii info_words line
  then span "color: #3498db;" line
  else highlight_tokens line.

End Highlight.

(** What the three replacements of [escape_html] make of one code point. *)
Definition escape_char (c : codepoint) : str :=
  if N.eqb c 38%N then lit "&amp;"
  else if N.eqb c 60%N then lit "&lt;"
  else if N.eqb c 62%N then lit "&gt;"
  else [c].

(** The style [highlight_log_line] gives a whole line of a level. *)
Definition level_style (level : string) : option string :=
  if level =? "Error" then Some "color: #e74c3c; font-weight: bold;"
  else if level =? "Warning" then Some "color: #f39c12; font-weight: bold;"
  else if level =? "Success" then Some "color: #2ecc71; font-weight: bold;"
  else if level =? "Info" then Some "color: #3498db;"
  else None.

(** Words as the patterns of [detect_log_level] list them: not empty, without
    [&], [<] and [>], and starting with none of [&], [a], [l], [g] and [;]. *)
Definition plain_word (w : str) : bool :=
  match w with
  | [] => false
  | a :: _ =>
      negb (existsb (N.eqb a) [38; 97; 108; 103; 59]%N)
      && forallb (fun c => negb (existsb (N.eqb c) [38; 60; 62]%N)) w
  end.

(** Equality of strings, as a test. *)
Fixpoint str_eqb (a b : str) : bool :=
  match a, b with
  | [], [] => true
  | x :: a', y :: b' => N.eqb x y && str_eqb a' b'
  | _, _ => false
  end.

(** ** The script [test_layout.py]

    What the script prints, one text for each call of [print], with the outcome
    of the call of [feedback_ui]. The result of [feedback_ui] is tested for
    truth: [None] is false, a [FeedbackResult] (a dict of two keys) true. *)

Definition closed_without_feedback : str :=
  [NL] ++ lit "UI was closed without submitting feedback".

Section Scripts.

Context {host : Host}.

Definition test_layout (exec : M unit) (project_dir prompt : str) (e : Env)
    : list str * ((exn + unit) * Env) :=
  let printed :=
    [lit "Testing UI with project directory: " ++ project_dir; lit "Prompt: " ++ prompt] in
  match feedback_ui exec None e with
  | (inl raised, e') => (printed, (inl raised, e'))
  | (inr (Some result), e') =>
      (printed ++ [[NL] ++ lit "=== RESULT ===";
                   lit "User Feedback: " ++ user_feedback result;
                   [NL] ++ lit "Command Logs:" ++ [NL] ++ logs result],
       (inr tt, e'))
  | (inr None, e') => (printed ++ [closed_without_feedback], (inr tt, e'))
  end.

End Scripts.

(** ** Configuration, templates and history

    [self.config] is read at the keys [run_command], [execute_automatically],
    [command_templates] and [feedback_templates]; a key can be missing. The
    values are taken to have the types the program expects of them. *)
Record FeedbackConfig := mkConfig {
  run_command : option str;
  execute_automatically : option bool;
  command_templates : option (list str);
  feedback_templates : option (list str)
}.

(** [self.config.get(key, [])]. *)
Definition get_list (v : option (list str)) : list str :=
  match v with Some l => l | None => [] end.

(** [x in l] and [l.remove(x)] on a list of strings. *)
Definition str_in (x : str) (l : list str) : bool := existsb (str_eqb x) l.

Fixpoint list_remove (x : str) (l : list str) : list str :=
  match l with
  | [] => []
  | y :: l' => if str_eqb y x then l' else y :: list_remove x l'
  end.

(** [entry.get(key, "")] on a dict of strings. *)
Fixpoint dict_get (key : string) (d : json) : str :=
  match d with
  | [] => []
  | (k, JString v) :: d' => if String.eqb k key then v else dict_get key d'
  end.

(** [text[:n] + "..." if len(text) > n else text]. *)
Definition shorten (n : nat) (text : str) : str :=
  if Nat.ltb n (List.length text) then firstn n text ++ lit "..." else text.

(** [l[-n:]]. *)
Definition last_n {A} (n : nat) (l : list A) : list A := skipn (List.length l - n) l.

(** [self.history[-20:] if len(self.history) > 20 else self.history]. *)
Definition history_to_save (history : list json) : list json :=
  if Nat.ltb 20 (List.length history) then last_n 20 history else history.

(** A combo box: its items, each a text with the data attached to it, and the
    current index, which is -1 when the box is empty. Adding the first item
    makes it the current one. Whenever the current index changes the box
    emits [currentIndexChanged]; the three slots connected to that signal do
    nothing for an index that is not positive. *)
Record ComboBox (A : Type) := mkCombo {
  items : list (str * option A);
  currentIndex : Z
}.
Arguments mkCombo {A} _ _.
Arguments items {A} _.
Arguments currentIndex {A} _.

Definition combo_clear {A} : ComboBox A := mkCombo [] (-1)%Z.

Definition addItem {A} (text : str) (data : option A) (c : ComboBox A) : ComboBox A :=
  mkCombo (items c ++ [(text, data)])
          (match items c with [] => 0%Z | _ :: _ => currentIndex c end).

Definition valid_index {A} (i : Z) (c : ComboBox A) : bool :=
  (Z.leb 0 i && Z.ltb i (Z.of_nat (List.length (items c))))%bool.

Definition setCurrentIndex {A} (i : Z) (c : ComboBox A) : ComboBox A :=
  mkCombo (items c) (if valid_index i c then i else (-1)%Z).

Definition item_at {A} (i : Z) (c : ComboBox A) : option (str * option A) :=
  if Z.leb 0 i then nth_error (items c) (Z.to_nat i) else None.

Definition itemData {A} (i : Z) (c : ComboBox A) : option A :=
  match item_at i c with Some (_, data) => data | None => None end.

Definition currentText {A} (c : ComboBox A) : str :=
  match item_at (currentIndex c) c with Some (text, _) => text | None => [] end.

(** The files the window writes besides the result: each call of [json.dump]
    with what it was given and how it ended. *)
Inductive storage_call :=
| ConfigWritten (c : FeedbackConfig) (r : str + unit)
| HistoryWritten (h : list json) (r : str + unit).

(** What the window asks of the desktop besides the host of the processes. *)
Class Desktop {host : Host} := {
  (** [datetime.datetime.now().isoformat()] *)
  datetime_now : World -> str * World;
  (** [datetime.datetime.fromisoformat(t).strftime("%m/%d %H:%M")], [None]
      when the text is no date. *)
  format_time : str -> option str;
  (** [with open(self.config_path, "w") as f: json.dump(self.config, f, indent=2)] *)
  write_config : FeedbackConfig -> World -> (str + unit) * World;
  (** The same for the history. *)
  write_history : list json -> World -> (str + unit) * World;
  (** [QInputDialog.getText] of [_save_feedback_template]: whether OK was
      pressed. *)
  confirm_save : str -> World -> bool * World;
  (** [QMessageBox.question] of [_delete_feedback_template]: whether the
      answer was Yes. *)
  confirm_delete : str -> World -> bool * World
}.

(** The events of the panels around the log: the events of [ui_event], and
    what the user does with the templates, the history and the settings. An
    [Activated] event is the user choosing an item of a combo box;
    [FileDropped] is a drop on the command entry, with the local path of the
    first URL dropped and the place of the cursor. The timer that
    [_save_template] starts ends with [CaptionTimeout]. *)
Inductive panel_event :=
| Window (ev : ui_event)
| AutoToggled (checked : bool)
| SaveConfigRequested
| TemplateActivated (index : Z)
| SaveTemplateRequested
| FeedbackTemplateActivated (index : Z)
| SaveFeedbackTemplateRequested
| DeleteFeedbackTemplateRequested
| HistoryActivated (index : Z)
| CursorMoved (anchor position : nat)
| FileDropped (file_path : str) (cursor_pos : nat)
| CaptionTimeout.

Definition is_delete_request (ev : panel_event) : bool :=
  match ev with DeleteFeedbackTemplateRequested => true | _ => false end.

(** The events that start or end a timer of [_save_template]. *)
Definition is_caption_event (ev : panel_event) : bool :=
  match ev with SaveTemplateRequested | CaptionTimeout => true | _ => false end.

(** A list of templates without duplicates and without an empty one. *)
Definition tidy (templates : list str) : Prop := NoDup templates /\ ~ In [] templates.

Section Preferences.

Context {host : Host} {polling : Polling} {desktop : Desktop}.
Variable isalnum_nonascii : codepoint -> bool.

(** The window with its panels. [feedback_cursor] is the selection of the
    feedback box, from its anchor to its position; [caption_timers] holds the
    captions that the running timers of [_save_template] will put back, the
    oldest first. *)
Record Panel := mkPanel {
  window : Env;
  prompt : str;
  config : FeedbackConfig;
  history : list json;
  auto_check : bool;
  templates_combo : ComboBox unit;
  feedback_templates_combo : ComboBox str;
  history_combo : ComboBox json;
  feedback_cursor : nat * nat;
  caption_timers : list string;
  storage : list storage_call
}.

Definition set_window (v : Env) (p : Panel) : Panel :=
  mkPanel v (prompt p) (config p) (history p) (auto_check p) (templates_combo p)
          (feedback_templates_combo p) (history_combo p) (feedback_cursor p)
          (caption_timers p) (storage p).
Definition set_config (v : FeedbackConfig) (p : Panel) : Panel :=
  mkPanel (window p) (prompt p) v (history p) (auto_check p) (templates_combo p)
          (feedback_templates_combo p) (history_combo p) (feedback_cursor p)
          (caption_timers p) (storage p).
Definition set_history (v : list json) (p : Panel) : Panel :=
  mkPanel (window p) (prompt p) (config p) v (auto_check p) (templates_combo p)
          (feedback_templates_combo p) (history_combo p) (feedback_cursor p)
          (caption_timers p) (storage p).
Definition set_auto_check (v : bool) (p : Panel) : Panel :=
  mkPanel (window p) (prompt p) (config p) (history p) v (templates_combo p)
          (feedback_templates_combo p) (history_combo p) (feedback_cursor p)
          (caption_timers p) (storage p).
Definition set_templates_combo (v : ComboBox unit) (p : Panel) : Panel :=
  mkPanel (window p) (prompt p) (config p) (history p) (auto_check p) v
          (feedback_templates_combo p) (history_combo p) (feedback_cursor p)
          (caption_timers p) (storage p).
Definition set_feedback_templates_combo (v : ComboBox str) (p : Panel) : Panel :=
  mkPanel (window p) (prompt p) (config p) (history p) (auto_check p) (templates_combo p)
          v (history_combo p) (feedback_cursor p) (caption_timers p) (storage p).
Definition set_history_combo (v : ComboBox json) (p : Panel) : Panel :=
  mkPanel (window p) (prompt p) (config p) (history p) (auto_check p) (templates_combo p)
          (feedback_templates_combo p) v (feedback_cursor p) (caption_timers p) (storage p).
Definition set_feedback_cursor (v : nat * nat) (p : Panel) : Panel :=
  mkPanel (window p) (prompt p) (config p) (history p) (auto_check p) (templates_combo p)
          (feedback_templates_combo p) (history_combo p) v (caption_timers p) (storage p).
Definition set_caption_timers (v : list string) (p : Panel) : Panel :=
  mkPanel (window p) (prompt p) (config p) (history p) (auto_check p) (templates_combo p)
          (feedback_templates_combo p) (history_combo p) (feedback_cursor p) v (storage p).
Definition set_storage (v : list storage_call) (p : Panel) : Panel :=
  mkPanel (window p) (prompt p) (config p) (history p) (auto_check p) (templates_combo p)
          (feedback_templates_combo p) (history_combo p) (feedback_cursor p)
          (caption_timers p) v.

(** The widgets of the window itself. *)
Definition ui (p : Panel) : FeedbackUI := self (window p).

Definition set_ui (f : FeedbackUI -> FeedbackUI) (p : Panel) : Panel :=
  set_window (mkEnv (f (ui p)) (world (window p)) (calls (window p))) p.

(** A slot of the panels: it returns or raises, and leaves the panel behind
    in both cases. *)
Definition PM (A : Type) : Type := Panel -> (exn + A) * Panel.

Definition pret {A} (a : A) : PM A := fun p => (inr a, p).

Definition pbind {A B} (m : PM A) (k : A -> PM B) : PM B :=
  fun p => match m p with
           | (inr a, p') => k a p'
           | (inl x, p') => (inl x, p')
           end.

Local Notation "x <- m ;; k" := (pbind m (fun x => k))
  (at level 61, m at next level, right associativity).
Local Notation "m ;; k" := (pbind m (fun _ => k))
  (at level 61, right associativity).

Definition pgets {A} (f : Panel -> A) : PM A := fun p => (inr (f p), p).

Definition modify (f : Panel -> Panel) : PM unit := fun p => (inr tt, f p).

(** A slot of the window itself, run on the window of the panel. *)
Definition lift {A} (m : M A) : PM A :=
  fun p => let (r, e) := m (window p) in (r, set_window e p).

(** A question to the desktop. *)
Definition ask {A} (op : World -> A * World) : PM A :=
  fun p => let (a, w) := op (world (window p)) in
           (inr a, set_window (mkEnv (ui p) w (calls (window p))) p).

(** [_save_config]: the failure of the write is raised. *)
Definition _save_config : PM unit :=
  fun p => let (r, w) := write_config (config p) (world (window p)) in
           let p' := set_storage (storage p ++ [ConfigWritten (config p) r])
                       (set_window (mkEnv (ui p) w (calls (window p))) p) in
           match r with
           | inl message => (inl (OtherException message), p')
           | inr tt => (inr tt, p')
           end.

(** [_save_history]: the failure of the write is printed and dropped. *)
Definition _save_history : PM unit :=
  fun p => let history_to_save := history_to_save (history p) in
           let (r, w) := write_history history_to_save (world (window p)) in
           (inr tt,
            set_storage (storage p ++ [HistoryWritten history_to_save r])
              (set_window (mkEnv (ui p) w (calls (window p))) p)).

Definition _add_to_history (feedback : str) : PM unit :=
  now <- ask datetime_now ;;
  prompt <- pgets prompt ;;
  let entry := [("timestamp", JString now); ("feedback", JString feedback);
                ("prompt", JString (firstn 100 prompt))] in
  modify (fun p => set_history (history p ++ [entry]) p) ;;
  _save_history.

Definition _update_config : PM unit :=
  modify (fun p =>
            set_config (mkConfig (Some (command_entry (ui p))) (Some (auto_check p))
                                 (Some (get_list (command_templates (config p)))) None) p).

(** [self.command_entry.setText(text)], and the user's typing: [textChanged]
    is emitted, and [_update_config] run, when the text is another one. *)
Definition command_entry_setText (text : str) : PM unit :=
  old <- pgets (fun p => command_entry (ui p)) ;;
  modify (set_ui (set_command_entry text)) ;;
  if str_eqb old text then pret tt else _update_config.

Definition _populate_templates_combo : PM unit :=
  templates <- pgets (fun p => get_list (command_templates (config p))) ;;
  modify (set_templates_combo
            (fold_left (fun c template => addItem template None c) templates
               (addItem (lit "-- Select template --") None combo_clear))).

Definition _on_template_selected (index : Z) : PM unit :=
  if Z.ltb 0 index then
    template <- pgets (fun p => currentText (templates_combo p)) ;;
    command_entry_setText template ;;
    modify (fun p => set_templates_combo (setCurrentIndex 0 (templates_combo p)) p)
  else pret tt.

(** The caption put on the run button for a moment, in UTF-8. *)
Definition saved_caption : string :=
  String (Ascii.ascii_of_nat 226) (String (Ascii.ascii_of_nat 156)
    (String (Ascii.ascii_of_nat 147) " Saved!")).

Definition _save_template : PM unit :=
  command <- pgets (fun p => strip (command_entry (ui p))) ;;
  match command with
  | [] => pret tt
  | _ :: _ =>
      templates <- pgets (fun p => get_list (command_templates (config p))) ;;
      if str_in command templates then pret tt
      else
        let templates := templates ++ [command] in
        modify (fun p =>
                  set_config (mkConfig (run_command (config p))
                                (execute_automatically (config p)) (Some templates)
                                (feedback_templates (config p))) p) ;;
        _save_config ;;
        _populate_templates_combo ;;
        original_text <- pgets (fun p => run_button (ui p)) ;;
        modify (set_ui (set_run_button saved_caption)) ;;
        modify (fun p => set_caption_timers (caption_timers p ++ [original_text]) p)
  end.

(** The timer of [_save_template] fires. *)
Definition caption_timeout : PM unit :=
  timers <- pgets caption_timers ;;
  match timers with
  | [] => pret tt
  | original_text :: rest =>
      modify (set_ui (set_run_button original_text)) ;;
      modify (set_caption_timers rest)
  end.

(** The dates of the entries are shown when they can be read. *)
Definition history_display_text (entry : json) : str :=
  let timestamp := dict_get "timestamp" entry in
  let display_text := shorten 50 (dict_get "feedback" entry) in
  match timestamp with
  | [] => display_text
  | _ :: _ =>
      match format_time timestamp with
      | Some time_str => lit "[" ++ time_str ++ lit "] " ++ display_text
      | None => display_text
      end
  end.

Definition _populate_history_combo : PM unit :=
  history <- pgets history ;;
  modify (set_history_combo
            (fold_left (fun c entry => addItem (history_display_text entry) (Some entry) c)
               (rev (last_n 10 history))
               (addItem (lit "-- Select from history --") None combo_clear))).

(** An entry is true when it is not the empty dict. [setPlainText] puts the
    cursor at the start. *)
Definition _on_history_selected (index : Z) : PM unit :=
  if Z.ltb 0 index then
    entry <- pgets (fun p => itemData index (history_combo p)) ;;
    match entry with
    | Some ((_ :: _) as entry) =>
        modify (set_ui (set_feedback_text (dict_get "feedback" entry))) ;;
        modify (set_feedback_cursor (0, 0))
    | _ => pret tt
    end ;;
    modify (fun p => set_history_combo (setCurrentIndex 0 (history_combo p)) p)
  else pret tt.

Definition _populate_feedback_templates_combo : PM unit :=
  templates <- pgets (fun p => get_list (feedback_templates (config p))) ;;
  modify (set_feedback_templates_combo
            (fold_left (fun c template => addItem (shorten 50 template) (Some template) c)
               templates
               (addItem (lit "-- Insert template --") None combo_clear))).

(** [cursor.insertText(template)]: the text takes the place of the selection,
    and the cursor stands behind it. *)
Definition insertText (text : str) (p : Panel) : Panel :=
  let lo := Nat.min (fst (feedback_cursor p)) (snd (feedback_cursor p)) in
  let hi := Nat.max (fst (feedback_cursor p)) (snd (feedback_cursor p)) in
  let old := feedback_text (ui p) in
  let lo := Nat.min lo (List.length old) in
  set_feedback_cursor (lo + List.length text, lo + List.length text)
    (set_ui (set_feedback_text (firstn lo old ++ text ++ skipn hi old)) p).

Definition _on_feedback_template_selected (index : Z) : PM unit :=
  if Z.ltb 0 index then
    template <- pgets (fun p => itemData index (feedback_templates_combo p)) ;;
    match template with
    | Some ((_ :: _) as template) => modify (insertText template)
    | _ => pret tt
    end ;;
    modify (fun p =>
              set_feedback_templates_combo (setCurrentIndex 0 (feedback_templates_combo p)) p)
  else pret tt.

(** The change of the placeholder text for a moment is left out. *)
Definition _save_feedback_template : PM unit :=
  feedback <- pgets (fun p => strip (feedback_text (ui p))) ;;
  match feedback with
  | [] => pret tt
  | _ :: _ =>
      ok <- ask (confirm_save (shorten 100 feedback)) ;;
      if ok : bool then
        templates <- pgets (fun p => get_list (feedback_templates (config p))) ;;
        if str_in feedback templates then pret tt
        else
          let templates := templates ++ [feedback] in
          modify (fun p =>
                    set_config (mkConfig (run_command (config p))
                                  (execute_automatically (config p))
                                  (command_templates (config p)) (Some templates)) p) ;;
          _save_config ;;
          _populate_feedback_templates_combo
      else pret tt
  end.

Definition _delete_feedback_template : PM unit :=
  index <- pgets (fun p => currentIndex (feedback_templates_combo p)) ;;
  if Z.leb index 0 then pret tt
  else
    template <- pgets (fun p => itemData index (feedback_templates_combo p)) ;;
    match template with
    | Some ((_ :: _) as template) =>
        yes <- ask (confirm_delete (shorten 100 template)) ;;
        if yes : bool then
          templates <- pgets (fun p => get_list (feedback_templates (config p))) ;;
          if str_in template templates then
            let templates := list_remove template templates in
            modify (fun p =>
                      set_config (mkConfig (run_command (config p))
                                    (execute_automatically (config p))
                                    (command_templates (config p)) (Some templates)) p) ;;
            _save_config ;;
            _populate_feedback_templates_combo
          else pret tt
        else pret tt
    | _ => pret tt
    end.

(** [_submit_feedback] with the part that keeps the history. *)
Definition submit_with_history : PM unit :=
  feedback_text <- pgets (fun p => strip (feedback_text (ui p))) ;;
  match feedback_text with
  | [] => pret tt
  | _ :: _ => _add_to_history feedback_text
  end ;;
  lift _submit_feedback.

(** The user chooses the item [index] of a combo box: when that is another
    item than the current one, it becomes the current one and the slot of
    [currentIndexChanged] runs. *)
Definition activated {A} (index : Z) (combo : Panel -> ComboBox A)
    (set_combo : ComboBox A -> Panel -> Panel) (slot : Z -> PM unit) : PM unit :=
  c <- pgets combo ;;
  if (valid_index index c && negb (Z.eqb index (currentIndex c)))%bool then
    modify (set_combo (setCurrentIndex index c)) ;;
    slot index
  else pret tt.

(** [DragDropLineEdit.dropEvent] for a drop that holds URLs. *)
Definition dropEvent (file_path : str) (cursor_pos : nat) : PM unit :=
  match file_path with
  | [] => pret tt
  | _ :: _ =>
      current_text <- pgets (fun p => command_entry (ui p)) ;;
      command_entry_setText
        (firstn cursor_pos current_text ++ file_path ++ skipn cursor_pos current_text)
  end.

(** The slot an event of the panels runs. *)
Definition panel_dispatch (ev : panel_event) : PM unit :=
  match ev with
  | Window (CommandEdited text) => command_entry_setText text
  | Window SubmitRequested => submit_with_history
  | Window ev => lift (dispatch isalnum_nonascii ev)
  | AutoToggled checked =>
      old <- pgets auto_check ;;
      modify (set_auto_check checked) ;;
      if Bool.eqb old checked then pret tt else _update_config
  | SaveConfigRequested => _save_config
  | TemplateActivated index =>
      activated index templates_combo set_templates_combo _on_template_selected
  | SaveTemplateRequested => _save_template
  | FeedbackTemplateActivated index =>
      activated index feedback_templates_combo set_feedback_templates_combo
        _on_feedback_template_selected
  | SaveFeedbackTemplateRequested => _save_feedback_template
  | DeleteFeedbackTemplateRequested => _delete_feedback_template
  | HistoryActivated index =>
      activated index history_combo set_history_combo _on_history_selected
  | CursorMoved anchor position => modify (set_feedback_cursor (anchor, position))
  | FileDropped file_path cursor_pos => dropEvent file_path cursor_pos
  | CaptionTimeout => caption_timeout
  end.

(** The event loop over the panels: as in [event_loop], what a slot raises is
    dropped. *)
Definition panel_loop (events : list panel_event) (p : Panel) : Panel :=
  fold_left (fun p ev => snd (panel_dispatch ev p)) events p.

(** The combo box of the feedback templates shows its first item, the
    placeholder, or is empty. *)
Definition at_first (p : Panel) : Prop :=
  (currentIndex (feedback_templates_combo p) <= 0)%Z.

Definition templates_tidy (p : Panel) : Prop :=
  tidy (get_list (command_templates (config p)))
  /\ tidy (get_list (feedback_templates (config p))).

(** A slot keeps a property of the panel. *)
Definition preserves {A} (Q : Panel -> Prop) (m : PM A) : Prop :=
  forall p, Q p -> Q (snd (m p)).

(** A property that does not look at the window, the host or the files. *)
Definition stable (Q : Panel -> Prop) : Prop :=
  forall e s p, Q p -> Q (set_storage s (set_window e p)).

End Preferences.

Arguments Panel {host}.
Arguments mkPanel {host} _ _ _ _ _ _ _ _ _ _ _.

(** A desktop for the examples: every write goes through and every question
    is answered with yes. *)
#[local] Instance sim_desktop : @Desktop sim_host := {|
  datetime_now w := (lit "2025-01-02T03:04:05", w);
  format_time t := None;
  write_config c w := (inr tt, w);
  write_history h w := (inr tt, w);
  confirm_save t w := (true, w);
  confirm_delete t w := (true, w)
|}.

(** The fresh window with the command [make] typed, two feedback templates
    saved, and the combo boxes filled from the configuration. *)
Definition panel_typed : Panel :=
  mkPanel env_typed (lit "Done.")
    (mkConfig (Some (lit "make")) (Some false) (Some []) (Some [lit "LGTM"; lit "Please add tests"]))
    [] false
    (mkCombo [(lit "-- Select template --", None)] 0)
    (mkCombo [(lit "-- Insert template --", None); (lit "LGTM", Some (lit "LGTM"));
              (lit "Please add tests", Some (lit "Please add tests"))] 0)
    (mkCombo [(lit "-- Select from history --", None)] 0)
    (0, 0) [] [].

(** ** The environment of the user: [get_user_environment]

    A [dict] of strings, in the order of insertion. *)
Definition env_dict := list (str * str).

(** [d[key] = value]. *)
Fixpoint dict_set (key value : str) (d : env_dict) : env_dict :=
  match d with
  | [] => [(key, value)]
  | (k, v) :: d' =>
      if str_eqb k key then (k, value) :: d' else (k, v) :: dict_set key value d'
  end.

(** [s.index(c)]: [None] stands for the [ValueError] that Python raises when
    [c] is not in [s]. *)
Fixpoint index_of (c : codepoint) (s : str) : option nat :=
  match s with
  | [] => None
  | a :: s' => if N.eqb a c then Some 0 else option_map S (index_of c s')
  end.

(** The two loops over the environment block. [memory] is what can be read
    from the current offset on, [current_string] the string read since the
    last terminator. The result is [None] when the loops read past the end of
    [memory]: the block was not closed by an empty string; what the program
    does then is not defined. The test [equal_index == -1] of the source never
    holds, since [index] raises instead. *)
Fixpoint read_block (memory current_string : str) (result : env_dict)
    : option (exn + env_dict) :=
  match memory with
  | [] => None
  | c :: memory' =>
      if N.eqb c 0 then
        match current_string with
        | [] => Some (inr result)
        | _ :: _ =>
            match index_of 61%N current_string with
            | None => Some (inl (OtherException (lit "substring not found")))
            | Some equal_index =>
                let key := firstn equal_index current_string in
                let value := skipn (S equal_index) current_string in
                read_block memory' [] (dict_set key value result)
            end
        end
      else read_block memory' (current_string ++ [c]) result
  end.

(** The calls to the Windows libraries, in order. *)
Inductive win_call :=
| OpenProcessToken (ok : bool)
| CreateEnvironmentBlock (ok : bool)
| DestroyEnvironmentBlock
| CloseHandle.

(** [get_user_environment]. The platform, [os.environ] and the answers of
    Windows are given: whether the token could be opened, and the memory of
    the environment block when one could be created. The [finally] clauses
    run also when the loops raise. *)
Definition get_user_environment (win32 : bool) (environ : env_dict) (token_opened : bool)
    (block : option str) : list win_call * option (exn + env_dict) :=
  if negb win32 then ([], Some (inr environ))
  else if negb token_opened then
    ([OpenProcessToken false],
     Some (inl (OtherException (lit "Failed to open process token"))))
  else
    match block with
    | None =>
        ([OpenProcessToken true; CreateEnvironmentBlock false; CloseHandle],
         Some (inl (OtherException (lit "Failed to create environment block"))))
    | Some memory =>
        match read_block memory [] [] with
        | None => ([OpenProcessToken true; CreateEnvironmentBlock true], None)
        | Some outcome =>
            ([OpenProcessToken true; CreateEnvironmentBlock true;
              DestroyEnvironmentBlock; CloseHandle],
             Some outcome)
        end
    end.

(** An environment block as Windows lays it out: each variable as
    [name=value] with a terminator, and an empty string at the end. *)
Definition block_entry (variable : str * str) : str :=
  fst variable ++ [61%N] ++ snd variable ++ [0%N].

Definition environment_block (variables : list (str * str)) : str :=
  concat (map block_entry variables) ++ [0%N].

(** A variable that can be laid out: no terminator in it, and no [=] in the
    name. *)
Definition block_variable (variable : str * str) : bool :=
  negb (existsb (N.eqb 0%N) (fst variable))
  && negb (existsb (N.eqb 61%N) (fst variable))
  && negb (existsb (N.eqb 0%N) (snd variable)).

(** ** The size of the console font

    The point size of the font of [log_text] and the value stored under
    [console_font_size]. [setPointSize] ignores a size that is not
    positive. *)
Record ConsoleFont := mkFont { pointSize : Z; console_font_size : option Z }.

Definition setPointSize (size : Z) (f : ConsoleFont) : ConsoleFont :=
  if Z.leb size 0 then f else mkFont size (console_font_size f).

Definition setValue (size : Z) (f : ConsoleFont) : ConsoleFont :=
  mkFont (pointSize f) (Some size).

Definition _increase_font_size (f : ConsoleFont) : ConsoleFont :=
  let current_size := pointSize f in
  if Z.ltb current_size 20 then setValue (current_size + 1) (setPointSize (current_size + 1) f)
  else f.

Definition _decrease_font_size (f : ConsoleFont) : ConsoleFont :=
  let current_size := pointSize f in
  if Z.ltb 6 current_size then setValue (current_size - 1) (setPointSize (current_size - 1) f)
  else f.

Definition _reset_font_size (f : ConsoleFont) : ConsoleFont :=
  setValue 9 (setPointSize 9 f).

Inductive font_event := IncreaseFont | DecreaseFont | ResetFont.

Definition font_slot (f : ConsoleFont) (ev : font_event) : ConsoleFont :=
  match ev with
  | IncreaseFont => _increase_font_size f
  | DecreaseFont => _decrease_font_size f
  | ResetFont => _reset_font_size f
  end.

(** The code points that start none of the token patterns of
    [highlight_log_line]: no slash, no backslash, no digit. *)
Definition plain_token_char (isdecimal_nonascii : codepoint -> bool) (c : codepoint) : bool :=
  negb (N.eqb c 47 || N.eqb c 92 || is_digit isdecimal_nonascii c)%N.

(** The letters of ASCII. *)
Definition is_letter (c : codepoint) : bool := (in_range 65 90 c || in_range 97 122 c)%N.

(** ** Looking for a timestamp

    A match of [\d{2}:\d{2}:\d{2}] holds a colon, two digits and a colon in a
    row. [ts_step] follows how much of such a run the text read so far ends
    with: state [k < 4] after the first [k] of the four, state 4 once a whole
    run was read. *)
Definition ts_step (isdecimal_nonascii : codepoint -> bool) (q : nat) (c : codepoint) : nat :=
  if Nat.eqb q 4 then 4
  else if N.eqb c 58%N then (if Nat.eqb q 3 then 4 else 1)
  else if is_digit isdecimal_nonascii c then
    match q with 1 => 2 | 2 => 3 | _ => 0 end
  else 0.

Definition ts_run (isdecimal_nonascii : codepoint -> bool) (q : nat) (s : str) : nat :=
  fold_left (ts_step isdecimal_nonascii) s q.

(** What the number substitution knows of the text it has still to read when
    its output so far is in state [q]: after a colon the position is at a word
    boundary; after a colon and one or two digits that were left as they are,
    no number ends at or after the last of them. *)
Definition ts_invariant (isalnum_nonascii isdecimal_nonascii : codepoint -> bool)
    (q skip : nat) (prev : option codepoint) (s : str) : Prop :=
  match q with
  | 0 => True
  | 1 => skip = 0 /\ is_word_opt isalnum_nonascii prev = false
  | 2 | 3 =>
      skip = 0 /\
      exists d, prev = Some d /\ is_digit isdecimal_nonascii d = true /\
                number_rest isalnum_nonascii isdecimal_nonascii d s = None
  | _ => False
  end.

(** ** The prompt display: [markdown_to_html] *)

(** [s.startswith(p)]. *)
Definition startswith (p s : str) : bool :=
  match strip_prefix p s with Some _ => true | None => false end.

(** The colours of the two themes. *)
Record theme_colors := mkTheme {
  text_color : str;
  code_bg : str;
  code_color : str;
  header_color : str
}.

Definition theme_of (is_dark_theme : bool) : theme_colors :=
  if is_dark_theme
  then mkTheme (lit "#ecf0f1") (lit "#1e1e1e") (lit "#d4d4d4") (lit "#3498db")
  else mkTheme (lit "#212529") (lit "#f5f5f5") (lit "#c7254e") (lit "#0056b3").

(** The end of a lazy group: the number of code points, all accepted by [ok],
    to pass before the text goes on with [close_]. *)
Fixpoint find_close (close_ : str) (ok : codepoint -> bool) (s : str) : option nat :=
  if startswith close_ s then Some 0
  else match s with
       | c :: s' => if ok c then option_map S (find_close close_ ok s') else None
       | [] => None
       end.

(** A pattern [open(X+?)close] at the current position, [X] being the class
    [ok]: the group and the length of the whole match. *)
Definition delimited (open_ close_ : str) (ok : codepoint -> bool) (s : str)
    : option (str * nat) :=
  match strip_prefix open_ s with
  | Some (c :: rest) =>
      if ok c then
        match find_close close_ ok rest with
        | Some k => Some (c :: firstn k rest, List.length open_ + S k + List.length close_)
        | None => None
        end
      else None
  | _ => None
  end.

(** [re.sub(pattern, pre + r'\1' + post, s)] for a pattern that matches no
    empty string: [match_at s] is the group and the length of the match that
    starts at the current position. *)
Fixpoint re_sub_wrap_from (match_at : str -> option (str * nat)) (pre post : str)
    (skip : nat) (s : str) : str :=
  match s with
  | [] => []
  | c :: s' =>
      match skip with
      | S k => re_sub_wrap_from match_at pre post k s'
      | 0 =>
          match match_at s with
          | Some (group, n) =>
              pre ++ group ++ post ++ re_sub_wrap_from match_at pre post (Nat.pred n) s'
          | None => c :: re_sub_wrap_from match_at pre post 0 s'
          end
      end
  end.

Definition re_sub_wrap (match_at : str -> option (str * nat)) (pre post : str) (s : str)
    : str :=
  re_sub_wrap_from match_at pre post 0 s.

(** [.] of a pattern without flags, and [[^*]]. *)
Definition not_newline (c : codepoint) : bool := negb (N.eqb c NL).
Definition not_star (c : codepoint) : bool := negb (N.eqb c 42%N).

(** [re.sub(r'\*\*(.+?)\*\*', r'<b>\1</b>', s)] and the like. *)
Definition bold_stars (s : str) : str :=
  re_sub_wrap (delimited (lit "**") (lit "**") not_newline) (lit "<b>") (lit "</b>") s.

Definition bold_underscores (s : str) : str :=
  re_sub_wrap (delimited (lit "__") (lit "__") not_newline) (lit "<b>") (lit "</b>") s.

Definition italic (s : str) : str :=
  re_sub_wrap (delimited (lit "*") (lit "*") not_star) (lit "<i>") (lit "</i>") s.

Definition inline_code (t : theme_colors) (s : str) : str :=
  re_sub_wrap (delimited (lit "`") (lit "`") not_newline)
    (lit "<code style=" ++ [QUOTE] ++ lit "background-color: " ++ code_bg t
       ++ lit "; padding: 1px 4px; border-radius: 2px; color: " ++ code_color t
       ++ lit "; font-size: 10pt;" ++ [QUOTE] ++ lit ">")
    (lit "</code>") s.

(** The elements the loop appends to [html_lines]. *)
Definition pre_block (t : theme_colors) (code_content : str) : str :=
  lit "<pre style=" ++ [QUOTE] ++ lit "background-color: " ++ code_bg t
    ++ lit "; padding: 8px; margin: 5px 0; border-radius: 3px; color: " ++ code_color t
    ++ lit "; font-family: monospace; font-size: 10pt;" ++ [QUOTE] ++ lit "><code>"
    ++ code_content ++ lit "</code></pre>".

Definition header (t : theme_colors) (tag margin size : string) (title : str) : str :=
  lit "<" ++ lit tag ++ lit " style=" ++ [QUOTE] ++ lit "color: " ++ header_color t
    ++ lit "; margin: " ++ lit margin ++ lit "; font-size: " ++ lit size ++ lit ";"
    ++ [QUOTE] ++ lit ">" ++ title ++ lit "</" ++ lit tag ++ lit ">".

Definition ul_open : str :=
  lit "<ul style=" ++ [QUOTE] ++ lit "margin: 3px 0; padding-left: 20px;" ++ [QUOTE] ++ lit ">".

Definition ul_close : str := lit "</ul>".

Definition list_item (content : str) : str :=
  lit "<li style=" ++ [QUOTE] ++ lit "margin: 2px 0; font-size: 11pt;" ++ [QUOTE] ++ lit ">"
    ++ content ++ lit "</li>".

Definition blank_line : str := lit "<br><br>".

Definition text_line (processed_line : str) : str :=
  lit "<span style=" ++ [QUOTE] ++ lit "font-size: 11pt;" ++ [QUOTE] ++ lit ">"
    ++ processed_line ++ lit "</span><br>".

(** The variables of the loop over the lines. *)
Record md_state := mkMd {
  html_lines : list str;
  in_code_block : bool;
  code_block_content : list str;
  in_list : bool
}.

Definition md_start : md_state := mkMd [] false [] false.

(** [line.strip().startswith('```')]. *)
Definition is_fence (line : str) : bool := startswith (lit "```") (strip line).

(** The body of the loop. *)
Definition md_line (t : theme_colors) (st : md_state) (line : str) : md_state :=
  if is_fence line then
    if in_code_block st then
      mkMd (html_lines st ++ [pre_block t (join_with NL (code_block_content st))])
           false [] (in_list st)
    else mkMd (html_lines st) true (code_block_content st) (in_list st)
  else if in_code_block st then
    mkMd (html_lines st) true (code_block_content st ++ [line]) (in_list st)
  else if startswith (lit "### ") line then
    mkMd (html_lines st ++ [header t "h3" "8px 0 4px 0" "13pt" (skipn 4 line)])
         false (code_block_content st) (in_list st)
  else if startswith (lit "## ") line then
    mkMd (html_lines st ++ [header t "h2" "10px 0 5px 0" "14pt" (skipn 3 line)])
         false (code_block_content st) (in_list st)
  else if startswith (lit "# ") line then
    mkMd (html_lines st ++ [header t "h1" "12px 0 6px 0" "16pt" (skipn 2 line)])
         false (code_block_content st) (in_list st)
  else if startswith (lit "- ") (strip line) then
    let opened := if in_list st then html_lines st else html_lines st ++ [ul_open] in
    let content := skipn 2 (strip line) in
    let content := bold_stars content in
    let content := inline_code t content in
    mkMd (opened ++ [list_item content]) false (code_block_content st) true
  else
    let closed := if in_list st then html_lines st ++ [ul_close] else html_lines st in
    match strip line with
    | [] => mkMd (closed ++ [blank_line]) false (code_block_content st) false
    | _ :: _ =>
        let processed_line := bold_stars line in
        let processed_line := bold_underscores processed_line in
        let processed_line := italic processed_line in
        let processed_line := inline_code t processed_line in
        mkMd (closed ++ [text_line processed_line]) false (code_block_content st) false
    end.

(** The loop, and what follows it. *)
Definition md_lines (t : theme_colors) (lines : list str) (st : md_state) : md_state :=
  fold_left (md_line t) lines st.

Definition md_finish (st : md_state) : list str :=
  if in_list st then html_lines st ++ [ul_close] else html_lines st.

Definition prompt_div (t : theme_colors) (html_content : str) : str :=
  lit "<div style=" ++ [QUOTE] ++ lit "color: " ++ text_color t
    ++ lit "; font-family: Arial, sans-serif; font-size: 11pt; line-height: 1.4; white-space: pre-wrap;"
    ++ [QUOTE] ++ lit ">" ++ html_content ++ lit "</div>".

Definition markdown_to_html (markdown_text : str) (is_dark_theme : bool) : str :=
  let t := theme_of is_dark_theme in
  let lines := split NL markdown_text in
  let html_content := join (md_finish (md_lines t lines md_start)) in
  prompt_div t html_content.

(** Reading the elements of [html_lines] from the first on: whether a list is
    open after them, and [None] when a list was opened inside a list, closed
    outside one, or an item stood outside one. *)
Definition list_step (open_ : option bool) (element : str) : option bool :=
  match open_ with
  | None => None
  | Some o =>
      if str_eqb element ul_open then (if o then None else Some true)
      else if str_eqb element ul_close then (if o then Some false else None)
      else if startswith (lit "<li") element then (if o then Some true else None)
      else Some o
  end.

Definition list_run (open_ : bool) (elements : list str) : option bool :=
  fold_left list_step elements (Some open_).

(** The code points that start no markup of [markdown_to_html]. *)
Definition plain_md_char (c : codepoint) : bool :=
  negb (existsb (N.eqb c) [NL; 35; 42; 45; 95; 96]%N).

(** * Properties *)

(** ** Strings *)

Lemma rstrip_all_space (s : str) : forallb isspace s = true -> rstrip s = [].
Proof.
  induction s as [|c s IH]; simpl; [reflexivity|].
  intros H. apply andb_true_iff in H. destruct H as [Hc Hs].
  rewrite (IH Hs), Hc. reflexivity.
Qed.

(** [rstrip] removes a suffix of whitespace, and all of it. *)
Lemma rstrip_suffix (s : str) :
  exists ws, s = rstrip s ++ ws /\ forallb isspace ws = true.
Proof.
  induction s as [|c s [ws [Heq Hws]]]; simpl.
  - exists []. split; reflexivity.
  - destruct (rstrip s) as [|r rs] eqn:Hr.
    + destruct (isspace c) eqn:Hc.
      * exists (c :: s). split; [reflexivity|].
        simpl. rewrite Hc. simpl in Heq. rewrite Heq. exact Hws.
      * exists ws. simpl in *. split; [congruence | exact Hws].
    + exists ws. split; [|exact Hws]. simpl. f_equal. exact Heq.
Qed.

(** What [rstrip] returns does not end in whitespace. *)
Lemma rstrip_last_not_space (s r : str) (c : codepoint) :
  rstrip s = r ++ [c] -> isspace c = false.
Proof.
  revert r c. induction s as [|a s IH]; simpl; intros r c H.
  - destruct r; discriminate.
  - destruct (rstrip s) as [|x xs] eqn:Hr.
    + destruct (isspace a) eqn:Ha.
      * destruct r; discriminate.
      * destruct r as [|y r]; simpl in H.
        -- congruence.
        -- destruct r; discriminate.
    + destruct r as [|y r]; simpl in H; [discriminate|].
      injection H as _ H. exact (IH r c H).
Qed.

Lemma split_nonempty (sep : codepoint) (s : str) : split sep s <> [].
Proof.
  destruct s as [|c s]; simpl; [discriminate|].
  destruct (N.eqb c sep); [discriminate|].
  destruct (split sep s); discriminate.
Qed.

(** [split] cuts at every separator and nowhere else: joined by the
    separator, the pieces give the string back. *)
Lemma join_split (sep : codepoint) (s : str) : join_with sep (split sep s) = s.
Proof.
  induction s as [|c s IH]; simpl; [reflexivity|].
  destruct (N.eqb c sep) eqn:Hc.
  - apply N.eqb_eq in Hc. subst c.
    destruct (split sep s) as [|l ls] eqn:Hs; [destruct (split_nonempty _ _ Hs)|].
    simpl. simpl in IH. rewrite IH. reflexivity.
  - destruct (split sep s) as [|l ls] eqn:Hs; [destruct (split_nonempty _ _ Hs)|].
    destruct ls as [|l' ls]; simpl in *; rewrite <- IH; reflexivity.
Qed.

Lemma split_pieces (sep : codepoint) (s : str) :
  Forall (fun l => existsb (N.eqb sep) l = false) (split sep s).
Proof.
  induction s as [|c s IH]; simpl.
  - constructor; [reflexivity | constructor].
  - destruct (N.eqb c sep) eqn:Hc.
    + constructor; [reflexivity | exact IH].
    + destruct (split sep s) as [|l ls]; [repeat constructor; simpl|].
      * rewrite N.eqb_sym, Hc. reflexivity.
      * inversion IH; subst. constructor; [|assumption].
        simpl. rewrite N.eqb_sym, Hc. assumption.
Qed.

(** ** The classifier *)

Section ClassifierProperties.

Variable tbl : codepoint -> bool.

Lemma strip_prefix_app (w rest : str) : strip_prefix w (w ++ rest) = Some rest.
Proof.
  induction w as [|a w IH]; simpl; [reflexivity|].
  rewrite N.eqb_refl. exact IH.
Qed.

Lemma last_of_cons (prev : option codepoint) (c : codepoint) (w : str) :
  last_of prev (c :: w) = last_of (Some c) w.
Proof.
  unfold last_of. simpl. destruct (rev w) as [|x xs]; reflexivity.
Qed.

(** A match further to the right is found too. *)
Lemma search_from_skip (alts : list str) (pre rest : str) (prev : option codepoint) :
  search_from tbl alts (last_of prev pre) rest = true ->
  search_from tbl alts prev (pre ++ rest) = true.
Proof.
  revert prev. induction pre as [|c pre IH]; intros prev H.
  - exact H.
  - simpl. rewrite last_of_cons in H. rewrite (IH _ H). apply orb_true_r.
Qed.

Lemma search_from_here (alts : list str) (prev : option codepoint) (s : str) :
  match_here tbl alts prev s = true -> search_from tbl alts prev s = true.
Proof. intros H. destruct s; simpl; rewrite H; reflexivity. Qed.

(** A word of the alternatives that starts and ends with a word character
    matches where it stands between two non-word positions. *)
Lemma match_here_word (alts : list str) (w post : str) (prev : option codepoint) :
  In w alts ->
  is_word_opt tbl (hd_error w) = true ->
  is_word_opt tbl (last_of None w) = true ->
  is_word_opt tbl prev = false ->
  is_word_opt tbl (hd_error post) = false ->
  match_here tbl alts prev (w ++ post) = true.
Proof.
  intros Hin Hfirst Hlast Hprev Hpost.
  destruct w as [|a w]; [discriminate|].
  unfold match_here. apply andb_true_iff. split.
  - unfold word_boundary. rewrite Hprev. simpl. exact Hfirst.
  - apply existsb_exists. exists (a :: w). split; [exact Hin|].
    rewrite strip_prefix_app. unfold word_boundary.
    rewrite last_of_cons in *. rewrite Hpost, Hlast. reflexivity.
Qed.

Lemma error_words_are_words (w : str) :
  In w error_words ->
  is_word_opt tbl (hd_error w) = true /\ is_word_opt tbl (last_of None w) = true.
Proof.
  unfold error_words. simpl.
  intros H. repeat (destruct H as [H|H]; [subst w; split; reflexivity|]).
  destruct H.
Qed.

(** C6, as the code has it: a line in which one of the nine spellings listed
    in the pattern (each keyword in lower case, in upper case or capitalised)
    stands as a whole word is classified Error. *)
Theorem detect_log_level_error_word (w pre post : str) :
  In w error_words ->
  is_word_opt tbl (last_of None pre) = false ->
  is_word_opt tbl (hd_error post) = false ->
  detect_log_level tbl (pre ++ w ++ post) = "Error".
Proof.
  intros Hin Hpre Hpost.
  destruct (error_words_are_words w Hin) as [Hfirst Hlast].
  unfold detect_log_level, re_search_words.
  rewrite search_from_skip; [reflexivity|].
  apply search_from_here.
  apply match_here_word; assumption.
Qed.

End ClassifierProperties.

Lemma detect_log_level_error_word_witness :
  detect_log_level ascii_only (lit "build " ++ lit "FAILED" ++ lit ": 3 tests") = "Error".
Proof.
  apply (detect_log_level_error_word ascii_only (lit "FAILED") (lit "build ") (lit ": 3 tests")).
  - simpl. tauto.
  - reflexivity.
  - reflexivity.
Defined.

(** C6 as stated fails: [eRRor] is the keyword [error] in another letter case,
    alone on the line, and the line is classified Other whatever the Unicode
    table. *)
Lemma detect_log_level_mixed_case :
  map ascii_lower (lit "eRRor") = lit "error"
  /\ (forall tbl, detect_log_level tbl (lit "eRRor") = "Other").
Proof. split; [reflexivity | intros tbl; reflexivity]. Qed.

(** ** The log stores *)

Lemma shown_not_filtered_out (f : string) (e : log_entry) :
  shown f e = negb (filtered_out f (entry_level e)).
Proof.
  unfold shown, filtered_out.
  destruct (f =? "All"), (entry_level e =? f), (entry_level e =? "Other"); reflexivity.
Qed.

Section LogStoreProperties.

Variable tbl : codepoint -> bool.

Lemma append_line_entries (ui : FeedbackUI) (line : str) :
  log_entries (append_line tbl ui line)
  = log_entries ui ++ [(line, detect_log_level tbl line, List.length (log_entries ui) + 1)].
Proof. unfold append_line. simpl. destruct (filtered_out _ _); reflexivity. Qed.

Lemma append_line_text (ui : FeedbackUI) (line : str) :
  log_text (append_line tbl ui line)
  = log_text ui
    ++ map (row_of_entry (show_line_numbers_check ui))
         (filter (shown (log_level_filter ui))
            [(line, detect_log_level tbl line, List.length (log_entries ui) + 1)]).
Proof.
  unfold append_line. simpl. rewrite shown_not_filtered_out. simpl.
  destruct (filtered_out _ _); simpl; [rewrite app_nil_r|]; reflexivity.
Qed.

(** What [append_line] leaves alone. *)
Lemma append_line_frame (ui : FeedbackUI) (line : str) :
  let ui' := append_line tbl ui line in
  log_buffer ui' = log_buffer ui /\ process ui' = process ui
  /\ log_level_filter ui' = log_level_filter ui
  /\ show_line_numbers_check ui' = show_line_numbers_check ui
  /\ feedback_result ui' = feedback_result ui /\ run_button ui' = run_button ui
  /\ command_entry ui' = command_entry ui /\ feedback_text ui' = feedback_text ui
  /\ closed ui' = closed ui /\ project_directory ui' = project_directory ui.
Proof. unfold append_line. simpl. destruct (filtered_out _ _); simpl; repeat split. Qed.

Lemma fold_append_line_frame (lines : list str) (ui : FeedbackUI) :
  let ui' := fold_left (append_line tbl) lines ui in
  log_buffer ui' = log_buffer ui /\ process ui' = process ui
  /\ log_level_filter ui' = log_level_filter ui
  /\ show_line_numbers_check ui' = show_line_numbers_check ui
  /\ feedback_result ui' = feedback_result ui /\ run_button ui' = run_button ui
  /\ command_entry ui' = command_entry ui /\ feedback_text ui' = feedback_text ui
  /\ closed ui' = closed ui /\ project_directory ui' = project_directory ui.
Proof.
  revert ui. induction lines as [|l lines IH]; intros ui; simpl.
  - repeat split.
  - specialize (IH (append_line tbl ui l)). simpl in IH.
    pose proof (append_line_frame ui l) as F. simpl in F.
    repeat match goal with H : _ /\ _ |- _ => destruct H end.
    repeat split; congruence.
Qed.

Lemma fold_append_line_entries (lines : list str) (ui : FeedbackUI) :
  log_entries (fold_left (append_line tbl) lines ui)
  = log_entries ui
    ++ numbered (detect_log_level tbl) (List.length (log_entries ui) + 1) lines.
Proof.
  revert ui. induction lines as [|l lines IH]; intros ui; simpl.
  - rewrite app_nil_r. reflexivity.
  - rewrite IH, append_line_entries, <- app_assoc, length_app. simpl.
    replace (List.length (log_entries ui) + 1 + 1) with (S (List.length (log_entries ui) + 1))
      by lia.
    reflexivity.
Qed.

Lemma fold_append_line_text (lines : list str) (ui : FeedbackUI) :
  log_text (fold_left (append_line tbl) lines ui)
  = log_text ui
    ++ map (row_of_entry (show_line_numbers_check ui))
         (filter (shown (log_level_filter ui))
            (numbered (detect_log_level tbl) (List.length (log_entries ui) + 1) lines)).
Proof.
  revert ui. induction lines as [|l lines IH]; intros ui.
  - simpl. rewrite app_nil_r. reflexivity.
  - cbn [fold_left]. rewrite IH, append_line_text, append_line_entries, length_app.
    pose proof (append_line_frame ui l) as F. simpl in F.
    destruct F as (_ & _ & Hf & Hs & _). rewrite Hf, Hs.
    rewrite <- app_assoc, <- map_app, <- filter_app. cbn [numbered app List.length].
    replace (List.length (log_entries ui) + 1 + 1)
      with (S (List.length (log_entries ui) + 1)) by lia.
    reflexivity.
Qed.

(** The entries one call of [_append_log] adds. *)
Lemma append_log_entries (text : str) (ui : FeedbackUI) :
  log_entries (_append_log tbl text ui)
  = log_entries ui
    ++ numbered (detect_log_level tbl) (List.length (log_entries ui) + 1)
         (split NL (rstrip text)).
Proof. unfold _append_log. rewrite fold_append_line_entries. reflexivity. Qed.

Lemma append_log_buffer (text : str) (ui : FeedbackUI) :
  log_buffer (_append_log tbl text ui) = log_buffer ui ++ [text].
Proof.
  unfold _append_log.
  pose proof (fold_append_line_frame (split NL (rstrip text))
                (set_log_buffer (log_buffer ui ++ [text]) ui)) as F.
  simpl in F. destruct F as (F & _). exact F.
Qed.

Lemma append_log_text (text : str) (ui : FeedbackUI) :
  log_text (_append_log tbl text ui)
  = log_text ui
    ++ map (row_of_entry (show_line_numbers_check ui))
         (filter (shown (log_level_filter ui))
            (numbered (detect_log_level tbl) (List.length (log_entries ui) + 1)
               (split NL (rstrip text)))).
Proof. unfold _append_log. rewrite fold_append_line_text. reflexivity. Qed.

Lemma append_log_frame (text : str) (ui : FeedbackUI) :
  let ui' := _append_log tbl text ui in
  process ui' = process ui
  /\ log_level_filter ui' = log_level_filter ui
  /\ show_line_numbers_check ui' = show_line_numbers_check ui
  /\ feedback_result ui' = feedback_result ui /\ run_button ui' = run_button ui
  /\ command_entry ui' = command_entry ui /\ feedback_text ui' = feedback_text ui
  /\ closed ui' = closed ui /\ project_directory ui' = project_directory ui.
Proof.
  unfold _append_log.
  pose proof (fold_append_line_frame (split NL (rstrip text))
                (set_log_buffer (log_buffer ui ++ [text]) ui)) as F.
  simpl in F. destruct F as (_ & F). exact F.
Qed.

Lemma numbered_lines (level_of : str -> string) (n : nat) (ls : list str) :
  map entry_line (numbered level_of n ls) = ls
  /\ map entry_level (numbered level_of n ls) = map level_of ls
  /\ map entry_number (numbered level_of n ls) = seq n (List.length ls).
Proof.
  revert n. induction ls as [|l ls IH]; intros n; simpl.
  - repeat split.
  - destruct (IH (S n)) as (H1 & H2 & H3).
    unfold entry_line, entry_level, entry_number in *. simpl.
    rewrite H1, H2, H3. repeat split.
Qed.

(** C3, as the code has it: [_append_log] keeps the chunk as it came in
    [log_buffer], removes all trailing whitespace of the chunk (not of each
    line), cuts the rest at every line feed, and appends one entry per piece,
    in order, classified by [detect_log_level] and numbered on from the
    number of entries already stored. Blank lines inside the chunk are
    pieces like the others; trailing ones are whitespace and go: the pieces
    joined by line feeds are the chunk without a suffix of whitespace, and do
    not end in whitespace themselves. *)
Theorem append_log_lines (text : str) (ui : FeedbackUI) :
  let lines := split NL (rstrip text) in
  let first := List.length (log_entries ui) + 1 in
  let added := numbered (detect_log_level tbl) first lines in
  log_buffer (_append_log tbl text ui) = log_buffer ui ++ [text]
  /\ log_entries (_append_log tbl text ui) = log_entries ui ++ added
  /\ map entry_line added = lines
  /\ map entry_level added = map (detect_log_level tbl) lines
  /\ map entry_number added = seq first (List.length lines)
  /\ Forall (fun l => existsb (N.eqb NL) l = false) lines
  /\ (exists ws, text = join_with NL lines ++ ws /\ forallb isspace ws = true)
  /\ (forall r c, join_with NL lines = r ++ [c] -> isspace c = false).
Proof.
  cbv zeta. split; [apply append_log_buffer|]. split; [apply append_log_entries|].
  destruct (numbered_lines (detect_log_level tbl) (List.length (log_entries ui) + 1)
              (split NL (rstrip text))) as (H1 & H2 & H3).
  do 3 (split; [assumption|]). split; [apply split_pieces|]. split.
  - rewrite join_split. apply rstrip_suffix.
  - intros r c H. rewrite join_split in H. exact (rstrip_last_not_space _ _ _ H).
Qed.

(** C10: a chunk of whitespace only (the empty chunk too) adds exactly one
    entry, the empty line, of level Other, with the next number. *)
Theorem append_log_blank_chunk (text : str) (ui : FeedbackUI) :
  forallb isspace text = true ->
  log_entries (_append_log tbl text ui)
  = log_entries ui ++ [([], "Other", List.length (log_entries ui) + 1)].
Proof.
  intros H. rewrite append_log_entries, (rstrip_all_space text H). reflexivity.
Qed.

(** C1, at the input where the code departs from it: after [clear_logs] the
    next line is numbered 2, and the cleared line is still stored. *)
Theorem clear_logs_keeps_numbering :
  log_entries
    (_append_log tbl (lit "b" ++ [NL])
       (clear_logs (_append_log tbl (lit "a" ++ [NL]) ui_fresh)))
  = [(lit "a", "Other", 1); (lit "b", "Other", 2)].
Proof. reflexivity. Qed.

End LogStoreProperties.

Lemma append_log_blank_chunk_witness :
  forallb isspace ([32; 9; 10; 10]%N) = true
  /\ log_entries (_append_log ascii_only [32; 9; 10; 10]%N ui_four_levels)
     = log_entries ui_four_levels ++ [([], "Other", 5)].
Proof.
  split; [reflexivity|].
  apply (append_log_blank_chunk ascii_only [32; 9; 10; 10]%N ui_four_levels).
  reflexivity.
Defined.

(** C3 as stated fails: with only one trailing line feed trimmed, the chunk
    ["a\n\n"] would give the lines ["a"] and [""]; the code stores ["a"]
    alone. *)
Lemma append_log_trims_all_trailing_newlines :
  lines_of_specification (lit "a" ++ [NL; NL]) = [lit "a"; []]
  /\ (forall tbl,
        log_entries (_append_log tbl (lit "a" ++ [NL; NL]) ui_fresh) = [(lit "a", "Other", 1)]).
Proof. split; [reflexivity | intros tbl; reflexivity]. Qed.

Lemma fold_show_entry_text (f : string) (sh : bool) (es : list log_entry) (ui : FeedbackUI) :
  log_text (fold_left (show_entry f sh) es ui)
  = log_text ui ++ map (row_of_entry sh) (filter (shown f) es).
Proof.
  revert ui. induction es as [|[[line level] n] es IH]; intros ui; simpl.
  - rewrite app_nil_r. reflexivity.
  - rewrite IH, shown_not_filtered_out. unfold entry_level. simpl.
    destruct (filtered_out f level); simpl; [reflexivity|].
    rewrite <- app_assoc. reflexivity.
Qed.

Lemma fold_show_entry_frame (f : string) (sh : bool) (es : list log_entry) (ui : FeedbackUI) :
  let ui' := fold_left (show_entry f sh) es ui in
  log_entries ui' = log_entries ui /\ log_buffer ui' = log_buffer ui
  /\ process ui' = process ui /\ log_level_filter ui' = log_level_filter ui
  /\ show_line_numbers_check ui' = show_line_numbers_check ui.
Proof.
  revert ui. induction es as [|[[line level] n] es IH]; intros ui; simpl.
  - repeat split.
  - specialize (IH (if filtered_out f level then ui
                    else set_log_text (log_text ui ++ [render_row sh line n]) ui)).
    simpl in IH. destruct (filtered_out f level); simpl in IH; exact IH.
Qed.

Lemma apply_log_filter_entries (ui : FeedbackUI) :
  log_entries (_apply_log_filter ui) = log_entries ui.
Proof.
  unfold _apply_log_filter.
  pose proof (fold_show_entry_frame (log_level_filter ui) (show_line_numbers_check ui)
                (log_entries ui) (set_log_text [] ui)) as F.
  simpl in F. destruct F as (F & _). exact F.
Qed.

Lemma numbered_length (level_of : str -> string) (n : nat) (ls : list str) :
  List.length (numbered level_of n ls) = List.length ls.
Proof. revert n. induction ls as [|l ls IH]; intros n; simpl; [|rewrite IH]; reflexivity. Qed.

(** C4: [_apply_log_filter] shows, in the order of the store, the entries
    whose level is the filter's or Other when the filter is not All, and every
    entry when it is All; the store itself is not changed. The lines
    [_append_log] adds are shown by the same rule. *)
Theorem apply_log_filter_shows (ui : FeedbackUI) :
  let f := log_level_filter ui in
  let row := row_of_entry (show_line_numbers_check ui) in
  let rows := log_text (_apply_log_filter ui) in
  (f <> "All" ->
   rows = map row (filter (fun e => (entry_level e =? f) || (entry_level e =? "Other"))
                     (log_entries ui)))
  /\ (f = "All" -> rows = map row (log_entries ui))
  /\ log_entries (_apply_log_filter ui) = log_entries ui
  /\ (forall (tbl : codepoint -> bool) (text : str),
        let added := numbered (detect_log_level tbl) (List.length (log_entries ui) + 1)
                       (split NL (rstrip text)) in
        log_text (_append_log tbl text ui)
        = log_text ui
            ++ map row (filter (fun e => (f =? "All") || (entry_level e =? f)
                                         || (entry_level e =? "Other")) added)).
Proof.
  cbv zeta. split; [|split; [|split]].
  - intros Hf. apply String.eqb_neq in Hf.
    unfold _apply_log_filter. simpl. rewrite fold_show_entry_text. simpl.
    f_equal. apply filter_ext. intros e. unfold shown. rewrite Hf. reflexivity.
  - intros Hf. unfold _apply_log_filter. simpl. rewrite fold_show_entry_text. simpl.
    rewrite Hf. f_equal.
    rewrite <- (filter_ext (fun _ => true)) by reflexivity.
    induction (log_entries ui) as [|e es IH]; simpl; congruence.
  - apply (apply_log_filter_entries ui).
  - intros tbl text. rewrite append_log_text. reflexivity.
Qed.

Lemma apply_log_filter_shows_witness :
  log_text (_apply_log_filter ui_four_levels)
  = [mkRow None (lit "error: x"); mkRow None (lit "plain")]
  /\ log_text (_apply_log_filter (new_ui [] [] true)) = [].
Proof.
  split.
  - rewrite (proj1 (apply_log_filter_shows ui_four_levels)); [reflexivity|].
    simpl. discriminate.
  - rewrite (proj1 (proj2 (apply_log_filter_shows (new_ui [] [] true)))); reflexivity.
Defined.

(** *** Numbering over sequences of calls *)

Lemma clear_logs_entries (ui : FeedbackUI) : log_entries (clear_logs ui) = log_entries ui.
Proof. reflexivity. Qed.

(** X1: over any sequence of appends, clears and re-renderings of a window,
    the numbers stored with the entries are 1, 2, 3, ... in order. *)
Lemma line_numbers_contiguous (tbl : codepoint -> bool) (ops : list log_op)
    (directory command : str) (line_numbers : bool) :
  let ui := fold_left (apply_log_op tbl) ops (new_ui directory command line_numbers) in
  map entry_number (log_entries ui) = seq 1 (List.length (log_entries ui)).
Proof.
  cbv zeta.
  assert (G : forall ui,
             map entry_number (log_entries ui) = seq 1 (List.length (log_entries ui)) ->
             map entry_number (log_entries (fold_left (apply_log_op tbl) ops ui))
             = seq 1 (List.length (log_entries (fold_left (apply_log_op tbl) ops ui)))).
  { induction ops as [|op ops IH]; intros ui H; simpl; [exact H|].
    apply IH. destruct op as [text| |]; simpl.
    - rewrite append_log_entries, map_app, length_app, seq_app, H, numbered_length.
      destruct (numbered_lines (detect_log_level tbl) (List.length (log_entries ui) + 1)
                  (split NL (rstrip text))) as (_ & _ & H3).
      rewrite H3. f_equal. f_equal. lia.
    - exact H.
    - rewrite apply_log_filter_entries. exact H. }
  apply G. reflexivity.
Qed.

(** ** The process runner *)

Lemma kill_pass_no_popen (cs : list pid) (tr : list event) (killed : list pid) :
  kill_pass cs tr killed -> existsb is_popen tr = false.
Proof. induction 1; simpl; assumption || reflexivity. Qed.

Lemma fallback_pass_no_popen (ps : list pid) (tr : list event) :
  fallback_pass ps tr -> existsb is_popen tr = false.
Proof. induction 1; simpl; assumption || reflexivity. Qed.

Section RunnerProperties.

Context {host : Host}.
Variable tbl : codepoint -> bool.

Lemma env_eta (e : Env) : mkEnv (self e) (world e) (calls e) = e.
Proof. destruct e; reflexivity. Qed.

Lemma kill_descendant_run (killed : list pid) (proc : pid) (e : Env) :
  kill_descendant killed proc e
  = let (r, w) := psutil_kill proc (world e) in
    (inr (match r with inr _ => killed ++ [proc] | inl _ => killed end),
     mkEnv (self e) w (calls e ++ [EKill proc r])).
Proof.
  unfold kill_descendant, try_except_psutil, bind, kill, psutil_call, ret.
  destruct (psutil_kill proc (world e)) as [[err|[]] w]; reflexivity.
Qed.

Lemma kill_loop_run (cs : list pid) :
  forall (acc : list pid) (e : Env),
  exists ks killed w,
    for_fold cs acc kill_descendant e
    = (inr (acc ++ killed), mkEnv (self e) w (calls e ++ ks))
    /\ kill_pass cs ks killed.
Proof.
  induction cs as [|c cs IH]; intros acc e.
  - exists [], [], (world e). simpl. unfold ret.
    rewrite !app_nil_r, env_eta. split; [reflexivity | constructor].
  - simpl. unfold bind. rewrite kill_descendant_run.
    destruct (psutil_kill c (world e)) as [[err|[]] w1].
    + destruct (IH acc (mkEnv (self e) w1 (calls e ++ [EKill c (inl err)])))
        as (ks & killed & w & Heq & Hpass).
      exists (EKill c (inl err) :: ks), killed, w. rewrite Heq. simpl.
      rewrite <- app_assoc. split; [reflexivity | constructor; exact Hpass].
    + destruct (IH (acc ++ [c]) (mkEnv (self e) w1 (calls e ++ [EKill c (inr tt)])))
        as (ks & killed & w & Heq & Hpass).
      exists (EKill c (inr tt) :: ks), (c :: killed), w. rewrite Heq. simpl.
      rewrite <- !app_assoc. split; [reflexivity | constructor; exact Hpass].
Qed.

Lemma terminate_remaining_run (proc : pid) (e : Env) :
  exists tr w,
    terminate_remaining proc e = (inr tt, mkEnv (self e) w (calls e ++ tr))
    /\ forall ps fb, fallback_pass ps fb -> fallback_pass (proc :: ps) (tr ++ fb).
Proof.
  unfold terminate_remaining, try_except_psutil, bind, is_running, terminate,
    psutil_call, ret.
  destruct (psutil_is_running proc (world e)) as [[err|[|]] w1] eqn:Hrun; simpl.
  - exists [EIsRunning proc (inl err)], w1. split; [reflexivity|].
    intros ps fb H. constructor. exact H.
  - destruct (psutil_terminate proc w1) as [[err|[]] w2] eqn:Hterm.
    + exists [EIsRunning proc (inr true); ETerminate proc (inl err)], w2.
      rewrite <- app_assoc. split; [reflexivity|].
      intros ps fb H. simpl. constructor. exact H.
    + exists [EIsRunning proc (inr true); ETerminate proc (inr tt)], w2.
      rewrite <- app_assoc. split; [reflexivity|].
      intros ps fb H. simpl. constructor. exact H.
  - exists [EIsRunning proc (inr false)], w1. split; [reflexivity|].
    intros ps fb H. constructor. exact H.
Qed.

Lemma fallback_loop_run (ps : list pid) :
  forall e : Env,
  exists fb w,
    for_each ps terminate_remaining e = (inr tt, mkEnv (self e) w (calls e ++ fb))
    /\ fallback_pass ps fb.
Proof.
  induction ps as [|p ps IH]; intros e.
  - exists [], (world e). simpl. unfold ret. rewrite app_nil_r, env_eta.
    split; [reflexivity | constructor].
  - simpl. unfold bind.
    destruct (terminate_remaining_run p e) as (tr & w1 & Heq & Hstep).
    rewrite Heq.
    destruct (IH (mkEnv (self e) w1 (calls e ++ tr))) as (fb & w & Heq' & Hpass).
    exists (tr ++ fb), w. rewrite Heq'. simpl. rewrite <- app_assoc.
    split; [reflexivity | apply Hstep; exact Hpass].
Qed.

(** A run of [kill_tree] on a root the host can look up and enumerate. *)
Lemma kill_tree_run (p : pid) (e : Env) (w1 w2 : World) (cs : list pid) :
  psutil_Process p (world e) = (inr tt, w1) ->
  psutil_children p w1 = (inr cs, w2) ->
  exists ks killed r fb w,
    kill_tree p e
    = (inr tt,
       mkEnv (self e) w
         (calls e ++ [EProcess p (inr tt); EChildren p (inr cs)]
            ++ ks ++ [EKill p r] ++ fb))
    /\ kill_pass cs ks killed
    /\ fallback_pass (killed ++ [p]) fb.
Proof.
  intros HP HC.
  unfold kill_tree, bind at 1 2, Process, bind, children, psutil_call, ret.
  rewrite HP. simpl. rewrite HC. simpl.
  destruct (kill_loop_run cs []
              (mkEnv (self e) w2
                 ((calls e ++ [EProcess p (inr tt)]) ++ [EChildren p (inr cs)])))
    as (ks & killed & w3 & Heq & Hpass).
  rewrite Heq. simpl.
  unfold try_except_psutil, kill, psutil_call. simpl.
  destruct (psutil_kill p w3) as [r w4] eqn:Hk.
  destruct (fallback_loop_run (killed ++ [p])
              (mkEnv (self e) w4
                 ((((calls e ++ [EProcess p (inr tt)]) ++ [EChildren p (inr cs)]) ++ ks)
                    ++ [EKill p r])))
    as (fb & w5 & Heq' & Hfb).
  exists ks, killed, r, fb, w5.
  split; [|split; assumption].
  destruct r as [err|[]]; simpl; rewrite Heq'; simpl;
    rewrite <- !app_assoc; reflexivity.
Qed.

(** Whatever the host answers, [kill_tree] leaves the window object alone
    and starts no process. *)
Lemma kill_tree_frame (p : pid) (e : Env) :
  exists r w tr,
    kill_tree p e = (r, mkEnv (self e) w (calls e ++ tr))
    /\ existsb is_popen tr = false.
Proof.
  destruct (psutil_Process p (world e)) as [[err|[]] w1] eqn:HP.
  - exists (inl (PsutilError err)), w1, [EProcess p (inl err)].
    unfold kill_tree, bind, Process, bind, psutil_call. rewrite HP.
    split; reflexivity.
  - destruct (psutil_children p w1) as [[err|cs] w2] eqn:HC.
    + exists (inl (PsutilError err)), w2, [EProcess p (inr tt); EChildren p (inl err)].
      unfold kill_tree, bind at 1 2, Process, bind, children, psutil_call, ret.
      rewrite HP. simpl. rewrite HC. simpl. rewrite <- app_assoc.
      split; reflexivity.
    + destruct (kill_tree_run p e w1 w2 cs HP HC)
        as (ks & killed & r & fb & w & Heq & Hk & Hf).
      exists (inr tt), w,
        ([EProcess p (inr tt); EChildren p (inr cs)] ++ ks ++ [EKill p r] ++ fb).
      split; [exact Heq|].
      rewrite !existsb_app, (kill_pass_no_popen _ _ _ Hk),
        (fallback_pass_no_popen _ _ Hf). reflexivity.
Qed.

(** C5, as the code has it: when the root can be looked up and its
    descendants enumerated, [kill_tree] returns normally; it calls [kill] on
    every descendant in the order of the enumeration, then on the root, and
    then asks each descendant whose [kill] returned, and the root, whether it
    still runs, calling [terminate] on those that do. No failure of [kill],
    [is_running] or [terminate] stops it. *)
Theorem kill_tree_best_effort (p : pid) (e : Env) (w1 w2 : World) (cs : list pid) :
  psutil_Process p (world e) = (inr tt, w1) ->
  psutil_children p w1 = (inr cs, w2) ->
  exists ks killed r fb,
    fst (kill_tree p e) = inr tt
    /\ self (snd (kill_tree p e)) = self e
    /\ calls (snd (kill_tree p e))
       = calls e ++ [EProcess p (inr tt); EChildren p (inr cs)]
           ++ ks ++ [EKill p r] ++ fb
    /\ kill_pass cs ks killed
    /\ fallback_pass (killed ++ [p]) fb.
Proof.
  intros HP HC.
  destruct (kill_tree_run p e w1 w2 cs HP HC) as (ks & killed & r & fb & w & Heq & Hk & Hf).
  exists ks, killed, r, fb. rewrite Heq. simpl. repeat split; assumption.
Qed.

Lemma run_command_stop (h : pid) (e : Env) :
  process (self e) = Some h ->
  _run_command tbl e
  = let (r, e') := kill_tree h e in
    match r with
    | inl x => (inl x, e')
    | inr _ =>
        (inr tt,
         mkEnv (set_run_button "&Run" (set_process None (self e'))) (world e') (calls e'))
    end.
Proof.
  intros Hp. unfold _run_command, bind, gets. rewrite Hp. unfold update, ret.
  destruct (kill_tree h e) as [[x|[]] e']; reflexivity.
Qed.

Lemma run_command_no_command (e : Env) :
  process (self e) = None ->
  command_entry (self e) = [] ->
  _run_command tbl e
  = (inr tt,
     mkEnv (_append_log tbl (lit "Please enter a command to run" ++ [NL])
              (set_log_buffer [] (self e)))
           (world e) (calls e)).
Proof.
  intros Hp Hc. unfold _run_command, bind, gets. rewrite Hp.
  unfold update, ret. simpl. rewrite Hc. reflexivity.
Qed.

(** C7, as the code has it: while the window holds a process,
    [_run_command] runs [kill_tree] on that process and nothing else: it starts
    no process and leaves the log stores alone. When the run is active, that
    is, the host can look the process up and enumerate its descendants, the
    call asks for the root and its descendants, calls [kill] on every
    descendant in the order of the enumeration and then on the root, asks each
    descendant whose [kill] returned, and the root, whether it still runs and
    calls [terminate] on those that do, whatever these calls answer; it makes
    no other call, returns normally, and leaves the handle [None] and the
    button on "&Run". When the root can no longer be looked up, the call
    raises and the handle stays. *)
Theorem run_command_while_running (h : pid) (e : Env) :
  process (self e) = Some h ->
  let e' := snd (_run_command tbl e) in
  world e' = world (snd (kill_tree h e))
  /\ calls e' = calls (snd (kill_tree h e))
  /\ (exists tr, calls e' = calls e ++ tr /\ existsb is_popen tr = false)
  /\ log_buffer (self e') = log_buffer (self e)
  /\ log_entries (self e') = log_entries (self e)
  /\ log_text (self e') = log_text (self e)
  /\ (forall (w1 w2 : World) (cs : list pid),
        psutil_Process h (world e) = (inr tt, w1) ->
        psutil_children h w1 = (inr cs, w2) ->
        exists ks killed r fb,
          fst (_run_command tbl e) = inr tt
          /\ process (self e') = None
          /\ run_button (self e') = "&Run"
          /\ calls e'
             = calls e ++ [EProcess h (inr tt); EChildren h (inr cs)]
                 ++ ks ++ [EKill h r] ++ fb
          /\ kill_pass cs ks killed
          /\ fallback_pass (killed ++ [h]) fb)
  /\ (forall (err : psutil_Error) (w1 : World),
        psutil_Process h (world e) = (inl err, w1) ->
        fst (_run_command tbl e) = inl (PsutilError err)
        /\ process (self e') = Some h
        /\ calls e' = calls e ++ [EProcess h (inl err)]).
Proof.
  intros Hp. cbv zeta. rewrite (run_command_stop h e Hp).
  destruct (kill_tree_frame h e) as (r & w & tr & Heq & Htr).
  assert (Hrun : forall w1 w2 cs,
             psutil_Process h (world e) = (inr tt, w1) ->
             psutil_children h w1 = (inr cs, w2) ->
             exists ks killed rk fb,
               r = inr tt
               /\ tr = [EProcess h (inr tt); EChildren h (inr cs)]
                         ++ ks ++ [EKill h rk] ++ fb
               /\ kill_pass cs ks killed
               /\ fallback_pass (killed ++ [h]) fb).
  { intros w1 w2 cs HP HC.
    destruct (kill_tree_run h e w1 w2 cs HP HC)
      as (ks & killed & rk & fb & w' & Heq' & Hk & Hf).
    exists ks, killed, rk, fb. rewrite Heq in Heq'.
    injection Heq' as Hr _ Hc. apply app_inv_head in Hc.
    repeat split; assumption. }
  assert (Hgone : forall err w1,
             psutil_Process h (world e) = (inl err, w1) ->
             r = inl (PsutilError err) /\ tr = [EProcess h (inl err)]).
  { intros err w1 HP. revert Heq.
    unfold kill_tree, bind, Process, bind, psutil_call. rewrite HP. simpl.
    intros Heq. injection Heq as Hr _ Hc. apply app_inv_head in Hc.
    split; [symmetry; exact Hr | symmetry; exact Hc]. }
  rewrite Heq.
  destruct r as [x|[]]; simpl.
  - do 2 (split; [reflexivity|]). split; [exists tr; split; [reflexivity | exact Htr]|].
    do 3 (split; [reflexivity|]). split.
    + intros w1 w2 cs HP HC.
      destruct (Hrun w1 w2 cs HP HC) as (ks & killed & rk & fb & Hr & _).
      discriminate Hr.
    + intros err w1 HP. destruct (Hgone err w1 HP) as (Hr & Ht).
      rewrite Ht. repeat split; [exact Hr | exact Hp].
  - do 2 (split; [reflexivity|]). split; [exists tr; split; [reflexivity | exact Htr]|].
    do 3 (split; [reflexivity|]). split.
    + intros w1 w2 cs HP HC.
      destruct (Hrun w1 w2 cs HP HC) as (ks & killed & rk & fb & _ & Ht & Hk & Hf).
      exists ks, killed, rk, fb. rewrite Ht. repeat split; assumption.
    + intros err w1 HP. destruct (Hgone err w1 HP) as (Hr & _). discriminate Hr.
Qed.

(** C2, as the code has it: with no process and an empty command,
    [_run_command] returns normally without any call to the host, the handle
    stays [None], [log_buffer] is reset to the one chunk
    ["Please enter a command to run\n"], and that line is appended to the
    entries, of level Other and with the next number, and shown. *)
Theorem run_command_empty_command (e : Env) :
  process (self e) = None ->
  command_entry (self e) = [] ->
  let e' := snd (_run_command tbl e) in
  let message := lit "Please enter a command to run" in
  let number := List.length (log_entries (self e)) + 1 in
  fst (_run_command tbl e) = inr tt
  /\ process (self e') = None
  /\ world e' = world e
  /\ calls e' = calls e
  /\ run_button (self e') = run_button (self e)
  /\ log_buffer (self e') = [message ++ [NL]]
  /\ log_entries (self e') = log_entries (self e) ++ [(message, "Other", number)]
  /\ log_text (self e')
     = log_text (self e)
         ++ [render_row (show_line_numbers_check (self e)) message number].
Proof.
  intros Hp Hc. cbv zeta.
  rewrite (run_command_no_command e Hp Hc). simpl.
  pose proof (append_log_frame tbl (lit "Please enter a command to run" ++ [NL])
                (set_log_buffer [] (self e))) as F.
  simpl in F. destruct F as (F1 & F2 & F3 & F4 & F5 & _).
  repeat split; try assumption.
  - rewrite F1. exact Hp.
  - rewrite append_log_buffer. reflexivity.
  - rewrite append_log_entries. reflexivity.
  - rewrite append_log_text. simpl.
    unfold shown. simpl. rewrite orb_true_r. reflexivity.
Qed.

(** ** Submission and the top level *)

Lemma close_event_run (e : Env) :
  closeEvent e
  = match process (self e) with
    | Some h =>
        let (r, e') := kill_tree h e in
        match r with
        | inl x => (inl x, e')
        | inr _ => (inr tt, mkEnv (set_closed true (self e')) (world e') (calls e'))
        end
    | None => (inr tt, mkEnv (set_closed true (self e)) (world e) (calls e))
    end.
Proof.
  unfold closeEvent, kill_running_process, bind, gets, update, ret.
  destruct (process (self e)) as [h|]; [|reflexivity].
  destruct (kill_tree h e) as [[x|[]] e']; reflexivity.
Qed.

Lemma submit_feedback_run (e : Env) :
  _submit_feedback e
  = closeEvent
      (mkEnv (set_feedback_result
                (Some (mkResult (join (log_buffer (self e))) (strip (feedback_text (self e)))))
                (self e))
             (world e) (calls e)).
Proof. reflexivity. Qed.


(** C9: with the result [run] returned, [feedback_ui] returns it when no
    output file is named; when one is named (a path that is not empty) and
    the directory and the file can be written, it creates the directory,
    writes the object [{"logs": ..., "user_feedback": ...}] to the path and
    returns [None]. *)
Theorem feedback_ui_output (exec : M unit) (e e1 : Env) (r : FeedbackResult) :
  run exec e = (inr r, e1) ->
  feedback_ui exec None e = (inr (Some r), e1)
  /\ (forall (c : codepoint) (path : str) (w2 w3 : World),
        let output_file := c :: path in
        let dir := match os_path_dirname output_file with
                   | [] => lit "."
                   | d => d
                   end in
        os_makedirs dir (world e1) = (inr tt, w2) ->
        write_json output_file
          [("logs", JString (logs r)); ("user_feedback", JString (user_feedback r))] w2
        = (inr tt, w3) ->
        feedback_ui exec (Some output_file) e
        = (inr None,
           mkEnv (self e1) w3
             (calls e1
                ++ [EMakedirs dir (inr tt);
                    EWriteJson output_file
                      [("logs", JString (logs r));
                       ("user_feedback", JString (user_feedback r))]
                      (inr tt)]))).
Proof.
  intros Hrun. unfold feedback_ui, bind. rewrite Hrun. split; [reflexivity|].
  intros c path w2 w3. cbv zeta. intros Hmk Hwr.
  unfold makedirs, dump_json, os_call, ret, json_of_result.
  rewrite Hmk. simpl. rewrite Hwr. simpl. rewrite <- app_assoc. reflexivity.
Qed.

(** An output file given as the empty string counts as none. *)
Lemma feedback_ui_empty_path (exec : M unit) (e e1 : Env) (r : FeedbackResult) :
  run exec e = (inr r, e1) ->
  feedback_ui exec (Some []) e = (inr (Some r), e1).
Proof. intros Hrun. unfold feedback_ui, bind. rewrite Hrun. reflexivity. Qed.

End RunnerProperties.

(** ** The theorems at concrete inputs *)

Lemma kill_tree_best_effort_witness :
  exists ks killed r fb,
    fst (kill_tree 1 env_running) = inr tt
    /\ self (snd (kill_tree 1 env_running)) = self env_running
    /\ calls (snd (kill_tree 1 env_running))
       = calls env_running ++ [EProcess 1 (inr tt); EChildren 1 (inr [2])]
           ++ ks ++ [EKill 1 r] ++ fb
    /\ kill_pass [2] ks killed
    /\ fallback_pass (killed ++ [1]) fb.
Proof.
  apply (kill_tree_best_effort 1 env_running world_tree world_tree [2]); reflexivity.
Defined.

(** C5 as stated fails: process 2 refuses the [kill], is still there after the
    kill pass, and the last loop neither asks about it nor calls [terminate]
    on it. *)
Lemma kill_tree_skips_descendant_it_could_not_kill :
  kill_tree 1 env_running
  = (inr tt,
     mkEnv ui_running (mkWorld [mkProc 2 1 true] [])
       [EProcess 1 (inr tt); EChildren 1 (inr [2]); EKill 2 (inl AccessDenied);
        EKill 1 (inr tt); EIsRunning 1 (inr false)])
  /\ sim_exists 2 (mkWorld [mkProc 2 1 true] []) = true.
Proof. split; reflexivity. Qed.

(** The lookup of the root is outside every [try]: on a pid the host no longer
    knows, [kill_tree] raises. *)
Lemma kill_tree_raises_when_root_is_gone :
  kill_tree 7 env_running
  = (inl (PsutilError NoSuchProcess),
     mkEnv ui_running world_tree [EProcess 7 (inl NoSuchProcess)]).
Proof. reflexivity. Qed.

(** Submitting while process 1 runs: the close event kills it and leaves the
    handle in place, so [run] calls [kill_tree] on it once more; on this host
    the process is gone by then and [run] raises instead of returning the
    result. *)
Lemma run_raises_after_submit_while_running :
  fst (run _submit_feedback env_running) = inl (PsutilError NoSuchProcess)
  /\ feedback_result (self (snd (run _submit_feedback env_running)))
     = Some (mkResult (lit "$ make" ++ [NL]) (lit "looks good")).
Proof. split; reflexivity. Qed.

Lemma run_command_while_running_witness :
  process (self env_running) = Some 1
  /\ exists ks killed r fb,
       fst (_run_command ascii_only env_running) = inr tt
       /\ process (self (snd (_run_command ascii_only env_running))) = None
       /\ run_button (self (snd (_run_command ascii_only env_running))) = "&Run"
       /\ calls (snd (_run_command ascii_only env_running))
          = calls env_running ++ [EProcess 1 (inr tt); EChildren 1 (inr [2])]
              ++ ks ++ [EKill 1 r] ++ fb
       /\ kill_pass [2] ks killed
       /\ fallback_pass (killed ++ [1]) fb.
Proof.
  split; [reflexivity|].
  pose proof (run_command_while_running ascii_only 1 env_running eq_refl) as H.
  cbv zeta in H. destruct H as (_ & _ & _ & _ & _ & _ & H & _).
  exact (H world_tree world_tree [2] eq_refl eq_refl).
Defined.

(** C7 as stated fails: stopping the run of process 1 returns normally with
    the handle [None], yet the tree is not terminated: process 2, a descendant
    that refuses the [kill], is still there, and no further call is made on
    it. *)
Lemma run_command_stop_leaves_descendant_alive :
  _run_command ascii_only env_running
  = (inr tt,
     mkEnv (set_run_button "&Run" (set_process None ui_running))
       (mkWorld [mkProc 2 1 true] [])
       [EProcess 1 (inr tt); EChildren 1 (inr [2]); EKill 2 (inl AccessDenied);
        EKill 1 (inr tt); EIsRunning 1 (inr false)])
  /\ sim_exists 2 (world env_running) = true
  /\ sim_exists 2 (world (snd (_run_command ascii_only env_running))) = true
  /\ process (self (snd (_run_command ascii_only env_running))) = None.
Proof. repeat split. Qed.

Lemma run_command_empty_command_witness :
  fst (_run_command ascii_only env_idle) = inr tt
  /\ calls (snd (_run_command ascii_only env_idle)) = [].
Proof.
  pose proof (run_command_empty_command ascii_only env_idle eq_refl eq_refl) as H.
  cbv zeta in H. destruct H as (H1 & _ & _ & H4 & _). split; [exact H1 | exact H4].
Defined.

(** C2 as stated fails: the call returns normally, and the store, empty
    before, holds a line after it. *)
Lemma run_command_empty_command_appends_a_line :
  log_entries (self env_idle) = []
  /\ fst (_run_command ascii_only env_idle) = inr tt
  /\ log_entries (self (snd (_run_command ascii_only env_idle)))
     = [(lit "Please enter a command to run", "Other", 1)]
  /\ log_buffer (self (snd (_run_command ascii_only env_idle)))
     = [lit "Please enter a command to run" ++ [NL]].
Proof. repeat split. Qed.


Lemma feedback_ui_output_witness :
  feedback_ui _submit_feedback None env_idle = (inr (Some (mkResult [] [])), 
                                                 snd (run _submit_feedback env_idle))
  /\ fst (feedback_ui _submit_feedback (Some (lit "out/r.json")) env_idle) = inr None
  /\ files (world (snd (feedback_ui _submit_feedback (Some (lit "out/r.json")) env_idle)))
     = [(lit "out/r.json", [("logs", JString []); ("user_feedback", JString [])])].
Proof.
  pose proof (feedback_ui_output _submit_feedback env_idle
                (snd (run _submit_feedback env_idle)) (mkResult [] []) eq_refl) as [H1 H2].
  split; [exact H1|].
  specialize (H2 111%N (lit "ut/r.json") world_tree
                (mkWorld (procs world_tree)
                   [(lit "out/r.json", [("logs", JString []); ("user_feedback", JString [])])])
                eq_refl eq_refl).
  cbv zeta in H2. change (111%N :: lit "ut/r.json") with (lit "out/r.json") in H2.
  split; [exact (f_equal fst H2) | exact (f_equal (fun x => files (world (snd x))) H2)].
Defined.

(** * The rest of the program: properties *)

(** ** More on strings *)

(** Whitespace after the text does not change what [rstrip] returns. *)
Lemma rstrip_app_space (s ws : str) :
  forallb isspace ws = true -> rstrip (s ++ ws) = rstrip s.
Proof.
  intros H. induction s as [|c s IH]; simpl.
  - apply rstrip_all_space. exact H.
  - rewrite IH. reflexivity.
Qed.

Lemma rstrip_nonspace (t : str) : forallb isspace t = false -> rstrip t <> [].
Proof.
  induction t as [|c t IH]; simpl; [discriminate|].
  intros H. destruct (rstrip t) as [|r rs] eqn:Hr.
  - destruct (isspace c) eqn:Hc; [|discriminate].
    simpl in H. destruct (IH H eq_refl).
  - discriminate.
Qed.

(** [rstrip] only looks at the end: what stands before text that is not all
    whitespace stays. *)
Lemma rstrip_app (s t : str) : rstrip t <> [] -> rstrip (s ++ t) = s ++ rstrip t.
Proof.
  intros Ht. induction s as [|a s IH]; simpl; [reflexivity|].
  rewrite IH. destruct (s ++ rstrip t) eqn:E; [|reflexivity].
  apply app_eq_nil in E. destruct E as [_ E]. destruct (Ht E).
Qed.

Lemma rstrip_cons_nonspace (c : codepoint) (t : str) :
  isspace c = false -> rstrip (c :: t) <> [].
Proof. intros Hc. simpl. destruct (rstrip t); [rewrite Hc|]; discriminate. Qed.

Lemma rstrip_after_nonspace (s : str) (c : codepoint) (t : str) :
  isspace c = false -> rstrip (s ++ c :: t) = (s ++ [c]) ++ rstrip t.
Proof.
  intros Hc. rewrite (rstrip_app s _ (rstrip_cons_nonspace c t Hc)), <- app_assoc.
  f_equal. simpl. destruct (rstrip t); [rewrite Hc|]; reflexivity.
Qed.

(** A string without the separator is one piece. *)
Lemma split_one_piece (sep : codepoint) (s : str) :
  existsb (N.eqb sep) s = false -> split sep s = [s].
Proof.
  induction s as [|c s IH]; simpl; [reflexivity|].
  intros H. apply orb_false_iff in H. destruct H as [Hc Hs].
  rewrite N.eqb_sym, Hc, (IH Hs). reflexivity.
Qed.

(** The first piece of a string that starts with separator-free text. *)
Lemma split_app_first (sep : codepoint) (a t : str) :
  existsb (N.eqb sep) a = false ->
  exists l ls, split sep t = l :: ls /\ split sep (a ++ t) = (a ++ l) :: ls.
Proof.
  intros Ha. induction a as [|c a IH]; simpl.
  - destruct (split sep t) as [|l ls] eqn:E; [destruct (split_nonempty _ _ E)|].
    exists l, ls. split; reflexivity.
  - simpl in Ha. apply orb_false_iff in Ha. destruct Ha as [Hc Ha].
    destruct (IH Ha) as (l & ls & E1 & E2).
    exists l, ls. split; [exact E1|]. rewrite N.eqb_sym, Hc, E2. reflexivity.
Qed.

(** ** The raw buffer and the stored lines *)

Lemma fold_append_log_buffer (tbl : codepoint -> bool) (texts : list str) (ui : FeedbackUI) :
  log_buffer (fold_left (fun ui text => _append_log tbl text ui) texts ui)
  = log_buffer ui ++ texts.
Proof.
  revert ui. induction texts as [|t texts IH]; intros ui; simpl.
  - rewrite app_nil_r. reflexivity.
  - rewrite IH, append_log_buffer, <- app_assoc. reflexivity.
Qed.

Lemma fold_append_lines (tbl : codepoint -> bool) (ls : list str) :
  Forall (fun l => existsb (N.eqb NL) l = false /\ rstrip l = l) ls ->
  forall ui : FeedbackUI,
    log_entries (fold_left (fun ui text => _append_log tbl text ui)
                   (map (fun l => l ++ [NL]) ls) ui)
    = log_entries ui
        ++ numbered (detect_log_level tbl) (List.length (log_entries ui) + 1) ls.
Proof.
  induction 1 as [|l ls [Hnl Hl] _ IH]; intros ui; cbn [fold_left map numbered].
  - rewrite !app_nil_r. reflexivity.
  - etransitivity; [apply IH|].
    rewrite append_log_entries, <- !app_assoc.
    rewrite (rstrip_app_space l [NL] eq_refl), Hl, (split_one_piece NL l Hnl).
    rewrite length_app. simpl.
    replace (List.length (log_entries ui) + 1 + 1)
      with (S (List.length (log_entries ui) + 1)) by lia.
    reflexivity.
Qed.

(** X3: when the chunks are lines as [readline] delivers them, each without
    blanks at its end and followed by one line feed, the entries stored are
    these lines, in order and numbered on, and the exported text is the stored
    lines, each followed by its line feed. *)
Theorem exported_logs_are_the_stored_lines (tbl : codepoint -> bool) (ls : list str)
    (ui : FeedbackUI) :
  Forall (fun l => existsb (N.eqb NL) l = false /\ rstrip l = l) ls ->
  let ui' := fold_left (fun ui text => _append_log tbl text ui)
               (map (fun l => l ++ [NL]) ls) (clear_logs ui) in
  let added := numbered (detect_log_level tbl) (List.length (log_entries ui) + 1) ls in
  log_entries ui' = log_entries ui ++ added
  /\ map entry_line added = ls
  /\ exported_logs ui' = concat (map (fun e => entry_line e ++ [NL]) added).
Proof.
  intros H. cbv zeta.
  destruct (numbered_lines (detect_log_level tbl) (List.length (log_entries ui) + 1) ls)
    as (L & _ & _).
  split; [exact (fold_append_lines tbl ls H (clear_logs ui))|]. split; [exact L|].
  unfold exported_logs, join. rewrite fold_append_log_buffer.
  rewrite <- (map_map entry_line (fun l => l ++ [NL])), L. reflexivity.
Qed.

Lemma exported_logs_are_the_stored_lines_witness :
  exported_logs
    (fold_left (fun ui text => _append_log ascii_only text ui)
       (map (fun l => l ++ [NL]) [lit "building"; []; lit "error: x"])
       (clear_logs ui_four_levels))
  = lit "building" ++ [NL] ++ [NL] ++ lit "error: x" ++ [NL].
Proof.
  rewrite (proj2 (proj2 (exported_logs_are_the_stored_lines ascii_only
                           [lit "building"; []; lit "error: x"] ui_four_levels
                           ltac:(repeat constructor)))).
  reflexivity.
Defined.

(** X2: what Copy and Export hand out after a clear is the chunks received
    since, one after the other and unchanged; the whitespace that the display
    drops at the end of a chunk is still there. *)
Theorem exported_logs_after_clear (tbl : codepoint -> bool) (texts : list str)
    (ui : FeedbackUI) :
  exported_logs (fold_left (fun ui text => _append_log tbl text ui) texts (clear_logs ui))
  = concat texts.
Proof. unfold exported_logs, join. rewrite fold_append_log_buffer. reflexivity. Qed.

(** ** Starting a command *)

Section StartProperties.

Context {host : Host}.
Variable tbl : codepoint -> bool.

(** What [_run_command] does with a command when no process is held. *)
Lemma run_command_start (e : Env) (c : codepoint) (cs : str) :
  process (self e) = None ->
  command_entry (self e) = c :: cs ->
  _run_command tbl e
  = let command := c :: cs in
    let cwd := project_directory (self e) in
    let ui1 := set_run_button "Sto&p"
                 (_append_log tbl (lit "$ " ++ command ++ [NL])
                    (set_log_buffer [] (self e))) in
    let (r, w) := subprocess_Popen command cwd (world e) in
    let tr := calls e ++ [EPopen command cwd r] in
    match r with
    | inr h => (inr tt, mkEnv (set_process (Some h) ui1) w tr)
    | inl message =>
        (inr tt,
         mkEnv (set_run_button "&Run"
                  (_append_log tbl (lit "Error running command: " ++ message ++ [NL]) ui1))
               w tr)
    end.
Proof.
  intros Hp Hc. cbv zeta.
  unfold _run_command, bind, gets. rewrite Hp. unfold update, ret. simpl. rewrite Hc.
  unfold try_except, bind, gets, Popen, os_call, update. simpl.
  pose proof (append_log_frame tbl (36%N :: 32%N :: c :: cs ++ [NL])
                (set_log_buffer [] (self e))) as F.
  simpl in F. destruct F as (_ & _ & _ & _ & _ & _ & _ & _ & F).
  match goal with
  | |- context [subprocess_Popen _ ?d _] =>
      replace d with (project_directory (self e)) by (symmetry; exact F)
  end.
  destruct (subprocess_Popen (c :: cs) (project_directory (self e)) (world e))
    as [[message|h] w]; reflexivity.
Qed.

(** X4: with no process held and a command typed, when [Popen] returns,
    [_run_command] has made that one call to the host, with the command and the
    project directory; it holds the new process, the button says "Sto&p", the
    raw buffer of the run before is gone and holds the chunk ["$ command\n"]
    alone, and the lines of that chunk are appended to the entries. *)
Theorem run_command_starts_process (e : Env) (command : str) (h : pid) (w : World) :
  process (self e) = None ->
  command <> [] ->
  command_entry (self e) = command ->
  subprocess_Popen command (project_directory (self e)) (world e) = (inr h, w) ->
  let e' := snd (_run_command tbl e) in
  fst (_run_command tbl e) = inr tt
  /\ process (self e') = Some h
  /\ run_button (self e') = "Sto&p"
  /\ world e' = w
  /\ calls e' = calls e ++ [EPopen command (project_directory (self e)) (inr h)]
  /\ log_buffer (self e') = [lit "$ " ++ command ++ [NL]]
  /\ log_entries (self e')
     = log_entries (self e)
         ++ numbered (detect_log_level tbl) (List.length (log_entries (self e)) + 1)
              (split NL (rstrip (lit "$ " ++ command ++ [NL]))).
Proof.
  intros Hp Hne Hc HP. destruct command as [|c cs]; [destruct (Hne eq_refl)|].
  cbv zeta. rewrite (run_command_start e c cs Hp Hc). cbv zeta. rewrite HP. simpl.
  repeat split.
  - rewrite append_log_buffer. reflexivity.
  - rewrite append_log_entries. reflexivity.
Qed.

(** The first line of the report of a failed start. *)
Lemma error_report_first_line (message : str) :
  exists l ls,
    split NL (rstrip (lit "Error running command: " ++ message ++ [NL])) = l :: ls
    /\ detect_log_level tbl l = "Error".
Proof.
  assert (R : rstrip (lit "Error running command: " ++ message ++ [NL])
              = lit "Error running command:" ++ rstrip (32%N :: message ++ [NL])).
  { exact (rstrip_after_nonspace (lit "Error running command") 58%N
             (32%N :: message ++ [NL]) eq_refl). }
  rewrite R.
  destruct (split_app_first NL (lit "Error running command:")
              (rstrip (32%N :: message ++ [NL])) eq_refl) as (l & ls & _ & E2).
  exists (lit "Error running command:" ++ l), ls. split; [exact E2|].
  unfold detect_log_level, re_search_words.
  rewrite search_from_here; [reflexivity|].
  apply (match_here_word tbl error_words (lit "Error") (lit " running command:" ++ l) None);
    try reflexivity.
  simpl. tauto.
Qed.

(** X5: a command that cannot be started does not take the window down:
    [_run_command] returns normally after the one call to [Popen], holds no
    process, and has the button back on "&Run"; the raw buffer holds the
    command line and the report, and the first line of the report,
    ["Error running command: ..."], is stored with the level Error. *)
Theorem run_command_spawn_failure (e : Env) (command message : str) (w : World) :
  process (self e) = None ->
  command <> [] ->
  command_entry (self e) = command ->
  subprocess_Popen command (project_directory (self e)) (world e) = (inl message, w) ->
  let e' := snd (_run_command tbl e) in
  let first := List.length (log_entries (self e)) + 1 in
  let shown_command := split NL (rstrip (lit "$ " ++ command ++ [NL])) in
  fst (_run_command tbl e) = inr tt
  /\ process (self e') = None
  /\ run_button (self e') = "&Run"
  /\ world e' = w
  /\ calls e' = calls e ++ [EPopen command (project_directory (self e)) (inl message)]
  /\ log_buffer (self e')
     = [lit "$ " ++ command ++ [NL]; lit "Error running command: " ++ message ++ [NL]]
  /\ exists l ls,
       split NL (rstrip (lit "Error running command: " ++ message ++ [NL])) = l :: ls
       /\ detect_log_level tbl l = "Error"
       /\ log_entries (self e')
          = log_entries (self e)
              ++ numbered (detect_log_level tbl) first shown_command
              ++ numbered (detect_log_level tbl) (first + List.length shown_command) (l :: ls).
Proof.
  intros Hp Hne Hc HP. destruct command as [|c cs]; [destruct (Hne eq_refl)|].
  cbv zeta. rewrite (run_command_start e c cs Hp Hc). cbv zeta. rewrite HP.
  cbn [fst snd self world calls].
  pose proof (append_log_frame tbl (lit "Error running command: " ++ message ++ [NL])
                (set_run_button "Sto&p"
                   (_append_log tbl (lit "$ " ++ (c :: cs) ++ [NL])
                      (set_log_buffer [] (self e))))) as F.
  cbv zeta in F. destruct F as (F1 & _).
  pose proof (append_log_frame tbl (lit "$ " ++ (c :: cs) ++ [NL])
                (set_log_buffer [] (self e))) as G.
  cbv zeta in G. destruct G as (G1 & _).
  split; [reflexivity|]. split.
  { cbn [process set_run_button]. etransitivity; [exact F1|].
    cbn [process set_run_button]. etransitivity; [exact G1|]. exact Hp. }
  split; [reflexivity|]. split; [reflexivity|]. split; [reflexivity|]. split.
  { cbn [log_buffer set_run_button]. rewrite append_log_buffer.
    cbn [log_buffer set_run_button]. rewrite append_log_buffer. reflexivity. }
  destruct (error_report_first_line message) as (l & ls & E & D).
  exists l, ls. split; [exact E|]. split; [exact D|].
  cbn [log_entries set_run_button]. rewrite append_log_entries.
  cbn [log_entries set_run_button]. rewrite append_log_entries.
  cbn [log_entries set_log_buffer]. rewrite <- app_assoc, length_app, numbered_length.
  rewrite E. f_equal. f_equal. f_equal. lia.
Qed.

End StartProperties.

Lemma run_command_starts_process_witness :
  fst (_run_command ascii_only env_typed) = inr tt
  /\ process (self (snd (_run_command ascii_only env_typed))) = Some 3
  /\ run_button (self (snd (_run_command ascii_only env_typed))) = "Sto&p"
  /\ calls (snd (_run_command ascii_only env_typed))
     = [EPopen (lit "make") (lit "/work") (inr 3)]
  /\ log_entries (self (snd (_run_command ascii_only env_typed)))
     = [(lit "$ make", "Other", 1)].
Proof.
  pose proof (run_command_starts_process ascii_only env_typed (lit "make") 3
                (mkWorld [mkProc 1 0 false; mkProc 2 1 true; mkProc 3 0 false] [])
                eq_refl ltac:(discriminate) eq_refl eq_refl) as H.
  cbv zeta in H. destruct H as (H1 & H2 & H3 & _ & H5 & _ & H7).
  split; [exact H1|]. split; [exact H2|]. split; [exact H3|].
  split; [exact H5|exact H7].
Defined.

Lemma run_command_spawn_failure_witness :
  fst (_run_command ascii_only env_no_directory) = inr tt
  /\ process (self (snd (_run_command ascii_only env_no_directory))) = None
  /\ run_button (self (snd (_run_command ascii_only env_no_directory))) = "&Run"
  /\ log_buffer (self (snd (_run_command ascii_only env_no_directory)))
     = [lit "$ make" ++ [NL];
        lit "Error running command: [Errno 2] No such file or directory: ''" ++ [NL]].
Proof.
  pose proof (run_command_spawn_failure ascii_only env_no_directory (lit "make")
                (lit "[Errno 2] No such file or directory: ''") world_tree
                eq_refl ltac:(discriminate) eq_refl eq_refl) as H.
  cbv zeta in H. destruct H as (H1 & H2 & H3 & _ & _ & H6 & _).
  split; [exact H1|]. split; [exact H2|]. split; [exact H3|exact H6].
Defined.

(** ** The status timer *)

Lemma numeral_chars_uint (d : Decimal.uint) :
  forallb numeral_char (lit (DecimalString.NilEmpty.string_of_uint d)) = true.
Proof. induction d; simpl; try reflexivity; exact IHd. Qed.

(** [str(n)] is a sign and digits, and not empty. *)
Lemma str_of_int_numeral (n : Z) :
  forallb numeral_char (str_of_int n) = true /\ str_of_int n <> [].
Proof.
  unfold str_of_int. destruct (Z.to_int n) as [d|d]; simpl.
  - destruct d; simpl; (split; [try reflexivity; apply numeral_chars_uint | discriminate]).
  - split; [|discriminate].
    destruct d; simpl; try reflexivity; apply numeral_chars_uint.
Qed.

Lemma numeral_char_cases (c : codepoint) :
  numeral_char c = true ->
  In c [45; 48; 49; 50; 51; 52; 53; 54; 55; 56; 57]%N.
Proof.
  unfold numeral_char, in_range. intros H.
  apply orb_true_iff in H. destruct H as [H|H].
  - apply N.eqb_eq in H. left. symmetry. exact H.
  - apply andb_true_iff in H. destruct H as [H1 H2]. apply N.leb_le in H1, H2.
    simpl. lia.
Qed.

Lemma numeral_char_plain (c : codepoint) :
  numeral_char c = true -> isspace c = false /\ N.eqb NL c = false.
Proof.
  intros H. apply numeral_char_cases in H. simpl in H.
  repeat (destruct H as [H|H]; [subst c; split; reflexivity|]). destruct H.
Qed.

(** The lines of a chunk made of a line feed, a text without line feeds, a
    numeral and a line feed. *)
Lemma numeral_report_lines (P t : str) :
  existsb (N.eqb NL) P = false ->
  forallb numeral_char t = true ->
  t <> [] ->
  split NL (rstrip ([NL] ++ P ++ t ++ [NL])) = [[]; P ++ t].
Proof.
  intros HP Ht Hne.
  destruct (exists_last Hne) as (d & c & E). subst t.
  assert (Hc : numeral_char c = true).
  { rewrite forallb_app in Ht. apply andb_true_iff in Ht. destruct Ht as [_ Ht].
    simpl in Ht. rewrite andb_true_r in Ht. exact Ht. }
  destruct (numeral_char_plain c Hc) as [Hsp _].
  assert (R : rstrip ([NL] ++ P ++ (d ++ [c]) ++ [NL]) = NL :: P ++ d ++ [c]).
  { transitivity (rstrip (((NL :: P ++ d) ++ [c]) ++ [NL])).
    - f_equal. simpl. rewrite <- !app_assoc. reflexivity.
    - rewrite (rstrip_app_space _ [NL] eq_refl).
      rewrite (rstrip_after_nonspace (NL :: P ++ d) c [] Hsp).
      simpl. rewrite app_nil_r, <- app_assoc. reflexivity. }
  rewrite R. cbn [split]. rewrite N.eqb_refl.
  rewrite split_one_piece; [reflexivity|].
  rewrite existsb_app. apply orb_false_iff. split; [exact HP|].
  clear -Ht. induction (d ++ [c]) as [|x xs IH]; simpl in *; [reflexivity|].
  apply andb_true_iff in Ht. destruct Ht as [Hx Ht].
  apply orb_false_iff. split; [exact (proj2 (numeral_char_plain x Hx)) | exact (IH Ht)].
Qed.

Section TimerProperties.

Context {host : Host} {polling : Polling}.
Variable tbl : codepoint -> bool.

Lemma match_here_no_prefix (alts : list str) (prev : option codepoint) (s : str) :
  forallb (fun w => match strip_prefix w s with None => true | Some _ => false end) alts = true ->
  match_here tbl alts prev s = false.
Proof.
  intros H. unfold match_here. apply andb_false_iff. right.
  induction alts as [|w alts IH]; simpl in *; [reflexivity|].
  apply andb_true_iff in H. destruct H as [Hw H].
  destruct (strip_prefix w s); [discriminate|]. simpl. exact (IH H).
Qed.

(** No word that starts with a letter or a check mark is found in a numeral. *)
Lemma search_from_numeral (alts : list str) (prev : option codepoint) (t : str) :
  forallb (fun w => match w with a :: _ => negb (numeral_char a) | [] => false end) alts = true ->
  forallb numeral_char t = true ->
  search_from tbl alts prev t = false.
Proof.
  intros Ha. revert prev. induction t as [|c t IH]; intros prev Ht.
  - simpl. rewrite orb_false_r. apply match_here_no_prefix.
    clear -Ha. induction alts as [|w alts IH]; simpl in *; [reflexivity|].
    apply andb_true_iff in Ha. destruct Ha as [Hw Ha]. rewrite (IH Ha).
    destruct w; [discriminate|reflexivity].
  - simpl in Ht. apply andb_true_iff in Ht. destruct Ht as [Hc Ht].
    cbn [search_from]. rewrite (IH (Some c) Ht), orb_false_r.
    apply match_here_no_prefix.
    clear -Ha Hc. induction alts as [|w alts IH]; simpl in *; [reflexivity|].
    apply andb_true_iff in Ha. destruct Ha as [Hw Ha]. rewrite (IH Ha), andb_true_r.
    destruct w as [|a w]; [discriminate|]. simpl.
    destruct (N.eqb a c) eqn:E; [|reflexivity].
    apply N.eqb_eq in E. subst a. rewrite Hc in Hw. discriminate.
Qed.

(** The report of a natural exit holds none of the keywords. *)
Lemma exit_report_level (t : str) :
  forallb numeral_char t = true ->
  detect_log_level tbl (lit "Process exited with code " ++ t) = "Other".
Proof.
  intros Ht. unfold detect_log_level, re_search_words.
  assert (S : forall alts,
             forallb (fun w => match w with a :: _ => negb (numeral_char a) | [] => false end)
               alts = true ->
             search_from tbl alts (Some 32%N) t = false).
  { intros alts Ha. apply search_from_numeral; assumption. }
  assert (E1 : search_from tbl error_words None (lit "Process exited with code " ++ t) = false)
    by (cbn; apply S; reflexivity).
  assert (E2 : search_from tbl warning_words None (lit "Process exited with code " ++ t) = false)
    by (cbn; apply S; reflexivity).
  assert (E3 : search_from tbl success_words None (lit "Process exited with code " ++ t) = false)
    by (cbn; apply S; reflexivity).
  assert (E4 : search_from tbl info_words None (lit "Process exited with code " ++ t) = false)
    by (cbn; apply S; reflexivity).
  rewrite E1, E2, E3, E4. reflexivity.
Qed.

Lemma check_process_status_run (e : Env) :
  _check_process_status tbl e
  = match process (self e) with
    | None => (inr tt, e)
    | Some h =>
        let (r, w) := Popen_poll h (world e) in
        match r with
        | None => (inr tt, mkEnv (self e) w (calls e))
        | Some _ =>
            let (exit_code, w') := Popen_poll h w in
            (inr tt,
             mkEnv (set_process None
                      (set_run_button "&Run"
                         (_append_log tbl
                            ([NL] ++ lit "Process exited with code "
                               ++ format_exit_code exit_code ++ [NL])
                            (self e))))
                   w' (calls e))
        end
    end.
Proof.
  unfold _check_process_status, bind, gets, poll, update, ret.
  destruct (process (self e)) as [h|]; [|reflexivity].
  simpl. destruct (Popen_poll h (world e)) as [[c|] w]; [|reflexivity].
  simpl. destruct (Popen_poll h w) as [exit_code w']. reflexivity.
Qed.

Lemma exit_report_lines (code : Z) :
  split NL (rstrip ([NL] ++ lit "Process exited with code " ++ str_of_int code ++ [NL]))
  = [[]; lit "Process exited with code " ++ str_of_int code].
Proof.
  destruct (str_of_int_numeral code) as [Hd Hne].
  apply (numeral_report_lines (lit "Process exited with code ") (str_of_int code));
    [reflexivity | exact Hd | exact Hne].
Qed.

(** X6: [_check_process_status] does nothing while no process is held or the
    process still runs. Once poll reports an exit code, it drops the handle,
    puts the button back on "&Run", and appends the chunk
    ["\nProcess exited with code N\n"], which is stored as two lines of level
    Other: an empty one and the report. It calls nothing that is recorded on
    the host. *)
Theorem check_process_status_reports_exit (e : Env) :
  (process (self e) = None -> _check_process_status tbl e = (inr tt, e))
  /\ (forall (h : pid) (w : World),
        process (self e) = Some h ->
        Popen_poll h (world e) = (None, w) ->
        _check_process_status tbl e = (inr tt, mkEnv (self e) w (calls e)))
  /\ (forall (h : pid) (code : Z) (w : World),
        process (self e) = Some h ->
        Popen_poll h (world e) = (Some code, w) ->
        let e' := snd (_check_process_status tbl e) in
        let n := List.length (log_entries (self e)) in
        let report := lit "Process exited with code " ++ str_of_int code in
        fst (_check_process_status tbl e) = inr tt
        /\ process (self e') = None
        /\ run_button (self e') = "&Run"
        /\ world e' = w
        /\ calls e' = calls e
        /\ log_buffer (self e') = log_buffer (self e) ++ [[NL] ++ report ++ [NL]]
        /\ log_entries (self e')
           = log_entries (self e) ++ [([], "Other", n + 1); (report, "Other", n + 2)]).
Proof.
  rewrite check_process_status_run. split; [|split].
  - intros Hp. rewrite Hp. reflexivity.
  - intros h w Hp HP. rewrite Hp, HP. reflexivity.
  - intros h code w Hp HP. cbv zeta. rewrite Hp, HP, (poll_stable h _ _ _ HP).
    cbn [fst snd self world calls format_exit_code].
    do 5 (split; [reflexivity|]). split.
    + cbn [log_buffer set_process set_run_button]. rewrite append_log_buffer. reflexivity.
    + cbn [log_entries set_process set_run_button].
      rewrite append_log_entries, exit_report_lines. cbn [numbered].
      rewrite (exit_report_level _ (proj1 (str_of_int_numeral code))).
      replace (S (List.length (log_entries (self e)) + 1))
        with (List.length (log_entries (self e)) + 2) by lia.
      reflexivity.
Qed.

End TimerProperties.

Lemma check_process_status_reports_exit_witness :
  log_entries (self (snd (_check_process_status ascii_only env_exited)))
  = [(lit "$ true", "Other", 1); ([], "Other", 2);
     (lit "Process exited with code 0", "Other", 3)]
  /\ process (self (snd (_check_process_status ascii_only env_exited))) = None.
Proof.
  destruct (check_process_status_reports_exit ascii_only env_exited) as (_ & _ & H).
  specialize (H 5 0%Z world_tree eq_refl eq_refl). cbv zeta in H.
  destruct H as (_ & H2 & _ & _ & _ & _ & H7). split; [exact H7 | exact H2].
Defined.

(** ** The event loop *)

Lemma fold_show_entry_rest (f : string) (sh : bool) (es : list log_entry) (ui : FeedbackUI) :
  let ui' := fold_left (show_entry f sh) es ui in
  feedback_result ui' = feedback_result ui /\ run_button ui' = run_button ui.
Proof.
  revert ui. induction es as [|[[line level] n] es IH]; intros ui; simpl.
  - split; reflexivity.
  - specialize (IH (if filtered_out f level then ui
                    else set_log_text (log_text ui ++ [render_row sh line n]) ui)).
    simpl in IH. destruct (filtered_out f level); simpl in IH; exact IH.
Qed.

(** What rendering again leaves alone. *)
Lemma apply_log_filter_frame (ui : FeedbackUI) :
  let ui' := _apply_log_filter ui in
  log_entries ui' = log_entries ui /\ log_buffer ui' = log_buffer ui
  /\ process ui' = process ui /\ log_level_filter ui' = log_level_filter ui
  /\ show_line_numbers_check ui' = show_line_numbers_check ui
  /\ feedback_result ui' = feedback_result ui /\ run_button ui' = run_button ui.
Proof.
  unfold _apply_log_filter. cbv zeta.
  pose proof (fold_show_entry_frame (log_level_filter (set_log_text [] ui))
                (show_line_numbers_check (set_log_text [] ui))
                (log_entries (set_log_text [] ui)) (set_log_text [] ui)) as F.
  pose proof (fold_show_entry_rest (log_level_filter (set_log_text [] ui))
                (show_line_numbers_check (set_log_text [] ui))
                (log_entries (set_log_text [] ui)) (set_log_text [] ui)) as G.
  cbv zeta in F, G. destruct F as (F1 & F2 & F3 & F4 & F5). destruct G as (G1 & G2).
  repeat split; assumption.
Qed.

(** Rendering again makes the display show the store, whatever it showed. *)
Lemma apply_log_filter_matches (ui : FeedbackUI) :
  display_matches_store (_apply_log_filter ui).
Proof.
  unfold display_matches_store.
  destruct (apply_log_filter_frame ui) as (E & _ & _ & F & S & _).
  rewrite E, F, S. unfold _apply_log_filter. cbv zeta.
  rewrite fold_show_entry_text. reflexivity.
Qed.

Lemma append_log_matches (tbl : codepoint -> bool) (text : str) (ui : FeedbackUI) :
  display_matches_store ui -> display_matches_store (_append_log tbl text ui).
Proof.
  unfold display_matches_store. intros H.
  destruct (append_log_frame tbl text ui) as (_ & F & S & _).
  rewrite F, S, append_log_text, append_log_entries, H, filter_app, map_app. reflexivity.
Qed.

Section EventLoopProperties.

Context {host : Host} {polling : Polling}.
Variable tbl : codepoint -> bool.

(** What the slots do to the window, slot by slot: a property of the window
    that the single updates keep is kept by every slot. The updates of an
    event's own slot are asked for that event only. *)
Lemma dispatch_preserves (P : FeedbackUI -> Prop) (ev : ui_event) (e : Env) :
  (forall text ui, P ui -> P (_append_log tbl text ui)) ->
  (forall v ui, P ui -> P (set_log_buffer v ui)) ->
  (forall v ui, P ui -> P (set_process v ui)) ->
  (forall v ui, P ui -> P (set_run_button v ui)) ->
  (forall v ui, P ui -> P (set_closed v ui)) ->
  match ev with
  | CommandEdited text => forall ui, P ui -> P (set_command_entry text ui)
  | FeedbackEdited text => forall ui, P ui -> P (set_feedback_text text ui)
  | ClearRequested => forall ui, P ui -> P (clear_logs ui)
  | FilterChanged level =>
      forall ui, P ui -> P (_apply_log_filter (set_log_level_filter level ui))
  | LineNumbersToggled checked =>
      forall ui, P ui -> P (_apply_log_filter (set_show_line_numbers_check checked ui))
  | SubmitRequested => forall r ui, P ui -> P (set_feedback_result r ui)
  | _ => True
  end ->
  P (self e) -> P (self (snd (dispatch tbl ev e))).
Proof.
  intros Happ Hbuf Hproc Hbtn Hclosed Hev HP.
  assert (Hclose : forall e0, P (self e0) -> P (self (snd (closeEvent e0)))).
  { intros e0 H0. rewrite close_event_run.
    destruct (process (self e0)) as [h|]; [|apply Hclosed; exact H0].
    destruct (kill_tree_frame h e0) as (r & w & tr & Heq & _). rewrite Heq.
    destruct r as [x|[]]; simpl; [exact H0 | apply Hclosed; exact H0]. }
  destruct ev; simpl.
  - destruct (process (self e)) as [h|] eqn:Hp.
    + rewrite (run_command_stop tbl h e Hp).
      destruct (kill_tree_frame h e) as (r & w & tr & Heq & _). rewrite Heq.
      destruct r as [x|[]]; simpl; [exact HP|]. apply Hbtn, Hproc, HP.
    + destruct (command_entry (self e)) as [|c cs] eqn:Hc.
      * rewrite (run_command_no_command tbl e Hp Hc). simpl. apply Happ, Hbuf, HP.
      * rewrite (run_command_start tbl e c cs Hp Hc). cbv zeta.
        destruct (subprocess_Popen (c :: cs) (project_directory (self e)) (world e))
          as [[message|h] w]; simpl.
        -- apply Hbtn, Happ, Hbtn, Happ, Hbuf, HP.
        -- apply Hproc, Hbtn, Happ, Hbuf, HP.
  - apply Hev, HP.
  - apply Hev, HP.
  - apply Happ, HP.
  - rewrite check_process_status_run.
    destruct (process (self e)) as [h|]; [|exact HP].
    destruct (Popen_poll h (world e)) as [[c|] w]; [|exact HP].
    destruct (Popen_poll h w) as [exit_code w']. simpl. apply Hproc, Hbtn, Happ, HP.
  - apply Hev, HP.
  - apply Hev, HP.
  - apply Hev, HP.
  - rewrite submit_feedback_run. apply Hclose. simpl. apply Hev, HP.
  - apply Hclose, HP.
Qed.

Lemma event_loop_preserves (P : FeedbackUI -> Prop) (events : list ui_event) :
  (forall ev e, In ev events -> P (self e) -> P (self (snd (dispatch tbl ev e)))) ->
  forall e, P (self e) -> P (self (snd (event_loop tbl events e))).
Proof.
  unfold event_loop. simpl.
  induction events as [|ev events IH]; intros Hstep e HP; simpl; [exact HP|].
  apply IH.
  - intros ev' e' Hin. apply Hstep. right. exact Hin.
  - apply Hstep; [left; reflexivity | exact HP].
Qed.

(** X7: as long as the log is not cleared, the display shows the store: after
    any sequence of events without a clear, the rows of the display are the
    stored entries the current filter lets through, in order, with or without
    their numbers as the check box says. *)
Theorem display_matches_store_without_clear (events : list ui_event) (e : Env) :
  existsb is_clear events = false ->
  display_matches_store (self e) ->
  display_matches_store (self (snd (event_loop tbl events e))).
Proof.
  intros Hnc. apply event_loop_preserves. intros ev e0 Hin H0.
  apply dispatch_preserves; try exact H0; try (intros; assumption).
  - intros text ui. apply append_log_matches.
  - destruct ev; try exact I; try (intros; assumption).
    + exfalso. rewrite (proj2 (existsb_exists is_clear events)) in Hnc; [discriminate|].
      exists ClearRequested. split; [exact Hin | reflexivity].
    + intros ui _. apply apply_log_filter_matches.
    + intros ui _. apply apply_log_filter_matches.
Qed.

(** What a slot does to the handle and the caption together: a relation
    between the two that holds of no handle with "&Run" and of any handle with
    "Sto&p" is kept by every slot. *)
Lemma dispatch_keeps_caption (Q : option pid -> string -> Prop) (ev : ui_event) (e : Env) :
  Q None "&Run" ->
  (forall h, Q (Some h) "Sto&p") ->
  Q (process (self e)) (run_button (self e)) ->
  Q (process (self (snd (dispatch tbl ev e))))
    (run_button (self (snd (dispatch tbl ev e)))).
Proof.
  intros Hrun Hstop HP.
  assert (Hclose : forall e0, Q (process (self e0)) (run_button (self e0)) ->
                              Q (process (self (snd (closeEvent e0))))
                                (run_button (self (snd (closeEvent e0))))).
  { intros e0 H0. rewrite close_event_run.
    destruct (process (self e0)) as [h|] eqn:Hp0; [|simpl; rewrite Hp0; exact H0].
    destruct (kill_tree_frame h e0) as (r & w & tr & Heq & _). rewrite Heq.
    destruct r as [x|[]]; simpl; rewrite Hp0; exact H0. }
  destruct ev; simpl; try exact HP.
  - destruct (process (self e)) as [h|] eqn:Hp.
    + rewrite (run_command_stop tbl h e Hp).
      destruct (kill_tree_frame h e) as (r & w & tr & Heq & _). rewrite Heq.
      destruct r as [x|[]]; simpl; [rewrite Hp; exact HP | exact Hrun].
    + destruct (command_entry (self e)) as [|c cs] eqn:Hc.
      * rewrite (run_command_no_command tbl e Hp Hc). cbn [self snd].
        match goal with
        | |- context [process (_append_log tbl ?t ?u)] =>
            destruct (append_log_frame tbl t u) as (F1 & _ & _ & _ & F2 & _)
        end.
        rewrite F1, F2. simpl. rewrite Hp. exact HP.
      * rewrite (run_command_start tbl e c cs Hp Hc). cbv zeta.
        destruct (subprocess_Popen (c :: cs) (project_directory (self e)) (world e))
          as [[message|h] w]; simpl; [|apply Hstop].
        match goal with
        | |- context [process (_append_log tbl ?t ?u)] =>
            destruct (append_log_frame tbl t u) as (F1 & _)
        end.
        rewrite F1. simpl.
        match goal with
        | |- context [process (_append_log tbl ?t ?u)] =>
            destruct (append_log_frame tbl t u) as (G1 & _)
        end.
        rewrite G1. simpl. rewrite Hp. exact Hrun.
  - destruct (append_log_frame tbl text (self e)) as (F1 & _ & _ & _ & F2 & _).
    rewrite F1, F2. exact HP.
  - rewrite check_process_status_run.
    destruct (process (self e)) as [h|] eqn:Hp; [|simpl; rewrite Hp; exact HP].
    destruct (Popen_poll h (world e)) as [[c|] w]; [|simpl; rewrite Hp; exact HP].
    destruct (Popen_poll h w) as [exit_code w']. exact Hrun.
  - destruct (apply_log_filter_frame (set_log_level_filter level (self e)))
      as (_ & _ & F1 & _ & _ & _ & F2).
    rewrite F1, F2. exact HP.
  - unfold _toggle_line_numbers.
    destruct (apply_log_filter_frame (set_show_line_numbers_check checked (self e)))
      as (_ & _ & F1 & _ & _ & _ & F2).
    rewrite F1, F2. exact HP.
  - rewrite submit_feedback_run. apply Hclose. exact HP.
  - apply Hclose. exact HP.
Qed.

(** X8: the slots keep the caption of the run button in step with the
    handle: from a window in step, the window [__init__] builds among them,
    after any sequence of events the button says "Sto&p" when a process is held
    and, when none is, "&Run" or still the caption it was created with, also
    when starting or stopping failed. No slot writes the caption of creation:
    the button shows it at the end only if it showed it at the start. *)
Theorem button_in_step_always (events : list ui_event) (e : Env) :
  button_in_step (self e) ->
  let e' := snd (event_loop tbl events e) in
  button_in_step (self e')
  /\ (run_button (self e') = "&Run (Ctrl+R / F5)" ->
      run_button (self e) = "&Run (Ctrl+R / F5)").
Proof.
  intros H0. cbv zeta.
  set (Q := fun (p : option pid) (c : string) =>
              match p with
              | Some _ => c = "Sto&p"
              | None => c = "&Run" \/ c = "&Run (Ctrl+R / F5)"
              end
              /\ (c = "&Run (Ctrl+R / F5)" -> run_button (self e) = "&Run (Ctrl+R / F5)")).
  refine (event_loop_preserves (fun ui => Q (process ui) (run_button ui)) events _ e _).
  - intros ev e0 _ HQ. apply dispatch_keeps_caption; [| |exact HQ].
    + split; [left; reflexivity | discriminate].
    + intros h. split; [reflexivity | discriminate].
  - split; [exact H0 | exact (fun H => H)].
Qed.

(** X9: when the user never submits, the result [run] returns has an empty
    [user_feedback], and its [logs] are the raw buffer as the event loop left
    it. *)
Theorem run_without_submit (events : list ui_event) (e e' : Env) (r : FeedbackResult) :
  existsb is_submit events = false ->
  feedback_result (self e) = None ->
  run (event_loop tbl events) e = (inr r, e') ->
  user_feedback r = []
  /\ logs r = exported_logs (self (snd (event_loop tbl events e)))
  /\ self e' = self (snd (event_loop tbl events e)).
Proof.
  intros Hns Hnone Hrun.
  assert (H1 : feedback_result (self (snd (event_loop tbl events e))) = None).
  { refine (event_loop_preserves (fun ui => feedback_result ui = None) events _ e Hnone).
    intros ev e0 Hin H0.
    apply (dispatch_preserves (fun ui => feedback_result ui = None));
      try exact H0; try (intros; assumption).
    - intros text ui H. destruct (append_log_frame tbl text ui) as (_ & _ & _ & F & _).
      rewrite F. exact H.
    - destruct ev; try exact I; try (intros; assumption).
      + intros ui H.
        destruct (apply_log_filter_frame (set_log_level_filter level ui))
          as (_ & _ & _ & _ & _ & F & _).
        rewrite F. exact H.
      + intros ui H.
        destruct (apply_log_filter_frame (set_show_line_numbers_check checked ui))
          as (_ & _ & _ & _ & _ & F & _).
        rewrite F. exact H.
      + exfalso. rewrite (proj2 (existsb_exists is_submit events)) in Hns; [discriminate|].
        exists SubmitRequested. split; [exact Hin | reflexivity]. }
  unfold run, bind in Hrun.
  change (event_loop tbl events e) with (@inr exn unit tt, snd (event_loop tbl events e)) in Hrun.
  set (e1 := snd (event_loop tbl events e)) in *.
  unfold kill_running_process, bind, gets, ret in Hrun.
  destruct (process (self e1)) as [h|].
  - destruct (kill_tree_frame h e1) as (x & w & tr & Heq & _). rewrite Heq in Hrun.
    destruct x as [x|[]]; [discriminate|]. simpl in Hrun. rewrite H1 in Hrun.
    injection Hrun as <- <-. repeat split.
  - simpl in Hrun. rewrite H1 in Hrun. injection Hrun as <- <-. repeat split.
Qed.

End EventLoopProperties.

Lemma display_matches_store_without_clear_witness :
  display_matches_store
    (self (snd (event_loop ascii_only
                  [LogReceived (lit "warning: w" ++ [NL]); FilterChanged "Error";
                   LogReceived (lit "error: e" ++ [NL]); LineNumbersToggled true]
                  env_idle))).
Proof.
  apply (display_matches_store_without_clear ascii_only
           [LogReceived (lit "warning: w" ++ [NL]); FilterChanged "Error";
            LogReceived (lit "error: e" ++ [NL]); LineNumbersToggled true] env_idle);
    reflexivity.
Defined.

Lemma button_in_step_always_witness :
  button_in_step (new_ui (lit "/work") [] false)
  /\ button_in_step
       (self (snd (event_loop ascii_only
                     [CommandEdited (lit "make"); RunRequested; StatusTimeout; RunRequested]
                     env_idle)))
  /\ button_in_step
       (self (snd (event_loop ascii_only [LogReceived (lit "ready" ++ [NL]); RunRequested]
                     env_idle))).
Proof.
  split; [right; reflexivity|].
  split.
  - apply (button_in_step_always ascii_only
             [CommandEdited (lit "make"); RunRequested; StatusTimeout; RunRequested]
             env_idle).
    right. reflexivity.
  - apply (button_in_step_always ascii_only [LogReceived (lit "ready" ++ [NL]); RunRequested]
             env_idle).
    right. reflexivity.
Defined.

Lemma run_without_submit_witness :
  user_feedback (mkResult (lit "done" ++ [NL]) []) = []
  /\ fst (run (event_loop ascii_only
                 [LogReceived (lit "done" ++ [NL]); FeedbackEdited (lit "typed, not sent");
                  CloseRequested])
            env_idle)
     = inr (mkResult (lit "done" ++ [NL]) []).
Proof.
  split; [|reflexivity].
  exact (proj1 (run_without_submit ascii_only
                  [LogReceived (lit "done" ++ [NL]); FeedbackEdited (lit "typed, not sent");
                   CloseRequested]
                  env_idle _ (mkResult (lit "done" ++ [NL]) []) eq_refl eq_refl eq_refl)).
Defined.

(** ** Highlighting *)

Lemma replace_char_app (old : codepoint) (new a b : str) :
  replace_char old new (a ++ b) = replace_char old new a ++ replace_char old new b.
Proof.
  induction a as [|c a IH]; simpl; [reflexivity|].
  destruct (N.eqb c old); rewrite IH; [rewrite app_assoc|]; reflexivity.
Qed.

(** The three replacements work code point by code point: the [&] of an
    entity written by one replacement is not touched by the next. *)
Lemma escape_html_chars (line : str) : escape_html line = flat_map escape_char line.
Proof.
  unfold escape_html. induction line as [|c line IH]; [reflexivity|].
  cbn [flat_map]. rewrite <- IH. unfold escape_char.
  cbn [replace_char].
  destruct (N.eqb c 38) eqn:E1.
  - rewrite !replace_char_app. reflexivity.
  - cbn [replace_char]. destruct (N.eqb c 60) eqn:E2.
    + rewrite !replace_char_app. reflexivity.
    + cbn [replace_char]. destruct (N.eqb c 62) eqn:E3; reflexivity.
Qed.

Section HighlightProperties.

Variable tbl : codepoint -> bool.

Lemma match_here_no_boundary (alts : list str) (prev : option codepoint) (s : str) :
  word_boundary tbl prev (hd_error s) = false -> match_here tbl alts prev s = false.
Proof. intros H. unfold match_here. rewrite H. reflexivity. Qed.

Lemma match_here_other_head (alts : list str) (prev : option codepoint) (c : codepoint)
    (s : str) :
  forallb (fun w => match w with a :: _ => negb (N.eqb a c) | [] => false end) alts = true ->
  match_here tbl alts prev (c :: s) = false.
Proof.
  intros H. apply match_here_no_prefix.
  induction alts as [|w alts IH]; simpl in *; [reflexivity|].
  apply andb_true_iff in H. destruct H as [Hw H]. rewrite (IH H), andb_true_r.
  destruct w as [|a w]; [discriminate|]. simpl.
  destruct (N.eqb a c); [discriminate | reflexivity].
Qed.

Lemma escape_char_head (s : str) :
  is_word_opt tbl (hd_error (flat_map escape_char s)) = is_word_opt tbl (hd_error s).
Proof.
  destruct s as [|c s]; [reflexivity|]. cbn [flat_map]. unfold escape_char.
  destruct (N.eqb_spec c 38) as [->|]; [reflexivity|].
  destruct (N.eqb_spec c 60) as [->|]; [reflexivity|].
  destruct (N.eqb_spec c 62) as [->|]; reflexivity.
Qed.

Lemma strip_prefix_escaped (w s : str) :
  forallb (fun c => negb (existsb (N.eqb c) [38; 60; 62]%N)) w = true ->
  strip_prefix w (flat_map escape_char s)
  = option_map (flat_map escape_char) (strip_prefix w s).
Proof.
  revert s. induction w as [|a w IH]; intros s Hw; [reflexivity|].
  simpl in Hw. apply andb_true_iff in Hw. destruct Hw as [Ha Hw].
  rewrite !orb_false_r in Ha. apply negb_true_iff in Ha.
  apply orb_false_iff in Ha. destruct Ha as [A1 Ha].
  apply orb_false_iff in Ha. destruct Ha as [A2 A3].
  destruct s as [|c s]; [reflexivity|].
  cbn [flat_map strip_prefix]. unfold escape_char.
  destruct (N.eqb_spec c 38) as [->|]; [cbn; rewrite A1; reflexivity|].
  destruct (N.eqb_spec c 60) as [->|]; [cbn; rewrite A1, A2; reflexivity|].
  destruct (N.eqb_spec c 62) as [->|]; [cbn; rewrite A1, A3; reflexivity|].
  cbn [app strip_prefix]. destruct (N.eqb a c); [apply IH; exact Hw | reflexivity].
Qed.

Lemma last_of_nonempty (prev prev' : option codepoint) (w : str) :
  w <> [] -> last_of prev w = last_of prev' w.
Proof.
  intros H. destruct w as [|a w]; [destruct (H eq_refl)|].
  rewrite !last_of_cons. reflexivity.
Qed.

(** Where the line has an ordinary code point, the escaped line matches as the
    line does. *)
Lemma match_here_escaped (alts : list str) (prev prev' : option codepoint) (s : str) :
  forallb plain_word alts = true ->
  is_word_opt tbl prev' = is_word_opt tbl prev ->
  match_here tbl alts prev' (flat_map escape_char s) = match_here tbl alts prev s.
Proof.
  intros Ha Hp. unfold match_here, word_boundary.
  rewrite escape_char_head, Hp. f_equal.
  induction alts as [|w alts IH]; [reflexivity|].
  simpl in Ha. apply andb_true_iff in Ha. destruct Ha as [Hw Ha].
  cbn [existsb]. rewrite (IH Ha). f_equal.
  unfold plain_word in Hw. destruct w as [|a w]; [discriminate|].
  apply andb_true_iff in Hw. destruct Hw as [_ Hw].
  rewrite (strip_prefix_escaped _ s Hw).
  destruct (strip_prefix (a :: w) s) as [rest|]; [|reflexivity].
  cbn [option_map]. rewrite escape_char_head.
  rewrite (last_of_nonempty prev' prev (a :: w)) by discriminate. reflexivity.
Qed.

Lemma plain_word_heads (alts : list str) (c : codepoint) :
  forallb plain_word alts = true ->
  In c [38; 97; 108; 103; 59]%N ->
  forallb (fun w => match w with a :: _ => negb (N.eqb a c) | [] => false end) alts = true.
Proof.
  intros Ha Hc. induction alts as [|w alts IH]; [reflexivity|].
  simpl in Ha. apply andb_true_iff in Ha. destruct Ha as [Hw Ha].
  cbn [forallb]. rewrite (IH Ha), andb_true_r.
  unfold plain_word in Hw. destruct w as [|a w]; [discriminate|].
  apply andb_true_iff in Hw. destruct Hw as [Hh _].
  apply negb_true_iff in Hh. apply negb_true_iff.
  destruct (N.eqb_spec a c) as [->|]; [|reflexivity].
  rewrite <- Hh. symmetry. apply existsb_exists. exists c. split; [exact Hc | apply N.eqb_refl].
Qed.

(** Nothing is found inside an entity. *)
Lemma search_from_entity (alts : list str) (prev : option codepoint) (u : str) :
  forallb plain_word alts = true ->
  search_from tbl alts prev ([38; 97; 109; 112; 59]%N ++ u) = search_from tbl alts (Some 59%N) u
  /\ search_from tbl alts prev ([38; 108; 116; 59]%N ++ u) = search_from tbl alts (Some 59%N) u
  /\ search_from tbl alts prev ([38; 103; 116; 59]%N ++ u) = search_from tbl alts (Some 59%N) u.
Proof.
  intros Ha.
  pose proof (plain_word_heads alts 38%N Ha ltac:(simpl; tauto)) as H38.
  pose proof (plain_word_heads alts 97%N Ha ltac:(simpl; tauto)) as H97.
  pose proof (plain_word_heads alts 108%N Ha ltac:(simpl; tauto)) as H108.
  pose proof (plain_word_heads alts 103%N Ha ltac:(simpl; tauto)) as H103.
  pose proof (plain_word_heads alts 59%N Ha ltac:(simpl; tauto)) as H59.
  cbn [app search_from].
  rewrite !(match_here_other_head alts _ 38%N _ H38).
  rewrite !(match_here_other_head alts _ 97%N _ H97).
  rewrite !(match_here_other_head alts _ 108%N _ H108).
  rewrite !(match_here_other_head alts _ 103%N _ H103).
  rewrite !(match_here_other_head alts _ 59%N _ H59).
  repeat match goal with
         | |- context [match_here tbl alts ?p ?t] =>
             rewrite (match_here_no_boundary alts p t eq_refl)
         end.
  repeat split.
Qed.

(** Escaping does not change what the patterns find. *)
Lemma search_from_escaped (alts : list str) (s : str) :
  forallb plain_word alts = true ->
  forall prev prev' : option codepoint,
    is_word_opt tbl prev' = is_word_opt tbl prev ->
    search_from tbl alts prev' (flat_map escape_char s) = search_from tbl alts prev s.
Proof.
  intros Ha.
  induction s as [|c s IH]; intros prev prev' Hp.
  - simpl. rewrite !orb_false_r.
    exact (match_here_escaped alts prev prev' [] Ha Hp).
  - assert (Special :
             In c [38; 60; 62]%N ->
             search_from tbl alts (Some 59%N) (flat_map escape_char s)
             = search_from tbl alts prev (c :: s)).
    { intros Hc.
      assert (Hnw : is_word_opt tbl (Some c) = false).
      { simpl in Hc. destruct Hc as [<-|[<-|[<-|[]]]]; reflexivity. }
      assert (Horig : match_here tbl alts prev (c :: s) = false).
      { apply match_here_no_prefix.
        clear -Ha Hc. induction alts as [|w alts IH]; [reflexivity|].
        simpl in Ha. apply andb_true_iff in Ha. destruct Ha as [Hw Ha].
        cbn [forallb]. rewrite (IH Ha), andb_true_r.
        unfold plain_word in Hw. destruct w as [|a w]; [discriminate|].
        apply andb_true_iff in Hw. destruct Hw as [_ Hw].
        simpl in Hw. apply andb_true_iff in Hw. destruct Hw as [Hw _].
        apply negb_true_iff in Hw. simpl.
        destruct (N.eqb_spec a c) as [->|]; [|reflexivity].
        exfalso. simpl in Hc. destruct Hc as [<-|[<-|[<-|[]]]]; discriminate. }
      cbn [search_from]. rewrite Horig. cbn [orb].
      apply (IH (Some c) (Some 59%N) (eq_sym Hnw)). }
    destruct (search_from_entity alts prev' (flat_map escape_char s) Ha) as (A & L & G).
    destruct (N.eqb_spec c 38) as [E|N1].
    { rewrite <- Special by (rewrite E; simpl; tauto). rewrite <- A, E. reflexivity. }
    destruct (N.eqb_spec c 60) as [E|N2].
    { rewrite <- Special by (rewrite E; simpl; tauto). rewrite <- L, E. reflexivity. }
    destruct (N.eqb_spec c 62) as [E|N3].
    { rewrite <- Special by (rewrite E; simpl; tauto). rewrite <- G, E. reflexivity. }
    assert (E : escape_char c = [c]).
    { unfold escape_char.
      rewrite (proj2 (N.eqb_neq c 38) N1), (proj2 (N.eqb_neq c 60) N2),
        (proj2 (N.eqb_neq c 62) N3). reflexivity. }
    pose proof (match_here_escaped alts prev prev' (c :: s) Ha Hp) as M.
    cbn [flat_map] in M. rewrite E in M. cbn [app] in M.
    cbn [flat_map]. rewrite E. cbn [app search_from].
    rewrite M, (IH (Some c) (Some c) eq_refl). reflexivity.
Qed.

(** The escaped line has the level of the line. *)
Lemma detect_log_level_escaped (line : str) :
  detect_log_level tbl (escape_html line) = detect_log_level tbl line.
Proof.
  unfold detect_log_level, re_search_words. rewrite escape_html_chars.
  rewrite !(fun alts H => search_from_escaped alts line H None None eq_refl) by reflexivity.
  reflexivity.
Qed.

Variable dtbl : codepoint -> bool.

(** X10: the colour of a line goes with its level: a line that
    [detect_log_level] puts at Error, Warning, Success or Info is shown whole,
    escaped, in the span of that level, and the patterns for paths, URLs and
    numbers are applied to the escaped text of the lines of level Other only.
    Escaping never changes the level. *)
Theorem highlight_log_line_follows_level (line : str) :
  highlight_log_line tbl dtbl line
  = match level_style (detect_log_level tbl line) with
    | Some style => span style (escape_html line)
    | None => highlight_tokens tbl dtbl (escape_html line)
    end.
Proof.
  unfold highlight_log_line. cbv zeta.
  pose proof (detect_log_level_escaped line) as E.
  unfold detect_log_level in *. unfold re_search_words in *.
  rewrite escape_html_chars in *.
  rewrite !(fun alts H => search_from_escaped alts line H None None eq_refl) by reflexivity.
  destruct (search_from tbl error_words None line); [reflexivity|].
  destruct (search_from tbl warning_words None line); [reflexivity|].
  destruct (search_from tbl success_words None line); [reflexivity|].
  destruct (search_from tbl info_words None line); reflexivity.
Qed.

(** ** The timestamp pattern comes too late *)

Lemma ts_run_app (q : nat) (a b : str) :
  ts_run dtbl q (a ++ b) = ts_run dtbl (ts_run dtbl q a) b.
Proof. apply fold_left_app. Qed.

Lemma ts_run_accepted (s : str) : ts_run dtbl 4 s = 4.
Proof. induction s as [|c s IH]; [reflexivity|exact IH]. Qed.

Lemma digit_not_colon (c : codepoint) : is_digit dtbl c = true -> N.eqb c 58 = false.
Proof.
  intros H. destruct (N.eqb_spec c 58) as [->|]; [|reflexivity]. discriminate H.
Qed.

Lemma ts_step_colon (q : nat) : ts_step dtbl q 58%N = 1 \/ ts_step dtbl q 58%N = 4.
Proof.
  unfold ts_step. destruct (Nat.eqb q 4); [right; reflexivity|].
  destruct (Nat.eqb q 3); [right|left]; reflexivity.
Qed.

Lemma ts_run_digits (s : str) : forallb (is_digit dtbl) s = true -> ts_run dtbl 0 s = 0.
Proof.
  induction s as [|c s IH]; intros H; [reflexivity|].
  simpl in H. apply andb_true_iff in H. destruct H as [Hc H].
  unfold ts_run. cbn [fold_left]. unfold ts_step at 2.
  rewrite (digit_not_colon c Hc), Hc. exact (IH H).
Qed.

(** A text without colon, two digits, colon holds no timestamp. *)
Lemma re_sub_timestamp_none (style : string) (out : str) :
  forall (q : nat) (prev : option codepoint),
    ts_run dtbl q out <> 4 ->
    re_sub_from (match_timestamp dtbl) style 0 prev out = out.
Proof.
  induction out as [|a out IH]; intros q prev H; [reflexivity|].
  cbn [re_sub_from].
  assert (M : match_timestamp dtbl prev (a :: out) = None).
  { destruct (match_timestamp dtbl prev (a :: out)) eqn:M; [|reflexivity].
    exfalso. apply H. clear IH H. unfold match_timestamp in M.
    destruct out as [|b [|c [|d [|e [|f [|g [|h out]]]]]]]; try discriminate M.
    match type of M with (if ?b then _ else _) = _ => destruct b eqn:E end;
      [|discriminate M].
    repeat (apply andb_true_iff in E; let E' := fresh "E" in destruct E as [E E']).
    apply N.eqb_eq in E5, E2. subst c f.
    change (ts_run dtbl (ts_step dtbl (ts_step dtbl (ts_step dtbl
              (ts_step dtbl (ts_step dtbl (ts_step dtbl q a) b) 58%N) d) e) 58%N)
              (g :: h :: out) = 4).
    destruct (ts_step_colon (ts_step dtbl (ts_step dtbl q a) b)) as [->| ->].
    - unfold ts_step at 3. rewrite (digit_not_colon d E4), E4. cbn [Nat.eqb].
      unfold ts_step at 2. rewrite (digit_not_colon e E3), E3. cbn [Nat.eqb].
      apply ts_run_accepted.
    - apply ts_run_accepted. }
  rewrite M. f_equal. exact (IH (ts_step dtbl q a) (Some a) H).
Qed.

Lemma number_rest_digits (s : str) :
  forall (c : codepoint) (n : nat),
    number_rest tbl dtbl c s = Some n -> forallb (is_digit dtbl) (firstn n s) = true.
Proof.
  induction s as [|a s IH]; intros c n H; cbn [number_rest] in H.
  - destruct n; reflexivity.
  - assert (Here : (if word_boundary tbl (Some c) (hd_error (a :: s)) then Some 0 else None)
                   = Some n -> forallb (is_digit dtbl) (firstn n (a :: s)) = true).
    { intros E. destruct (word_boundary tbl (Some c) (hd_error (a :: s)));
        [|discriminate E]. injection E as <-. reflexivity. }
    destruct (is_digit dtbl a) eqn:Ha; [|exact (Here H)].
    destruct (number_rest tbl dtbl a s) as [m|] eqn:R; [|exact (Here H)].
    injection H as <-. cbn [firstn forallb]. rewrite Ha. exact (IH a m R).
Qed.

Lemma match_number_digits (prev : option codepoint) (s : str) (n : nat) :
  match_number tbl dtbl prev s = Some n -> forallb (is_digit dtbl) (firstn n s) = true.
Proof.
  unfold match_number. destruct s as [|c s]; [discriminate|].
  destruct (word_boundary tbl prev (Some c) && is_digit dtbl c)%bool eqn:E; [|discriminate].
  apply andb_true_iff in E. destruct E as [_ Hc].
  destruct (number_rest tbl dtbl c s) as [m|] eqn:R; [|discriminate].
  intros H. injection H as <-. cbn [firstn forallb]. rewrite Hc.
  exact (number_rest_digits s c m R).
Qed.

(** After the span of a number the text read ends with no part of a
    timestamp. *)
Lemma ts_run_span (q : nat) (t : str) :
  q <= 3 -> forallb (is_digit dtbl) t = true ->
  ts_run dtbl q (span "color: #9b59b6;" t) = 0.
Proof.
  intros Hq Ht. unfold span. rewrite !ts_run_app.
  assert (E : ts_run dtbl q (lit "<span style=") = 0).
  { destruct q as [|[|[|[|q]]]]; [reflexivity..|lia]. }
  rewrite E.
  change (ts_run dtbl 0 [QUOTE]) with 0.
  change (ts_run dtbl 0 (lit "color: #9b59b6;")) with 0.
  change (ts_run dtbl 0 [QUOTE]) with 0.
  change (ts_run dtbl 0 (lit ">")) with 0.
  rewrite (ts_run_digits t Ht). reflexivity.
Qed.

Section DigitsAreWords.

(** Every decimal digit is alphanumeric. *)
Hypothesis decimal_is_alnum : forall c : codepoint, dtbl c = true -> tbl c = true.

Lemma digit_is_word (c : codepoint) : is_digit dtbl c = true -> is_word tbl c = true.
Proof.
  unfold is_digit, is_word. destruct (N.ltb c 128).
  - intros ->. reflexivity.
  - apply decimal_is_alnum.
Qed.

(** The number substitution leaves no colon, two digits, colon in a row. *)
Lemma number_sub_breaks_timestamps (s : str) :
  forall (q skip : nat) (prev : option codepoint),
    ts_invariant tbl dtbl q skip prev s ->
    ts_run dtbl q (re_sub_from (match_number tbl dtbl) "color: #9b59b6;" skip prev s) <> 4.
Proof.
  induction s as [|c s IH]; intros q skip prev Inv.
  - cbn [re_sub_from]. unfold ts_run. cbn [fold_left].
    intros ->. exact Inv.
  - assert (Hq : q <= 3).
    { destruct q as [|[|[|[|q]]]]; [lia..|destruct Inv]. }
    cbn [re_sub_from]. destruct skip as [|k].
    + destruct (match_number tbl dtbl prev (c :: s)) as [n|] eqn:M.
      * rewrite ts_run_app.
        rewrite (ts_run_span q (firstn n (c :: s)) Hq (match_number_digits prev (c :: s) n M)).
        exact (IH 0 (Nat.pred n) (Some c) I).
      * change (ts_run dtbl (ts_step dtbl q c)
                  (re_sub_from (match_number tbl dtbl) "color: #9b59b6;" 0 (Some c) s) <> 4).
        apply IH.
        unfold ts_step.
        destruct (Nat.eqb_spec q 4) as [->|_]; [lia|].
        destruct (N.eqb_spec c 58) as [->|Hc].
        { destruct (Nat.eqb_spec q 3) as [->|_].
          - destruct Inv as (_ & d & _ & Hd & R). exfalso.
            cbn [number_rest hd_error] in R.
            change (is_digit dtbl 58%N) with false in R. cbv iota in R.
            unfold word_boundary in R. cbn [is_word_opt] in R.
            rewrite (digit_is_word d Hd) in R. discriminate R.
          - split; reflexivity. }
        destruct (is_digit dtbl c) eqn:Dc; [|exact I].
        destruct q as [|[|[|q]]]; [exact I| | |exact I].
        { destruct Inv as (_ & Hp).
          split; [reflexivity|]. exists c. split; [reflexivity|]. split; [exact Dc|].
          unfold match_number in M. unfold word_boundary in M.
          rewrite Hp in M. cbn [is_word_opt] in M.
          rewrite (digit_is_word c Dc), Dc in M. cbn [xorb andb] in M.
          destruct (number_rest tbl dtbl c s); [discriminate M|reflexivity]. }
        { destruct Inv as (_ & d & _ & Hd & R).
          split; [reflexivity|]. exists c. split; [reflexivity|]. split; [exact Dc|].
          cbn [number_rest] in R. rewrite Dc in R.
          destruct (number_rest tbl dtbl c s); [discriminate R|reflexivity]. }
    + destruct q as [|[|[|[|q]]]].
      * exact (IH 0 k (Some c) I).
      * destruct Inv as [E _]. discriminate E.
      * destruct Inv as [E _]. discriminate E.
      * destruct Inv as [E _]. discriminate E.
      * lia.
Qed.

(** X11: the timestamp pattern of [highlight_log_line] never matches: it is
    applied after the number pattern, which has by then put a span around each
    of the three pairs of digits, or left no pair standing between two colons.
    So (every decimal digit being a word character) a line of level Other gets
    the spans of paths, URLs and numbers only, and a time such as 12:34:56 is
    shown as three numbers. *)
Theorem timestamps_are_never_highlighted (line : str) :
  highlight_tokens tbl dtbl line
  = re_sub (match_number tbl dtbl) "color: #9b59b6;"
      (re_sub match_url "color: #3498db; text-decoration: underline;"
         (re_sub (match_path tbl) "color: #1abc9c;" line)).
Proof.
  unfold highlight_tokens. cbv zeta.
  apply (re_sub_timestamp_none _ _ 0 None).
  unfold re_sub. apply number_sub_breaks_timestamps. exact I.
Qed.

End DigitsAreWords.

End HighlightProperties.

Lemma timestamps_are_never_highlighted_witness :
  (forall c : codepoint, ascii_only c = true -> ascii_only c = true)
  /\ highlight_tokens ascii_only ascii_only (lit "at 12:34:56 in /src/main.py")
     = lit "at " ++ span "color: #9b59b6;" (lit "12") ++ lit ":"
       ++ span "color: #9b59b6;" (lit "34") ++ lit ":"
       ++ span "color: #9b59b6;" (lit "56") ++ lit " in "
       ++ span "color: #1abc9c;" (lit "/src/main.py").
Proof.
  split; [exact (fun _ H => H)|].
  rewrite (timestamps_are_never_highlighted ascii_only ascii_only (fun _ H => H)).
  reflexivity.
Defined.

(** ** The prompt display *)

Lemma split_app_sep (sep : codepoint) (a b : str) :
  split sep (a ++ sep :: b) = split sep a ++ split sep b.
Proof.
  induction a as [|c a IH]; simpl.
  - rewrite N.eqb_refl. reflexivity.
  - destruct (N.eqb c sep); [rewrite IH; reflexivity|].
    rewrite IH. destruct (split sep a) as [|l ls] eqn:E; [destruct (split_nonempty _ _ E)|].
    reflexivity.
Qed.

Lemma md_lines_app (t : theme_colors) (a b : list str) (st : md_state) :
  md_lines t (a ++ b) st = md_lines t b (md_lines t a st).
Proof. apply fold_left_app. Qed.

(** Inside a code block the lines are collected and nothing else happens. *)
Lemma md_lines_in_code_block (t : theme_colors) (ls : list str) :
  forallb (fun l => negb (is_fence l)) ls = true ->
  forall st : md_state,
    in_code_block st = true ->
    md_lines t ls st
    = mkMd (html_lines st) true (code_block_content st ++ ls) (in_list st).
Proof.
  induction ls as [|l ls IH]; intros H st Hst.
  - rewrite app_nil_r. destruct st; simpl in *; subst; reflexivity.
  - simpl in H. apply andb_true_iff in H. destruct H as [Hl H].
    apply negb_true_iff in Hl.
    assert (E : md_line t st l
                = mkMd (html_lines st) true (code_block_content st ++ [l]) (in_list st)).
    { unfold md_line. rewrite Hl, Hst. reflexivity. }
    change (md_lines t (l :: ls) st) with (md_lines t ls (md_line t st l)).
    rewrite E.
    rewrite (IH H (mkMd (html_lines st) true (code_block_content st ++ [l]) (in_list st))
               eq_refl).
    cbn [html_lines code_block_content in_list].
    rewrite <- app_assoc. reflexivity.
Qed.

(** A fence, and nothing else, takes the loop into or out of a code block. *)
Lemma md_line_fence (t : theme_colors) (st : md_state) (l : str) :
  in_code_block (md_line t st l) = xorb (in_code_block st) (is_fence l).
Proof.
  unfold md_line. destruct (is_fence l).
  - destruct (in_code_block st); reflexivity.
  - destruct (in_code_block st) eqn:Hc; [reflexivity|].
    destruct (startswith (lit "### ") l); [reflexivity|].
    destruct (startswith (lit "## ") l); [reflexivity|].
    destruct (startswith (lit "# ") l); [reflexivity|].
    destruct (startswith (lit "- ") (strip l)); [reflexivity|].
    cbv zeta. destruct (strip l); reflexivity.
Qed.

(** The loop is inside a code block after an odd number of fences. *)
Lemma md_lines_fences (t : theme_colors) (ls : list str) :
  forall st : md_state,
    in_code_block (md_lines t ls st)
    = xorb (in_code_block st) (Nat.odd (List.length (filter is_fence ls))).
Proof.
  induction ls as [|l ls IH]; intros st.
  - simpl. rewrite xorb_false_r. reflexivity.
  - change (md_lines t (l :: ls) st) with (md_lines t ls (md_line t st l)).
    rewrite IH, md_line_fence. cbn [filter].
    destruct (is_fence l); cbn [List.length].
    + rewrite Nat.odd_succ, <- Nat.negb_odd.
      destruct (in_code_block st), (Nat.odd (List.length (filter is_fence ls))); reflexivity.
    + rewrite xorb_false_r. reflexivity.
Qed.

(** Outside a code block no lines are kept for one. *)
Lemma md_line_no_pending (t : theme_colors) (st : md_state) (l : str) :
  (in_code_block st = false -> code_block_content st = []) ->
  in_code_block (md_line t st l) = false -> code_block_content (md_line t st l) = [].
Proof.
  intros Hst. unfold md_line. destruct (is_fence l).
  - destruct (in_code_block st); [reflexivity|discriminate].
  - destruct (in_code_block st) eqn:Hc; [discriminate|].
    destruct (startswith (lit "### ") l); [intros _; exact (Hst eq_refl)|].
    destruct (startswith (lit "## ") l); [intros _; exact (Hst eq_refl)|].
    destruct (startswith (lit "# ") l); [intros _; exact (Hst eq_refl)|].
    destruct (startswith (lit "- ") (strip l)); [intros _; exact (Hst eq_refl)|].
    cbv zeta. destruct (strip l); intros _; exact (Hst eq_refl).
Qed.

Lemma md_lines_no_pending (t : theme_colors) (ls : list str) :
  forall st : md_state,
    (in_code_block st = false -> code_block_content st = []) ->
    in_code_block (md_lines t ls st) = false ->
    code_block_content (md_lines t ls st) = [].
Proof.
  induction ls as [|l ls IH]; intros st Hst; [exact Hst|].
  change (md_lines t (l :: ls) st) with (md_lines t ls (md_line t st l)).
  apply IH. apply md_line_no_pending. exact Hst.
Qed.

(** X12: text after an unclosed code fence is not shown. When the fences of
    a prompt are paired and a line starting with three backquotes follows,
    everything after that line, as long as no other fence comes, is left out
    of the HTML: the result is the HTML of the prompt before the fence. *)
Theorem markdown_unclosed_fence_drops_text (text fence rest : str) (is_dark_theme : bool) :
  Nat.even (List.length (filter is_fence (split NL text))) = true ->
  is_fence fence = true ->
  existsb (N.eqb NL) fence = false ->
  forallb (fun l => negb (is_fence l)) (split NL rest) = true ->
  markdown_to_html (text ++ [NL] ++ fence ++ [NL] ++ rest) is_dark_theme
  = markdown_to_html text is_dark_theme.
Proof.
  intros Heven Hf Hnl Hrest. unfold markdown_to_html. cbv zeta.
  cbn [app]. rewrite split_app_sep, split_app_sep, (split_one_piece NL fence Hnl).
  rewrite !md_lines_app.
  set (st := md_lines (theme_of is_dark_theme) (split NL text) md_start).
  assert (Hc : in_code_block st = false).
  { unfold st. rewrite md_lines_fences. rewrite <- Nat.negb_even, Heven. reflexivity. }
  assert (E : md_lines (theme_of is_dark_theme) [fence] st
              = mkMd (html_lines st) true (code_block_content st) (in_list st)).
  { cbn [md_lines fold_left]. unfold md_line. rewrite Hf, Hc. reflexivity. }
  rewrite E.
  rewrite (md_lines_in_code_block _ _ Hrest
             (mkMd (html_lines st) true (code_block_content st) (in_list st)) eq_refl).
  reflexivity.
Qed.

Lemma markdown_unclosed_fence_drops_text_witness :
  markdown_to_html (lit "Done." ++ [NL] ++ lit "```sh" ++ [NL] ++ lit "make test")  true
  = markdown_to_html (lit "Done.") true.
Proof.
  apply (markdown_unclosed_fence_drops_text (lit "Done.") (lit "```sh") (lit "make test") true);
    reflexivity.
Defined.

(** X13: a code block is shown as it is written. After a prompt whose fences
    are paired, the lines between a fence and the next one are put into one
    [pre] element, joined by line feeds and otherwise unchanged: no inline
    markup is applied to them, nothing is escaped, and what stands on the
    fence lines themselves is dropped. No list is opened or closed. *)
Theorem markdown_code_block_verbatim (t : theme_colors) (before : list str)
    (fence1 body fence2 : str) :
  Nat.even (List.length (filter is_fence before)) = true ->
  is_fence fence1 = true ->
  is_fence fence2 = true ->
  forallb (fun l => negb (is_fence l)) (split NL body) = true ->
  let st := md_lines t before md_start in
  md_lines t (before ++ [fence1] ++ split NL body ++ [fence2]) md_start
  = mkMd (html_lines st ++ [pre_block t body]) false [] (in_list st).
Proof.
  intros Heven H1 H2 Hbody st. rewrite !md_lines_app. fold st.
  assert (Hc : in_code_block st = false).
  { unfold st. rewrite md_lines_fences. rewrite <- Nat.negb_even, Heven. reflexivity. }
  assert (Hp : code_block_content st = []).
  { apply md_lines_no_pending; [intros _; reflexivity | exact Hc]. }
  assert (E : md_lines t [fence1] st = mkMd (html_lines st) true [] (in_list st)).
  { cbn [md_lines fold_left]. unfold md_line. rewrite H1, Hc, Hp. reflexivity. }
  rewrite E.
  rewrite (md_lines_in_code_block _ _ Hbody (mkMd (html_lines st) true [] (in_list st))
             eq_refl).
  cbn [md_lines fold_left]. unfold md_line. rewrite H2.
  cbn [in_code_block html_lines code_block_content in_list app].
  rewrite join_split. reflexivity.
Qed.

Lemma markdown_code_block_verbatim_witness :
  markdown_to_html (lit "Run:" ++ [NL] ++ lit "```sh" ++ [NL] ++ lit "a **b** <c>" ++ [NL]
                      ++ lit "```") true
  = prompt_div (theme_of true)
      (text_line (lit "Run:") ++ pre_block (theme_of true) (lit "a **b** <c>")).
Proof.
  unfold markdown_to_html. cbv zeta.
  change (split NL (lit "Run:" ++ [NL] ++ lit "```sh" ++ [NL] ++ lit "a **b** <c>" ++ [NL]
                      ++ lit "```"))
    with ([lit "Run:"] ++ [lit "```sh"] ++ split NL (lit "a **b** <c>") ++ [lit "```"]).
  rewrite (markdown_code_block_verbatim (theme_of true) [lit "Run:"] (lit "```sh")
             (lit "a **b** <c>") (lit "```") eq_refl eq_refl eq_refl eq_refl).
  reflexivity.
Defined.

(** The elements other than the two list tags and the items. *)
Lemma list_step_other (o : bool) (element : str) :
  str_eqb element ul_open = false ->
  str_eqb element ul_close = false ->
  startswith (lit "<li") element = false ->
  list_step (Some o) element = Some o.
Proof. intros H1 H2 H3. unfold list_step. rewrite H1, H2, H3. reflexivity. Qed.

Lemma list_run_app (o : bool) (a b : list str) :
  list_run o (a ++ b) = fold_left list_step b (list_run o a).
Proof. apply fold_left_app. Qed.

Lemma list_run_snoc (o o' : bool) (a : list str) (element : str) :
  list_run o a = Some o' -> list_run o (a ++ [element]) = list_step (Some o') element.
Proof. intros H. rewrite list_run_app, H. reflexivity. Qed.

(** The loop opens a list before its first item and closes it after its
    last. *)
Lemma md_line_lists (t : theme_colors) (st : md_state) (line : str) :
  list_run false (html_lines st) = Some (in_list st) ->
  list_run false (html_lines (md_line t st line)) = Some (in_list (md_line t st line)).
Proof.
  intros H. unfold md_line.
  destruct (is_fence line).
  { destruct (in_code_block st); cbn [html_lines in_list]; [|exact H].
    rewrite (list_run_snoc _ _ _ _ H). apply list_step_other; reflexivity. }
  destruct (in_code_block st); [exact H|].
  destruct (startswith (lit "### ") line).
  { cbn [html_lines in_list]. rewrite (list_run_snoc _ _ _ _ H).
    apply list_step_other; reflexivity. }
  destruct (startswith (lit "## ") line).
  { cbn [html_lines in_list]. rewrite (list_run_snoc _ _ _ _ H).
    apply list_step_other; reflexivity. }
  destruct (startswith (lit "# ") line).
  { cbn [html_lines in_list]. rewrite (list_run_snoc _ _ _ _ H).
    apply list_step_other; reflexivity. }
  destruct (startswith (lit "- ") (strip line)).
  { cbv zeta. cbn [html_lines in_list].
    assert (H' : list_run false (if in_list st then html_lines st else html_lines st ++ [ul_open])
                 = Some true).
    { destruct (in_list st); [exact H|]. rewrite (list_run_snoc _ _ _ _ H). reflexivity. }
    rewrite (list_run_snoc _ _ _ _ H'). reflexivity. }
  cbv zeta.
  assert (H' : list_run false (if in_list st then html_lines st ++ [ul_close] else html_lines st)
               = Some false).
  { destruct (in_list st); [|exact H]. rewrite (list_run_snoc _ _ _ _ H). reflexivity. }
  destruct (strip line); cbn [html_lines in_list];
    rewrite (list_run_snoc _ _ _ _ H'); apply list_step_other; reflexivity.
Qed.

(** X14: the lists of the HTML are well formed. Among the elements that
    [markdown_to_html] joins, whatever the prompt, the opening and the closing
    tag of a list alternate, starting with an opening one and ending with a
    closing one, and every list item stands between an opening tag and the
    next closing one. *)
Theorem markdown_lists_are_closed (t : theme_colors) (lines : list str) :
  list_run false (md_finish (md_lines t lines md_start)) = Some false.
Proof.
  assert (H : forall st, list_run false (html_lines st) = Some (in_list st) ->
                         list_run false (html_lines (md_lines t lines st))
                         = Some (in_list (md_lines t lines st))).
  { induction lines as [|l lines IH]; intros st Hst; [exact Hst|].
    apply (IH (md_line t st l)). apply md_line_lists. exact Hst. }
  specialize (H md_start eq_refl). unfold md_finish.
  destruct (in_list (md_lines t lines md_start)); [|exact H].
  rewrite (list_run_snoc _ _ _ _ H). reflexivity.
Qed.

(** A substitution whose pattern starts with a code point that the text does
    not hold changes nothing. *)
Lemma re_sub_wrap_absent (o : codepoint) (open_ close_ : str) (ok : codepoint -> bool)
    (pre post s : str) :
  existsb (N.eqb o) s = false ->
  re_sub_wrap (delimited (o :: open_) close_ ok) pre post s = s.
Proof.
  unfold re_sub_wrap. induction s as [|c s IH]; intros H; [reflexivity|].
  simpl in H. apply orb_false_iff in H. destruct H as [Hc H].
  cbn [re_sub_wrap_from]. unfold delimited at 1. cbn [strip_prefix]. rewrite Hc.
  rewrite (IH H). reflexivity.
Qed.

Lemma startswith_other_head (p s : str) (c : codepoint) :
  hd_error p = Some c -> existsb (N.eqb c) s = false -> startswith p s = false.
Proof.
  destruct p as [|a p]; [discriminate|]. intros [= ->].
  destruct s as [|b s]; [reflexivity|]. cbn [existsb]. intros H.
  apply orb_false_iff in H. destruct H as [H _].
  unfold startswith. cbn [strip_prefix]. rewrite H. reflexivity.
Qed.

Lemma existsb_rstrip (f : codepoint -> bool) (s : str) :
  existsb f s = false -> existsb f (rstrip s) = false.
Proof.
  intros H. destruct (rstrip_suffix s) as (ws & E & _).
  rewrite E, existsb_app in H. apply orb_false_iff in H. exact (proj1 H).
Qed.

Lemma existsb_lstrip (f : codepoint -> bool) (s : str) :
  existsb f s = false -> existsb f (lstrip s) = false.
Proof.
  induction s as [|c s IH]; [reflexivity|]. intros H. simpl.
  destruct (isspace c); [|exact H].
  simpl in H. apply orb_false_iff in H. exact (IH (proj2 H)).
Qed.

Lemma existsb_strip (f : codepoint -> bool) (s : str) :
  existsb f s = false -> existsb f (strip s) = false.
Proof. intros H. apply existsb_rstrip, existsb_lstrip, H. Qed.

(** X15: text without markup is shown as it is, never escaped. A prompt of
    one line that is not blank and holds none of the characters number sign,
    star, hyphen, underscore and backquote is put unchanged into one [span]
    element followed by a line break: the characters [<], [>] and [&] of the
    prompt reach the HTML as they are. *)
Theorem markdown_plain_line_unescaped (line : str) (is_dark_theme : bool) :
  forallb plain_md_char line = true ->
  strip line <> [] ->
  markdown_to_html line is_dark_theme
  = prompt_div (theme_of is_dark_theme) (text_line line).
Proof.
  intros Hplain Hne.
  assert (A : forall c, In c [NL; 35; 42; 45; 95; 96]%N -> existsb (N.eqb c) line = false).
  { intros c Hc. clear Hne. induction line as [|a line IH]; [reflexivity|].
    simpl in Hplain. apply andb_true_iff in Hplain. destruct Hplain as [Ha Hplain].
    cbn [existsb]. rewrite (IH Hplain), orb_false_r.
    unfold plain_md_char in Ha. apply negb_true_iff in Ha.
    destruct (N.eqb_spec c a) as [->|]; [|reflexivity].
    exfalso. simpl in Hc.
    destruct Hc as [<-|[<-|[<-|[<-|[<-|[<-|[]]]]]]]; discriminate Ha. }
  unfold markdown_to_html. cbv zeta.
  rewrite (split_one_piece NL line (A NL ltac:(simpl; tauto))).
  cbn [md_lines fold_left]. unfold md_line, is_fence.
  rewrite (startswith_other_head (lit "```") (strip line) 96%N eq_refl
             (existsb_strip _ _ (A 96%N ltac:(simpl; tauto)))).
  cbn [in_code_block md_start].
  rewrite (startswith_other_head (lit "### ") line 35%N eq_refl (A 35%N ltac:(simpl; tauto))).
  rewrite (startswith_other_head (lit "## ") line 35%N eq_refl (A 35%N ltac:(simpl; tauto))).
  rewrite (startswith_other_head (lit "# ") line 35%N eq_refl (A 35%N ltac:(simpl; tauto))).
  rewrite (startswith_other_head (lit "- ") (strip line) 45%N eq_refl
             (existsb_strip _ _ (A 45%N ltac:(simpl; tauto)))).
  cbv zeta. destruct (strip line) as [|c r] eqn:E; [destruct (Hne eq_refl)|].
  unfold bold_stars, bold_underscores, italic, inline_code.
  change (lit "**") with (42%N :: lit "*").
  change (lit "__") with (95%N :: lit "_").
  change (lit "*") with (42%N :: @nil codepoint).
  change (lit "`") with (96%N :: @nil codepoint).
  rewrite (re_sub_wrap_absent 42%N _ _ _ _ _ line (A 42%N ltac:(simpl; tauto))).
  rewrite (re_sub_wrap_absent 95%N _ _ _ _ _ line (A 95%N ltac:(simpl; tauto))).
  rewrite (re_sub_wrap_absent 42%N _ _ _ _ _ line (A 42%N ltac:(simpl; tauto))).
  rewrite (re_sub_wrap_absent 96%N _ _ _ _ _ line (A 96%N ltac:(simpl; tauto))).
  cbn [md_finish in_list html_lines md_start app]. unfold join. cbn [concat].
  rewrite app_nil_r. reflexivity.
Qed.

Lemma markdown_plain_line_unescaped_witness :
  markdown_to_html (lit "see <b>x</b> & y") true
  = prompt_div (theme_of true) (text_line (lit "see <b>x</b> & y")).
Proof.
  apply (markdown_plain_line_unescaped (lit "see <b>x</b> & y") true);
    [reflexivity | discriminate].
Defined.

(** ** The script [test_layout.py] *)

Section ScriptProperties.

Context {host : Host}.

(** X16: [test_layout.py] never prints that the window was closed without
    feedback. Called without an output file, [feedback_ui] returns a result
    whenever it returns, also when the user closed the window without
    submitting, and a result counts as true: the script prints the result
    (with the feedback empty after a close without submit), and the branch
    for no result is dead. *)
Theorem test_layout_always_reports_a_result (exec : M unit) (project_dir prompt : str)
    (e : Env) :
  existsb (str_eqb closed_without_feedback) (fst (test_layout exec project_dir prompt e))
  = false
  /\ (forall (r : FeedbackResult) (e' : Env),
        run exec e = (inr r, e') ->
        test_layout exec project_dir prompt e
        = ([lit "Testing UI with project directory: " ++ project_dir;
            lit "Prompt: " ++ prompt;
            [NL] ++ lit "=== RESULT ===";
            lit "User Feedback: " ++ user_feedback r;
            [NL] ++ lit "Command Logs:" ++ [NL] ++ logs r],
           (inr tt, e'))).
Proof.
  unfold test_layout, feedback_ui, bind. split.
  - destruct (run exec e) as [[raised|r] e']; reflexivity.
  - intros r e' H. rewrite H. reflexivity.
Qed.

End ScriptProperties.

Lemma test_layout_always_reports_a_result_witness :
  fst (test_layout (event_loop ascii_only [CloseRequested]) (lit "/work") (lit "Done.")
         env_idle)
  = [lit "Testing UI with project directory: /work";
     lit "Prompt: Done.";
     [NL] ++ lit "=== RESULT ===";
     lit "User Feedback: ";
     [NL] ++ lit "Command Logs:" ++ [NL]].
Proof.
  rewrite (proj2 (test_layout_always_reports_a_result
                    (event_loop ascii_only [CloseRequested]) (lit "/work") (lit "Done.")
                    env_idle)
             (mkResult [] [])
             (snd (run (event_loop ascii_only [CloseRequested]) env_idle)) eq_refl).
  reflexivity.
Defined.

(** ** Configuration, templates and history *)

Lemma str_eqb_eq (a b : str) : str_eqb a b = true <-> a = b.
Proof.
  revert b. induction a as [|x a IH]; intros [|y b]; simpl; split; intros H;
    try discriminate; try reflexivity.
  - apply andb_true_iff in H. destruct H as [H1 H2].
    apply N.eqb_eq in H1. apply IH in H2. subst. reflexivity.
  - injection H as -> ->. rewrite N.eqb_refl. simpl. apply IH. reflexivity.
Qed.

Lemma str_eqb_refl (a : str) : str_eqb a a = true.
Proof. apply str_eqb_eq. reflexivity. Qed.

Lemma str_in_In (x : str) (l : list str) : str_in x l = true <-> In x l.
Proof.
  unfold str_in. rewrite existsb_exists. split.
  - intros (y & Hy & E). apply str_eqb_eq in E. subst. exact Hy.
  - intros H. exists x. split; [exact H | apply str_eqb_refl].
Qed.

(** What filling a combo box leaves in it. *)
Lemma fill_combo {A B} (text : B -> str) (data : B -> option A) (l : list B) :
  forall c : ComboBox A,
    items (fold_left (fun c x => addItem (text x) (data x) c) l c)
    = items c ++ map (fun x => (text x, data x)) l
    /\ (currentIndex c = 0%Z ->
        currentIndex (fold_left (fun c x => addItem (text x) (data x) c) l c) = 0%Z).
Proof.
  induction l as [|x l IH]; intros c; cbn [fold_left map].
  - rewrite app_nil_r. split; [reflexivity | intros H; exact H].
  - destruct (IH (addItem (text x) (data x) c)) as [I1 I2]. split.
    + rewrite I1. cbn [addItem items]. rewrite <- app_assoc. reflexivity.
    + intros H. apply I2. cbn [addItem currentIndex].
      destruct (items c); [reflexivity | exact H].
Qed.

Lemma setCurrentIndex_first {A} (c : ComboBox A) :
  (currentIndex (setCurrentIndex 0 c) <= 0)%Z.
Proof.
  unfold setCurrentIndex. cbn [currentIndex]. destruct (valid_index 0 c); lia.
Qed.

Section PanelProperties.

Context {host : Host} {polling : Polling} {desktop : Desktop}.
Variable tbl : codepoint -> bool.

Local Notation "x <- m ;; k" := (pbind m (fun x => k))
  (at level 61, m at next level, right associativity).

Lemma preserves_pret {A} (Q : Panel -> Prop) (a : A) : preserves Q (pret a).
Proof. intros p H. exact H. Qed.

Lemma preserves_pgets {A} (Q : Panel -> Prop) (f : Panel -> A) : preserves Q (pgets f).
Proof. intros p H. exact H. Qed.

Lemma preserves_modify (Q : Panel -> Prop) (f : Panel -> Panel) :
  (forall p, Q p -> Q (f p)) -> preserves Q (modify f).
Proof. intros Hf p H. exact (Hf p H). Qed.

Lemma preserves_pbind {A B} (Q : Panel -> Prop) (m : PM A) (k : A -> PM B) :
  preserves Q m -> (forall a, preserves Q (k a)) -> preserves Q (pbind m k).
Proof.
  intros Hm Hk p H. unfold pbind. specialize (Hm p H).
  destruct (m p) as [[x|a] p']; [exact Hm|]. exact (Hk a p' Hm).
Qed.

Lemma stable_window (Q : Panel -> Prop) (e : Env) (p : Panel) :
  stable Q -> Q p -> Q (set_window e p).
Proof.
  intros HQ H. specialize (HQ e (storage p) p H). destruct p; exact HQ.
Qed.

Lemma preserves_lift {A} (Q : Panel -> Prop) (m : M A) : stable Q -> preserves Q (lift m).
Proof.
  intros HQ p H. unfold lift. destruct (m (window p)) as [r e]. cbn [snd].
  exact (stable_window Q e p HQ H).
Qed.

Lemma preserves_ask {A} (Q : Panel -> Prop) (op : World -> A * World) :
  stable Q -> preserves Q (ask op).
Proof.
  intros HQ p H. unfold ask. destruct (op (world (window p))) as [a w]. cbn [snd].
  exact (stable_window Q _ p HQ H).
Qed.

Lemma preserves_save_config (Q : Panel -> Prop) : stable Q -> preserves Q _save_config.
Proof.
  intros HQ p H. unfold _save_config.
  destruct (write_config (config p) (world (window p))) as [[message|[]] w]; cbn [snd];
    exact (HQ _ _ p H).
Qed.

Lemma preserves_save_history (Q : Panel -> Prop) : stable Q -> preserves Q _save_history.
Proof.
  intros HQ p H. unfold _save_history.
  destruct (write_history (history_to_save (history p)) (world (window p))) as [r w].
  cbn [snd]. exact (HQ _ _ p H).
Qed.

Lemma preserves_set_ui (Q : Panel -> Prop) (f : FeedbackUI -> FeedbackUI) :
  stable Q -> preserves Q (modify (set_ui f)).
Proof. intros HQ p H. exact (stable_window Q _ p HQ H). Qed.

End PanelProperties.

Ltac preserve_step HQ known leaf :=
  first
    [ known
    | apply preserves_pret
    | apply preserves_pgets
    | apply (preserves_lift _ _ HQ)
    | apply (preserves_ask _ _ HQ)
    | apply (preserves_save_config _ HQ)
    | apply (preserves_save_history _ HQ)
    | apply (preserves_set_ui _ _ HQ)
    | apply preserves_pbind; [|intros ?]
    | apply preserves_modify; leaf
    | progress cbv zeta
    | match goal with
      | |- preserves _ (match ?x with _ => _ end) => destruct x
      | |- preserves _ (if ?b then _ else _) => destruct b
      end ].

Ltac preserve_with HQ known leaf := repeat (preserve_step HQ known leaf).
Ltac preserve HQ leaf := preserve_with HQ fail leaf.

Section DeleteProperties.

Context {host : Host} {polling : Polling} {desktop : Desktop}.
Variable tbl : codepoint -> bool.

Lemma at_first_stable : stable at_first.
Proof. intros e s p H. exact H. Qed.

Lemma populate_feedback_templates_at_first : preserves at_first _populate_feedback_templates_combo.
Proof.
  unfold _populate_feedback_templates_combo.
  apply preserves_pbind; [apply preserves_pgets|]. intros templates.
  apply preserves_modify. intros p _. unfold at_first.
  cbn [feedback_templates_combo set_feedback_templates_combo].
  rewrite (proj2 (fill_combo (shorten 50) (fun t => Some t) templates
                    (addItem (lit "-- Insert template --") None combo_clear)) eq_refl).
  lia.
Qed.

Ltac at_first_leaf := intros ? ?; assumption.

Lemma activated_feedback_template_at_first (index : Z) :
  preserves at_first
    (activated index feedback_templates_combo set_feedback_templates_combo
       _on_feedback_template_selected).
Proof.
  intros p H. unfold activated, pbind, pgets, modify.
  destruct (valid_index index (feedback_templates_combo p)
            && negb (Z.eqb index (currentIndex (feedback_templates_combo p))))%bool eqn:E;
    [|exact H].
  unfold _on_feedback_template_selected.
  destruct (Z.ltb_spec 0 index) as [Hpos|Hneg].
  - unfold pbind, pgets, modify.
    destruct (itemData index
                (feedback_templates_combo
                   (set_feedback_templates_combo
                      (setCurrentIndex index (feedback_templates_combo p)) p)))
      as [[|c t]|]; cbn; apply setCurrentIndex_first.
  - unfold pret, at_first. cbn.
    apply andb_true_iff in E. destruct E as [E _]. rewrite E. exact Hneg.
Qed.

Lemma panel_dispatch_at_first (ev : panel_event) : preserves at_first (panel_dispatch tbl ev).
Proof.
  pose proof at_first_stable as HQ.
  destruct ev as [ev| | | | | | | | | | |]; cbn [panel_dispatch].
  - destruct ev; try apply (preserves_lift _ _ HQ).
    + unfold command_entry_setText, _update_config. preserve HQ at_first_leaf.
    + unfold submit_with_history, _add_to_history. preserve HQ at_first_leaf.
  - unfold _update_config. preserve HQ at_first_leaf.
  - apply (preserves_save_config _ HQ).
  - unfold activated, _on_template_selected, command_entry_setText, _update_config.
    preserve HQ at_first_leaf.
  - unfold _save_template, _populate_templates_combo. preserve HQ at_first_leaf.
  - apply activated_feedback_template_at_first.
  - unfold _save_feedback_template.
    preserve_with HQ ltac:(apply populate_feedback_templates_at_first) at_first_leaf.
  - unfold _delete_feedback_template.
    preserve_with HQ ltac:(apply populate_feedback_templates_at_first) at_first_leaf.
  - unfold activated, _on_history_selected. preserve HQ at_first_leaf.
  - preserve HQ at_first_leaf.
  - unfold dropEvent, command_entry_setText, _update_config. preserve HQ at_first_leaf.
  - unfold caption_timeout. preserve HQ at_first_leaf.
Qed.

(** With the first item current, the slot of the delete button returns at
    once. *)
Lemma delete_feedback_template_at_first (p : Panel) :
  at_first p -> _delete_feedback_template p = (inr tt, p).
Proof.
  intros H. unfold _delete_feedback_template, pbind, pgets.
  destruct (Z.leb_spec (currentIndex (feedback_templates_combo p)) 0) as [_|Hgt];
    [reflexivity|].
  unfold at_first in H. lia.
Qed.

(** X17: the button that deletes a feedback template deletes nothing. The
    slot of the combo box puts the current item back to the first one, the
    placeholder, every time the user chooses a template, so when the button is
    pressed [_delete_feedback_template] finds the index 0 and returns: it asks
    nothing, changes no template and writes no file. Whatever the user does,
    pressing the button changes nothing: a sequence of events and the same
    sequence without the presses of the button lead to the same state. *)
Theorem delete_feedback_template_is_dead (events : list panel_event) (p : Panel) :
  (currentIndex (feedback_templates_combo p) <= 0)%Z ->
  panel_loop tbl events p
  = panel_loop tbl (filter (fun ev => negb (is_delete_request ev)) events) p
  /\ (currentIndex (feedback_templates_combo (panel_loop tbl events p)) <= 0)%Z.
Proof.
  revert p. induction events as [|ev events IH]; intros p H; [split; [reflexivity|exact H]|].
  cbn [filter]. unfold panel_loop in *. cbn [fold_left].
  destruct (is_delete_request ev) eqn:E; cbn [negb].
  - destruct ev; try discriminate E. cbn [panel_dispatch].
    rewrite (delete_feedback_template_at_first p H). cbn [snd]. exact (IH p H).
  - cbn [fold_left]. apply IH. exact (panel_dispatch_at_first ev p H).
Qed.

End DeleteProperties.

Lemma delete_feedback_template_is_dead_witness :
  feedback_templates
    (config (panel_loop ascii_only
               [FeedbackTemplateActivated 1; DeleteFeedbackTemplateRequested] panel_typed))
  = Some [lit "LGTM"; lit "Please add tests"]
  /\ feedback_text
       (ui (panel_loop ascii_only
              [FeedbackTemplateActivated 1; DeleteFeedbackTemplateRequested] panel_typed))
     = lit "LGTM".
Proof.
  rewrite (proj1 (delete_feedback_template_is_dead ascii_only
                    [FeedbackTemplateActivated 1; DeleteFeedbackTemplateRequested] panel_typed
                    ltac:(simpl; lia))).
  split; reflexivity.
Defined.

Section ConfigProperties.

Context {host : Host} {polling : Polling} {desktop : Desktop}.
Variable tbl : codepoint -> bool.

(** What [_save_config] does. *)
Lemma save_config_run (p : Panel) :
  exists (r : str + unit) (w : World),
    write_config (config p) (world (window p)) = (r, w)
    /\ _save_config p
       = (match r with inl message => inl (OtherException message) | inr _ => inr tt end,
          set_storage (storage p ++ [ConfigWritten (config p) r])
            (set_window (mkEnv (ui p) w (calls (window p))) p)).
Proof.
  unfold _save_config.
  destruct (write_config (config p) (world (window p))) as [r w].
  exists r, w. split; [reflexivity|]. destruct r as [message|[]]; reflexivity.
Qed.

(** What [_save_feedback_template] does with a new template once OK is
    pressed. *)
Lemma save_feedback_template_run (p : Panel) (c : codepoint) (feedback : str) (w : World) :
  strip (feedback_text (ui p)) = c :: feedback ->
  confirm_save (shorten 100 (c :: feedback)) (world (window p)) = (true, w) ->
  str_in (c :: feedback) (get_list (feedback_templates (config p))) = false ->
  _save_feedback_template p
  = pbind _save_config (fun _ => _populate_feedback_templates_combo)
      (set_config (mkConfig (run_command (config p)) (execute_automatically (config p))
                     (command_templates (config p))
                     (Some (get_list (feedback_templates (config p)) ++ [c :: feedback])))
         (set_window (mkEnv (ui p) w (calls (window p))) p)).
Proof.
  intros Hfb Hok Hnew. unfold _save_feedback_template.
  unfold pbind at 1. unfold pgets at 1. rewrite Hfb.
  unfold pbind at 1. unfold ask. rewrite Hok.
  unfold pbind at 1. unfold pgets at 1.
  cbn [config set_window]. rewrite Hnew.
  unfold pbind at 1. unfold modify. reflexivity.
Qed.

(** X18: editing the command forgets the feedback templates. When the
    text of the command entry changes, [_update_config] builds the
    configuration anew from three keys, and the key [feedback_templates] is
    gone. A feedback template saved after that is the only one the
    configuration holds, and the file written holds it alone, whatever
    templates were saved before. *)
Theorem update_config_forgets_feedback_templates (p : Panel) (text : str)
    (c : codepoint) (feedback : str) (w : World) :
  str_eqb (command_entry (ui p)) text = false ->
  strip (feedback_text (ui p)) = c :: feedback ->
  confirm_save (shorten 100 (c :: feedback)) (world (window p)) = (true, w) ->
  let p1 := snd (panel_dispatch tbl (Window (CommandEdited text)) p) in
  let p2 := snd (panel_dispatch tbl SaveFeedbackTemplateRequested p1) in
  let saved := mkConfig (Some text) (Some (auto_check p))
                 (Some (get_list (command_templates (config p)))) (Some [c :: feedback]) in
  config p1 = mkConfig (Some text) (Some (auto_check p))
                (Some (get_list (command_templates (config p)))) None
  /\ config p2 = saved
  /\ exists r, storage p2 = storage p ++ [ConfigWritten saved r].
Proof.
  intros Hne Hfb Hok. cbv zeta. cbn [panel_dispatch].
  assert (E1 : command_entry_setText text p
               = (inr tt,
                  set_config (mkConfig (Some text) (Some (auto_check p))
                                (Some (get_list (command_templates (config p)))) None)
                    (set_ui (set_command_entry text) p))).
  { unfold command_entry_setText, pbind, pgets, modify. cbn [fst snd].
    rewrite Hne. reflexivity. }
  rewrite E1. cbn [snd]. split; [reflexivity|].
  set (p1 := set_config _ (set_ui (set_command_entry text) p)).
  rewrite (save_feedback_template_run p1 c feedback w Hfb Hok eq_refl).
  unfold p1. clear p1.
  unfold pbind.
  match goal with
  | |- context [_save_config ?q] =>
      destruct (save_config_run q) as (r & w' & _ & E); rewrite E
  end.
  destruct r as [message|[]]; (split; [reflexivity|]); eexists; reflexivity.
Qed.

End ConfigProperties.

Lemma update_config_forgets_feedback_templates_witness :
  feedback_templates (config panel_typed) = Some [lit "LGTM"; lit "Please add tests"]
  /\ feedback_templates
       (config (panel_loop ascii_only
                  [Window (FeedbackEdited (lit "Looks fine")); Window (CommandEdited (lit "make test"));
                   SaveFeedbackTemplateRequested] panel_typed))
     = Some [lit "Looks fine"].
Proof.
  split; [reflexivity|].
  pose proof (update_config_forgets_feedback_templates ascii_only
                (snd (panel_dispatch ascii_only (Window (FeedbackEdited (lit "Looks fine")))
                        panel_typed))
                (lit "make test") 76%N (lit "ooks fine") world_tree
                eq_refl eq_refl eq_refl) as H.
  cbv zeta in H. destruct H as (_ & H & _).
  exact (f_equal feedback_templates H).
Defined.

Section CaptionProperties.

Context {host : Host} {polling : Polling} {desktop : Desktop}.
Variable tbl : codepoint -> bool.

Ltac by_assumption := intros ? ?; assumption.

(** Only [_save_template] and its timer touch the list of the timers. *)
Lemma panel_dispatch_caption_timers (timers : list string) (ev : panel_event) :
  is_caption_event ev = false ->
  preserves (fun p => caption_timers p = timers) (panel_dispatch tbl ev).
Proof.
  assert (HQ : stable (fun p => caption_timers p = timers)) by (intros e s p H; exact H).
  intros Hev. destruct ev as [ev| | | | | | | | | | |]; try discriminate Hev;
    cbn [panel_dispatch].
  - destruct ev; try apply (preserves_lift _ _ HQ).
    + unfold command_entry_setText, _update_config. preserve HQ by_assumption.
    + unfold submit_with_history, _add_to_history. preserve HQ by_assumption.
  - unfold _update_config. preserve HQ by_assumption.
  - apply (preserves_save_config _ HQ).
  - unfold activated, _on_template_selected, command_entry_setText, _update_config.
    preserve HQ by_assumption.
  - unfold activated, _on_feedback_template_selected. preserve HQ by_assumption.
  - unfold _save_feedback_template, _populate_feedback_templates_combo.
    preserve HQ by_assumption.
  - unfold _delete_feedback_template, _populate_feedback_templates_combo.
    preserve HQ by_assumption.
  - unfold activated, _on_history_selected. preserve HQ by_assumption.
  - preserve HQ by_assumption.
  - unfold dropEvent, command_entry_setText, _update_config. preserve HQ by_assumption.
Qed.

Lemma panel_loop_caption_timers (timers : list string) (events : list panel_event) :
  forallb (fun ev => negb (is_caption_event ev)) events = true ->
  forall p, caption_timers p = timers -> caption_timers (panel_loop tbl events p) = timers.
Proof.
  induction events as [|ev events IH]; intros Hev p H; [exact H|].
  cbn [forallb] in Hev. apply andb_true_iff in Hev. destruct Hev as [Hev Hevs].
  apply negb_true_iff in Hev.
  unfold panel_loop in *. cbn [fold_left]. apply (IH Hevs).
  exact (panel_dispatch_caption_timers timers ev Hev p H).
Qed.

Lemma panel_loop_app (a b : list panel_event) (p : Panel) :
  panel_loop tbl (a ++ b) p = panel_loop tbl b (panel_loop tbl a p).
Proof. apply fold_left_app. Qed.

Lemma save_config_ok (p : Panel) (w : World) :
  write_config (config p) (world (window p)) = (inr tt, w) ->
  _save_config p
  = (inr tt,
     set_storage (storage p ++ [ConfigWritten (config p) (inr tt)])
       (set_window (mkEnv (ui p) w (calls (window p))) p)).
Proof. intros H. unfold _save_config. rewrite H. reflexivity. Qed.

(** What [_save_template] does with a new template when the file can be
    written. *)
Lemma save_template_run (p : Panel) (c : codepoint) (command : str) (w : World) :
  let templates := get_list (command_templates (config p)) ++ [c :: command] in
  let saved := mkConfig (run_command (config p)) (execute_automatically (config p))
                 (Some templates) (feedback_templates (config p)) in
  strip (command_entry (ui p)) = c :: command ->
  str_in (c :: command) (get_list (command_templates (config p))) = false ->
  write_config saved (world (window p)) = (inr tt, w) ->
  _save_template p
  = (inr tt,
     mkPanel (mkEnv (set_run_button saved_caption (ui p)) w (calls (window p)))
       (prompt p) saved (history p) (auto_check p)
       (fold_left (fun c template => addItem template None c) templates
          (addItem (lit "-- Select template --") None combo_clear))
       (feedback_templates_combo p) (history_combo p) (feedback_cursor p)
       (caption_timers p ++ [run_button (ui p)])
       (storage p ++ [ConfigWritten saved (inr tt)])).
Proof.
  intros templates saved Hc Hnew Hw. unfold _save_template.
  unfold pbind at 1. unfold pgets at 1. rewrite Hc.
  unfold pbind at 1. unfold pgets at 1. rewrite Hnew.
  unfold pbind at 1. unfold modify at 1.
  unfold pbind at 1.
  match goal with
  | |- context [_save_config ?q] => rewrite (save_config_ok q w Hw)
  end.
  reflexivity.
Qed.

(** X19: the caption that [_save_template] puts back is the one it found,
    whatever happened since. Saving a new command template shows the saved
    mark on the run button and starts a timer that puts the caption of
    before back. When the timer ends, the button gets that caption also if
    the caption was changed in between: after a command was started in the
    meantime, the button says what it said before the template was saved while
    the process runs. *)
Theorem save_template_restores_old_caption (p : Panel) (c : codepoint) (command : str)
    (w : World) (events : list panel_event) :
  let templates := get_list (command_templates (config p)) ++ [c :: command] in
  let saved := mkConfig (run_command (config p)) (execute_automatically (config p))
                 (Some templates) (feedback_templates (config p)) in
  caption_timers p = [] ->
  strip (command_entry (ui p)) = c :: command ->
  str_in (c :: command) (get_list (command_templates (config p))) = false ->
  write_config saved (world (window p)) = (inr tt, w) ->
  forallb (fun ev => negb (is_caption_event ev)) events = true ->
  run_button (ui (snd (panel_dispatch tbl SaveTemplateRequested p))) = saved_caption
  /\ run_button (ui (panel_loop tbl ([SaveTemplateRequested] ++ events ++ [CaptionTimeout]) p))
     = run_button (ui p)
  /\ process (ui (panel_loop tbl ([SaveTemplateRequested] ++ events ++ [CaptionTimeout]) p))
     = process (ui (panel_loop tbl ([SaveTemplateRequested] ++ events) p)).
Proof.
  intros templates saved Ht Hc Hnew Hw Hev.
  pose proof (save_template_run p c command w Hc Hnew Hw) as E. cbv zeta in E.
  fold templates in E. fold saved in E.
  cbn [panel_dispatch]. rewrite E. split; [reflexivity|].
  rewrite !panel_loop_app.
  change (panel_loop tbl [SaveTemplateRequested] p) with (snd (_save_template p)).
  rewrite E. cbn [snd].
  match goal with
  | |- context [panel_loop tbl events ?q] =>
      pose proof (panel_loop_caption_timers [run_button (ui p)] events Hev q
                    ltac:(cbn [caption_timers]; rewrite Ht; reflexivity)) as T;
      set (p2 := panel_loop tbl events q) in *
  end.
  unfold panel_loop. cbn [fold_left panel_dispatch].
  unfold caption_timeout, pbind, pgets. rewrite T. split; reflexivity.
Qed.

End CaptionProperties.

Lemma save_template_restores_old_caption_witness :
  process (ui (panel_loop ascii_only
                 [SaveTemplateRequested; Window RunRequested; CaptionTimeout] panel_typed))
  = Some 3
  /\ run_button (ui (panel_loop ascii_only
                       [SaveTemplateRequested; Window RunRequested; CaptionTimeout]
                       panel_typed))
     = "&Run (Ctrl+R / F5)".
Proof.
  split; [reflexivity|].
  exact (proj1 (proj2 (save_template_restores_old_caption ascii_only panel_typed
                         109%N (lit "ake") world_tree [Window RunRequested]
                         eq_refl eq_refl eq_refl eq_refl eq_refl))).
Defined.

(** ** The lists of templates *)

Lemma tidy_nil : tidy [].
Proof. split; [constructor | intros []]. Qed.

Lemma tidy_snoc (x : str) (l : list str) :
  x <> [] -> str_in x l = false -> tidy l -> tidy (l ++ [x]).
Proof.
  intros Hx Hin [Hnd Hne].
  assert (Hnot : ~ In x l).
  { intros H. apply str_in_In in H. rewrite H in Hin. discriminate. }
  split.
  - clear Hne Hin. induction Hnd as [|y l Hy Hnd IH]; simpl.
    + constructor; [intros []|constructor].
    + constructor.
      * rewrite in_app_iff. intros [H|[H|[]]]; [exact (Hy H)|].
        apply Hnot. left. exact (eq_sym H).
      * apply IH. intros H. apply Hnot. right. exact H.
  - rewrite in_app_iff. intros [H|[H|[]]]; [exact (Hne H)|]. exact (Hx H).
Qed.

Lemma list_remove_In (x y : str) (l : list str) : In y (list_remove x l) -> In y l.
Proof.
  induction l as [|z l IH]; simpl; [intros []|].
  destruct (str_eqb z x); [intros H; right; exact H|].
  intros [H|H]; [left; exact H | right; exact (IH H)].
Qed.

Lemma tidy_remove (x : str) (l : list str) : tidy l -> tidy (list_remove x l).
Proof.
  intros [Hnd Hne]. split.
  - induction Hnd as [|y l Hy Hnd IH]; simpl; [constructor|].
    destruct (str_eqb y x); [exact Hnd|].
    constructor; [|apply IH; intros H; apply Hne; right; exact H].
    intros H. exact (Hy (list_remove_In x y l H)).
  - intros H. exact (Hne (list_remove_In x [] l H)).
Qed.

Section TemplateProperties.

Context {host : Host} {polling : Polling} {desktop : Desktop}.
Variable tbl : codepoint -> bool.

Lemma templates_tidy_stable : stable templates_tidy.
Proof. intros e s p H. exact H. Qed.

Ltac tidy_leaf :=
  intros ? ?;
  first [ assumption
        | match goal with
          | H : templates_tidy _ |- _ => split; [exact (proj1 H) | exact tidy_nil]
          end ].

Lemma update_config_tidy : preserves templates_tidy _update_config.
Proof. unfold _update_config. apply preserves_modify. tidy_leaf. Qed.

Lemma setText_tidy (text : str) : preserves templates_tidy (command_entry_setText text).
Proof.
  pose proof templates_tidy_stable as HQ. unfold command_entry_setText.
  preserve_with HQ ltac:(apply update_config_tidy) tidy_leaf.
Qed.

Lemma after_config_tidy {A} (after : PM A) :
  preserves templates_tidy after ->
  preserves templates_tidy (pbind _save_config (fun _ => after)).
Proof.
  intros H. apply preserves_pbind; [|intros _; exact H].
  apply (preserves_save_config _ templates_tidy_stable).
Qed.

Lemma save_template_tidy : preserves templates_tidy _save_template.
Proof.
  pose proof templates_tidy_stable as HQ.
  intros p H. unfold _save_template.
  unfold pbind at 1. unfold pgets at 1.
  destruct (strip (command_entry (ui p))) as [|c command] eqn:Hc; [exact H|].
  unfold pbind at 1. unfold pgets at 1.
  destruct (str_in (c :: command) (get_list (command_templates (config p)))) eqn:Hin;
    [exact H|].
  unfold pbind at 1. unfold modify at 1.
  match goal with
  | |- templates_tidy (snd (pbind _save_config ?k ?q)) =>
      apply (after_config_tidy (k tt)
               ltac:(unfold _populate_templates_combo; preserve HQ tidy_leaf) q)
  end.
  split; [|exact (proj2 H)]. cbn [config set_config command_templates get_list].
  apply tidy_snoc; [discriminate | exact Hin | exact (proj1 H)].
Qed.

Lemma save_feedback_template_tidy : preserves templates_tidy _save_feedback_template.
Proof.
  pose proof templates_tidy_stable as HQ.
  intros p H. unfold _save_feedback_template.
  unfold pbind at 1. unfold pgets at 1.
  destruct (strip (feedback_text (ui p))) as [|c feedback] eqn:Hc; [exact H|].
  unfold pbind at 1. unfold ask.
  destruct (confirm_save (shorten 100 (c :: feedback)) (world (window p))) as [[|] w];
    [|exact H].
  unfold pbind at 1. unfold pgets at 1. cbn [config set_window].
  destruct (str_in (c :: feedback) (get_list (feedback_templates (config p)))) eqn:Hin;
    [exact H|].
  unfold pbind at 1. unfold modify at 1.
  match goal with
  | |- templates_tidy (snd (pbind _save_config ?k ?q)) =>
      apply (after_config_tidy (k tt)
               ltac:(unfold _populate_feedback_templates_combo; preserve HQ tidy_leaf) q)
  end.
  split; [exact (proj1 H)|]. cbn [config set_config set_window feedback_templates get_list].
  apply tidy_snoc; [discriminate | exact Hin | exact (proj2 H)].
Qed.

Lemma delete_feedback_template_tidy : preserves templates_tidy _delete_feedback_template.
Proof.
  pose proof templates_tidy_stable as HQ.
  intros p H. unfold _delete_feedback_template.
  unfold pbind at 1. unfold pgets at 1.
  destruct (Z.leb (currentIndex (feedback_templates_combo p)) 0); [exact H|].
  unfold pbind at 1. unfold pgets at 1.
  destruct (itemData (currentIndex (feedback_templates_combo p)) (feedback_templates_combo p))
    as [[|c template]|]; [exact H| |exact H].
  unfold pbind at 1. unfold ask.
  destruct (confirm_delete (shorten 100 (c :: template)) (world (window p))) as [[|] w];
    [|exact H].
  unfold pbind at 1. unfold pgets at 1. cbn [config set_window].
  destruct (str_in (c :: template) (get_list (feedback_templates (config p)))); [|exact H].
  unfold pbind at 1. unfold modify at 1.
  match goal with
  | |- templates_tidy (snd (pbind _save_config ?k ?q)) =>
      apply (after_config_tidy (k tt)
               ltac:(unfold _populate_feedback_templates_combo; preserve HQ tidy_leaf) q)
  end.
  split; [exact (proj1 H)|]. cbn [config set_config set_window feedback_templates get_list].
  apply tidy_remove. exact (proj2 H).
Qed.

Lemma panel_dispatch_tidy (ev : panel_event) : preserves templates_tidy (panel_dispatch tbl ev).
Proof.
  pose proof templates_tidy_stable as HQ.
  destruct ev as [ev| | | | | | | | | | |]; cbn [panel_dispatch].
  - destruct ev; try apply (preserves_lift _ _ HQ).
    + apply setText_tidy.
    + unfold submit_with_history, _add_to_history. preserve HQ tidy_leaf.
  - preserve_with HQ ltac:(apply update_config_tidy) tidy_leaf.
  - apply (preserves_save_config _ HQ).
  - unfold activated, _on_template_selected.
    preserve_with HQ ltac:(apply setText_tidy) tidy_leaf.
  - apply save_template_tidy.
  - unfold activated, _on_feedback_template_selected. preserve HQ tidy_leaf.
  - apply save_feedback_template_tidy.
  - apply delete_feedback_template_tidy.
  - unfold activated, _on_history_selected. preserve HQ tidy_leaf.
  - preserve HQ tidy_leaf.
  - unfold dropEvent. preserve_with HQ ltac:(apply setText_tidy) tidy_leaf.
  - unfold caption_timeout. preserve HQ tidy_leaf.
Qed.

(** X20: the lists of templates stay tidy. When the command templates and
    the feedback templates of the configuration hold no template twice and no
    empty one, they do so after every sequence of events: a template is added
    only when it is not blank and not yet in the list. *)
Theorem templates_stay_tidy (events : list panel_event) (p : Panel) :
  templates_tidy p -> templates_tidy (panel_loop tbl events p).
Proof.
  revert p. induction events as [|ev events IH]; intros p H; [exact H|].
  unfold panel_loop in *. cbn [fold_left]. apply IH.
  exact (panel_dispatch_tidy ev p H).
Qed.

End TemplateProperties.

Lemma templates_stay_tidy_witness :
  templates_tidy
    (panel_loop ascii_only [SaveTemplateRequested; SaveTemplateRequested] panel_typed)
  /\ command_templates
       (config (panel_loop ascii_only [SaveTemplateRequested; SaveTemplateRequested]
                  panel_typed))
     = Some [lit "make"].
Proof.
  split; [|reflexivity].
  apply (templates_stay_tidy ascii_only). split.
  - exact tidy_nil.
  - split.
    + constructor; [simpl; intros [H|[]]; discriminate H|].
      constructor; [intros []|constructor].
    + simpl. intros [H|[H|[]]]; discriminate H.
Defined.

(** ** The history of the feedback *)

Lemma last_n_snoc {A} (n : nat) (l : list A) (x : A) :
  last_n (S n) (l ++ [x]) = last_n n l ++ [x].
Proof.
  unfold last_n. rewrite length_app. cbn [List.length].
  replace (List.length l + 1 - S n) with (List.length l - n) by lia.
  rewrite skipn_app.
  replace (List.length l - n - List.length l) with 0 by lia. reflexivity.
Qed.

Lemma last_n_length {A} (n : nat) (l : list A) : List.length (last_n n l) <= n.
Proof. unfold last_n. rewrite length_skipn. lia. Qed.

Lemma last_n_suffix {A} (n : nat) (l : list A) : exists older, l = older ++ last_n n l.
Proof.
  exists (firstn (List.length l - n) l). unfold last_n. symmetry. apply firstn_skipn.
Qed.

(** The history written ends with the newest entry. *)
Lemma history_to_save_snoc (h : list json) (entry : json) :
  exists recent, history_to_save (h ++ [entry]) = recent ++ [entry].
Proof.
  unfold history_to_save. destruct (Nat.ltb 20 (List.length (h ++ [entry]))).
  - exists (last_n 19 h). apply last_n_snoc.
  - exists h. reflexivity.
Qed.

Section HistoryProperties.

Context {host : Host} {polling : Polling} {desktop : Desktop}.
Variable tbl : codepoint -> bool.

(** What [_add_to_history] does. *)
Lemma add_to_history_run (feedback : str) (p : Panel) :
  exists (now : str) (r : str + unit) (w : World),
    let entry := [("timestamp", JString now); ("feedback", JString feedback);
                  ("prompt", JString (firstn 100 (prompt p)))] in
    _add_to_history feedback p
    = (inr tt,
       mkPanel (mkEnv (ui p) w (calls (window p))) (prompt p) (config p)
         (history p ++ [entry]) (auto_check p) (templates_combo p)
         (feedback_templates_combo p) (history_combo p) (feedback_cursor p)
         (caption_timers p)
         (storage p ++ [HistoryWritten (history_to_save (history p ++ [entry])) r])).
Proof.
  unfold _add_to_history, pbind, ask, pgets, modify, _save_history.
  destruct (datetime_now (world (window p))) as [now w0].
  cbv beta iota.
  cbn [history set_history set_window prompt window world fst snd].
  match goal with
  | |- context [write_history ?h ?w1] => destruct (write_history h w1) as [r w]
  end.
  exists now, r, w. reflexivity.
Qed.

(** X21: the history file holds the most recent feedback. [_add_to_history]
    never raises. It appends to the history in memory an entry with the
    feedback, the time and the first hundred code points of the prompt, and
    hands to [json.dump] the end of that history: at most twenty entries, in
    their order, the last of which is the new one. The configuration and the
    widgets of the window stay as they are, also when the file cannot be
    written. *)
Theorem add_to_history_saves_recent (feedback : str) (p : Panel) :
  let p' := snd (_add_to_history feedback p) in
  fst (_add_to_history feedback p) = inr tt
  /\ config p' = config p
  /\ ui p' = ui p
  /\ exists (now : str) (recent older : list json) (r : str + unit),
       let entry := [("timestamp", JString now); ("feedback", JString feedback);
                     ("prompt", JString (firstn 100 (prompt p)))] in
       history p' = history p ++ [entry]
       /\ storage p' = storage p ++ [HistoryWritten (recent ++ [entry]) r]
       /\ List.length (recent ++ [entry]) <= 20
       /\ history p' = older ++ recent ++ [entry].
Proof.
  cbv zeta. destruct (add_to_history_run feedback p) as (now & r & w & E).
  cbv zeta in E. rewrite E. clear E. cbn [fst snd].
  set (entry := [("timestamp", JString now); ("feedback", JString feedback);
                 ("prompt", JString (firstn 100 (prompt p)))]) in *.
  split; [reflexivity|]. split; [reflexivity|]. split; [reflexivity|].
  destruct (history_to_save_snoc (history p) entry) as (recent & Hr).
  assert (L : List.length (history_to_save (history p ++ [entry])) <= 20).
  { unfold history_to_save.
    destruct (Nat.ltb_spec 20 (List.length (history p ++ [entry]))) as [_|H];
      [apply last_n_length | exact H]. }
  assert (S : exists older, history p ++ [entry]
                            = older ++ history_to_save (history p ++ [entry])).
  { unfold history_to_save. destruct (Nat.ltb 20 (List.length (history p ++ [entry]))).
    - apply last_n_suffix.
    - exists []. reflexivity. }
  destruct S as (older & S).
  exists now, recent, older, r. cbv zeta. fold entry. cbn [history storage].
  change (history_to_save (history p ++ [entry]))
    with (history_to_save (history p ++ [entry])) in L, S, Hr |- *.
  generalize dependent (history_to_save (history p ++ [entry])).
  intros saved Hr L S. subst saved.
  split; [reflexivity|]. split; [reflexivity|]. split; [exact L|exact S].
Qed.

(** What [_populate_history_combo] puts into the combo box. *)
Lemma populate_history_combo_run (p : Panel) :
  exists c : ComboBox json,
    _populate_history_combo p = (inr tt, set_history_combo c p)
    /\ items c
       = (lit "-- Select from history --", None)
           :: map (fun entry => (history_display_text entry, Some entry))
                (rev (last_n 10 (history p)))
    /\ currentIndex c = 0%Z.
Proof.
  unfold _populate_history_combo, pbind, pgets, modify. cbn [fst snd].
  eexists. split; [reflexivity|].
  destruct (fill_combo history_display_text (fun entry : json => Some entry)
              (rev (last_n 10 (history p)))
              (addItem (lit "-- Select from history --") None combo_clear)) as [I1 I2].
  split; [exact I1 | exact (I2 eq_refl)].
Qed.

(** X22: the newest entry of the history is the first to choose, and
    choosing it restores the whole feedback. [_populate_history_combo] lists
    after the placeholder the last ten entries, the newest first; when the
    user chooses the first of them, [_on_history_selected] puts the feedback
    of that entry into the feedback box as it was stored, not the text of at
    most fifty code points that the combo box shows, and the combo box goes
    back to the placeholder. *)
Theorem history_item_restores_feedback (p : Panel) (older : list json) (entry : json) :
  history p = older ++ [entry] ->
  entry <> [] ->
  let p1 := snd (_populate_history_combo p) in
  let p2 := snd (panel_dispatch tbl (HistoryActivated 1) p1) in
  List.length (items (history_combo p1)) = 1 + Nat.min 10 (List.length (history p))
  /\ item_at 1 (history_combo p1) = Some (history_display_text entry, Some entry)
  /\ feedback_text (ui p2) = dict_get "feedback" entry
  /\ currentIndex (history_combo p2) = 0%Z.
Proof.
  intros Hh Hne. cbv zeta.
  destruct (populate_history_combo_run p) as (c & E & Hitems & Hindex).
  rewrite E. cbn [snd].
  assert (Hrev : rev (last_n 10 (history p)) = entry :: rev (last_n 9 older)).
  { rewrite Hh, (last_n_snoc 9 older entry), rev_app_distr. reflexivity. }
  rewrite Hrev in Hitems. cbn [map] in Hitems.
  assert (Hlen : List.length (items c) = 1 + Nat.min 10 (List.length (history p))).
  { rewrite Hitems. cbn [List.length]. rewrite length_map, length_rev.
    unfold last_n. rewrite length_skipn, Hh, length_app. cbn [List.length]. lia. }
  split; [exact Hlen|].
  assert (Hitem : item_at 1 c = Some (history_display_text entry, Some entry)).
  { unfold item_at. rewrite Hitems. reflexivity. }
  split; [exact Hitem|].
  assert (Hvalid : valid_index 1 c = true).
  { unfold valid_index. apply andb_true_iff. split; [reflexivity|].
    apply Z.ltb_lt. rewrite Hitems. cbn [List.length]. lia. }
  assert (Hdata : itemData 1 (setCurrentIndex 1 c) = Some entry).
  { unfold itemData, setCurrentIndex, item_at. cbn [items].
    unfold item_at in Hitem. rewrite Hitem. reflexivity. }
  assert (E2 : snd (panel_dispatch tbl (HistoryActivated 1) (set_history_combo c p))
               = set_history_combo (setCurrentIndex 0 (setCurrentIndex 1 c))
                   (set_feedback_cursor (0, 0)
                      (set_ui (set_feedback_text (dict_get "feedback" entry))
                         (set_history_combo (setCurrentIndex 1 c) p)))).
  { cbn [panel_dispatch]. unfold activated.
    unfold pbind at 1. unfold pgets at 1. cbn [history_combo set_history_combo].
    rewrite Hvalid, Hindex. cbn [Z.eqb negb andb].
    unfold pbind at 1. unfold modify at 1.
    unfold _on_history_selected. cbn [Z.ltb Z.compare].
    unfold pbind at 1. unfold pbind at 1. unfold pgets at 1.
    cbn [history_combo set_history_combo].
    rewrite Hdata. destruct entry as [|kv entry]; [destruct (Hne eq_refl)|].
    reflexivity. }
  rewrite E2. split; [reflexivity|].
  cbn [history_combo set_history_combo set_feedback_cursor set_ui set_window].
  unfold setCurrentIndex, valid_index. cbn [items currentIndex].
  rewrite Hitems. reflexivity.
Qed.

End HistoryProperties.

Lemma history_item_restores_feedback_witness :
  feedback_text
    (ui (snd (panel_dispatch ascii_only (HistoryActivated 1)
                (snd (_populate_history_combo
                        (snd (_add_to_history
                                (lit "The second paragraph repeats the first; drop one of the two.")
                                panel_typed)))))))
  = lit "The second paragraph repeats the first; drop one of the two.".
Proof.
  exact (proj1 (proj2 (proj2
    (history_item_restores_feedback ascii_only
       (snd (_add_to_history
               (lit "The second paragraph repeats the first; drop one of the two.")
               panel_typed))
       []
       [("timestamp", JString (lit "2025-01-02T03:04:05"));
        ("feedback",
         JString (lit "The second paragraph repeats the first; drop one of the two."));
        ("prompt", JString (lit "Done."))]
       eq_refl ltac:(discriminate))))).
Defined.

(** ** The environment of the user *)

Lemma index_of_first (c : codepoint) (a b : str) :
  existsb (N.eqb c) a = false -> index_of c (a ++ c :: b) = Some (List.length a).
Proof.
  induction a as [|x a IH]; simpl.
  - rewrite N.eqb_refl. reflexivity.
  - intros H. apply orb_false_iff in H. destruct H as [Hx H].
    rewrite N.eqb_sym, Hx, (IH H). reflexivity.
Qed.

Lemma index_of_absent (c : codepoint) (s : str) :
  existsb (N.eqb c) s = false -> index_of c s = None.
Proof.
  induction s as [|x s IH]; simpl; [reflexivity|].
  intros H. apply orb_false_iff in H. destruct H as [Hx H].
  rewrite N.eqb_sym, Hx, (IH H). reflexivity.
Qed.

(** Reading up to the next terminator. *)
Lemma read_block_string (s memory current_string : str) (result : env_dict) :
  existsb (N.eqb 0%N) s = false ->
  read_block (s ++ memory) current_string result
  = read_block memory (current_string ++ s) result.
Proof.
  revert current_string. induction s as [|c s IH]; intros current_string H.
  - rewrite app_nil_r. reflexivity.
  - cbn [existsb] in H. apply orb_false_iff in H. destruct H as [Hc H].
    cbn [app read_block]. rewrite N.eqb_sym, Hc, (IH _ H), <- app_assoc. reflexivity.
Qed.

Lemma firstn_length_app {A} (a b : list A) : firstn (List.length a) (a ++ b) = a.
Proof. induction a as [|x a IH]; [reflexivity|]. cbn. rewrite IH. reflexivity. Qed.

Lemma skipn_length_app {A} (a : list A) (x : A) (b : list A) :
  skipn (S (List.length a)) (a ++ x :: b) = b.
Proof. induction a as [|y a IH]; [reflexivity|]. exact IH. Qed.

(** At the terminator of a string that holds [=]. *)
Lemma read_block_terminator (current_string memory : str) (result : env_dict) (i : nat) :
  current_string <> [] ->
  index_of 61%N current_string = Some i ->
  read_block (0%N :: memory) current_string result
  = read_block memory []
      (dict_set (firstn i current_string) (skipn (S i) current_string) result).
Proof.
  intros Hne Hi. destruct current_string as [|c s]; [destruct (Hne eq_refl)|].
  cbn [read_block N.eqb]. rewrite Hi. reflexivity.
Qed.

Lemma read_block_entry (variable : str * str) (memory : str) (result : env_dict) :
  block_variable variable = true ->
  read_block (block_entry variable ++ memory) [] result
  = read_block memory [] (dict_set (fst variable) (snd variable) result).
Proof.
  destruct variable as [key value]. unfold block_variable, block_entry. cbn [fst snd].
  intros H. apply andb_true_iff in H. destruct H as [H Hv].
  apply andb_true_iff in H. destruct H as [Hk0 Hk].
  apply negb_true_iff in Hv, Hk0, Hk.
  assert (H0 : existsb (N.eqb 0%N) (key ++ 61%N :: value) = false).
  { rewrite existsb_app. apply orb_false_iff. split; [exact Hk0|].
    cbn [existsb]. apply orb_false_iff. split; [reflexivity | exact Hv]. }
  assert (Hne : key ++ 61%N :: value <> []) by (destruct key; discriminate).
  pose proof (index_of_first 61%N key value Hk) as Hi.
  etransitivity.
  { transitivity (read_block ((key ++ 61%N :: value) ++ 0%N :: memory) [] result).
    - f_equal. rewrite <- !app_assoc. reflexivity.
    - exact (read_block_string (key ++ 61%N :: value) (0%N :: memory) [] result H0). }
  etransitivity.
  { exact (read_block_terminator (key ++ 61%N :: value) memory result (List.length key)
             Hne Hi). }
  f_equal. f_equal; [apply firstn_length_app | apply skipn_length_app].
Qed.

Lemma read_block_entries (variables : list (str * str)) (memory : str) :
  forallb block_variable variables = true ->
  forall result : env_dict,
    read_block (concat (map block_entry variables) ++ memory) [] result
    = read_block memory []
        (fold_left (fun d variable => dict_set (fst variable) (snd variable) d)
           variables result).
Proof.
  induction variables as [|variable variables IH]; intros H result; [reflexivity|].
  cbn [forallb] in H. apply andb_true_iff in H. destruct H as [Hv H].
  cbn [map concat fold_left]. rewrite <- app_assoc.
  rewrite (read_block_entry variable _ result Hv). exact (IH H _).
Qed.

(** X23: on Windows [get_user_environment] reads back the variables of the
    environment block. For a block that holds the variables as [name=value],
    each closed by a terminator, and an empty string after the last, the
    result is the dict built by assigning the values to the names in the order
    of the block (for a name that comes twice the later value, at the place of
    the first); both handles are released, and what follows the block in
    memory is not read. A name may be empty, as in the entries [=C:=C:\dir]
    that Windows keeps, whose key is the empty string. *)
Theorem get_user_environment_reads_block (variables : list (str * str)) (after : str)
    (environ : env_dict) :
  forallb block_variable variables = true ->
  get_user_environment true environ true (Some (environment_block variables ++ after))
  = ([OpenProcessToken true; CreateEnvironmentBlock true; DestroyEnvironmentBlock;
      CloseHandle],
     Some (inr (fold_left (fun d variable => dict_set (fst variable) (snd variable) d)
                  variables []))).
Proof.
  intros H. unfold get_user_environment, environment_block. cbn [negb].
  rewrite <- !app_assoc, (read_block_entries variables _ H []). reflexivity.
Qed.

Lemma get_user_environment_reads_block_witness :
  get_user_environment true [] true
    (Some (lit "=C:=C:\work" ++ [0%N] ++ lit "PATH=C:\bin" ++ [0%N] ++ lit "path=D:\"
             ++ [0%N; 0%N; 7%N]))
  = ([OpenProcessToken true; CreateEnvironmentBlock true; DestroyEnvironmentBlock;
      CloseHandle],
     Some (inr [([], lit "C:=C:\work"); (lit "PATH", lit "C:\bin"); (lit "path", lit "D:\")])).
Proof.
  exact (get_user_environment_reads_block
           [([], lit "C:=C:\work"); (lit "PATH", lit "C:\bin"); (lit "path", lit "D:\")]
           [7%N] [] eq_refl).
Defined.

(** X24: an entry of the environment block without [=] makes
    [get_user_environment] raise [ValueError]; it is not skipped, the test
    for -1 in the source cannot hold. The error is raised after the variables
    before the entry were read, whatever follows the entry, and both handles
    are released on the way out. *)
Theorem get_user_environment_entry_without_equals (variables : list (str * str))
    (c : codepoint) (entry after : str) (environ : env_dict) :
  forallb block_variable variables = true ->
  existsb (N.eqb 0%N) (c :: entry) = false ->
  existsb (N.eqb 61%N) (c :: entry) = false ->
  get_user_environment true environ true
    (Some (concat (map block_entry variables) ++ (c :: entry) ++ [0%N] ++ after))
  = ([OpenProcessToken true; CreateEnvironmentBlock true; DestroyEnvironmentBlock;
      CloseHandle],
     Some (inl (OtherException (lit "substring not found")))).
Proof.
  intros H H0 He. unfold get_user_environment. cbn [negb].
  rewrite (read_block_entries variables _ H []).
  rewrite (read_block_string (c :: entry) _ [] _ H0).
  cbn [app read_block N.eqb].
  rewrite (index_of_absent 61%N (c :: entry) He). reflexivity.
Qed.

Lemma get_user_environment_entry_without_equals_witness :
  get_user_environment true [] true
    (Some (lit "A=1" ++ [0%N] ++ lit "orphan" ++ [0%N] ++ lit "B=2" ++ [0%N; 0%N]))
  = ([OpenProcessToken true; CreateEnvironmentBlock true; DestroyEnvironmentBlock;
      CloseHandle],
     Some (inl (OtherException (lit "substring not found")))).
Proof.
  exact (get_user_environment_entry_without_equals [(lit "A", lit "1")] 111%N (lit "rphan")
           (lit "B=2" ++ [0%N; 0%N]) [] eq_refl eq_refl eq_refl).
Defined.

(** ** The size of the console font *)

(** X25: the size of the console font stays between 6 and 20 points. From
    a size in that range, any sequence of the three font slots leaves a size
    in the range, and once a slot has changed or reset the size, the value
    stored under [console_font_size] is the size of the font. *)
Theorem font_size_stays_in_range (events : list font_event) (f : ConsoleFont) :
  (6 <= pointSize f <= 20)%Z ->
  let f' := fold_left font_slot events f in
  (6 <= pointSize f' <= 20)%Z
  /\ (console_font_size f' = console_font_size f /\ pointSize f' = pointSize f
      \/ console_font_size f' = Some (pointSize f')).
Proof.
  cbv zeta. revert f. induction events as [|ev events IH]; intros f Hr.
  - split; [exact Hr|]. left. split; reflexivity.
  - cbn [fold_left].
    assert (Step : (6 <= pointSize (font_slot f ev) <= 20)%Z
                   /\ (font_slot f ev = f
                       \/ console_font_size (font_slot f ev)
                          = Some (pointSize (font_slot f ev)))).
    { destruct ev; cbn [font_slot];
        unfold _increase_font_size, _decrease_font_size, _reset_font_size, setValue,
          setPointSize; cbv zeta.
      - destruct (Z.ltb_spec (pointSize f) 20); [|split; [exact Hr|left; reflexivity]].
        destruct (Z.leb_spec (pointSize f + 1) 0); [lia|].
        cbn [pointSize console_font_size]. split; [lia|right; reflexivity].
      - destruct (Z.ltb_spec 6 (pointSize f)); [|split; [exact Hr|left; reflexivity]].
        destruct (Z.leb_spec (pointSize f - 1) 0); [lia|].
        cbn [pointSize console_font_size]. split; [lia|right; reflexivity].
      - cbn [Z.leb Z.compare pointSize console_font_size].
        split; [lia|right; reflexivity]. }
    destruct Step as [Hr' [Same|Hs']].
    + rewrite Same. exact (IH f Hr).
    + destruct (IH (font_slot f ev) Hr') as [R [[E1 E2]|E]].
      * split; [exact R|]. right. rewrite E1, E2. exact Hs'.
      * split; [exact R|]. right. exact E.
Qed.

Lemma font_size_stays_in_range_witness :
  pointSize (fold_left font_slot
               (repeat IncreaseFont 15 ++ [DecreaseFont; DecreaseFont]) (mkFont 9 None))
  = 18%Z
  /\ (6 <= pointSize (fold_left font_slot
                        (repeat DecreaseFont 9 ++ [ResetFont; DecreaseFont]) (mkFont 9 None))
      <= 20)%Z.
Proof.
  split; [reflexivity|].
  exact (proj1 (font_size_stays_in_range (repeat DecreaseFont 9 ++ [ResetFont; DecreaseFont])
                  (mkFont 9 None) ltac:(simpl; lia))).
Defined.

(** ** Lines without tokens *)

Lemma strip_prefix_Some (w s rest : str) : strip_prefix w s = Some rest -> s = w ++ rest.
Proof.
  revert s. induction w as [|a w IH]; intros s H; simpl in H.
  - injection H as ->. reflexivity.
  - destruct s as [|b s]; [discriminate|].
    destruct (N.eqb_spec a b) as [->|]; [|discriminate].
    rewrite (IH s H). reflexivity.
Qed.

(** A substitution whose pattern matches at no place of the text changes
    nothing. *)
Lemma re_sub_from_none (match_at : option codepoint -> str -> option nat) (style : string)
    (s : str) :
  (forall prev a b, s = a ++ b -> match_at prev b = None) ->
  forall prev, re_sub_from match_at style 0 prev s = s.
Proof.
  induction s as [|c s IH]; intros H prev; [reflexivity|].
  cbn [re_sub_from]. rewrite (H prev [] (c :: s) eq_refl). f_equal.
  apply IH. intros prev' a b E. apply (H prev' (c :: a) b). rewrite E. reflexivity.
Qed.

Section TokenProperties.

Variable tbl : codepoint -> bool.
Variable dtbl : codepoint -> bool.

Lemma plain_token_suffix (a b : str) :
  forallb (plain_token_char dtbl) (a ++ b) = true -> forallb (plain_token_char dtbl) b = true.
Proof. rewrite forallb_app. intros H. apply andb_true_iff in H. exact (proj2 H). Qed.

Lemma plain_token_head (c : codepoint) :
  plain_token_char dtbl c = true ->
  N.eqb c 47 = false /\ N.eqb c 92 = false /\ is_digit dtbl c = false.
Proof.
  unfold plain_token_char. intros H. apply negb_true_iff in H.
  apply orb_false_iff in H. destruct H as [H H3].
  apply orb_false_iff in H. destruct H as [H1 H2]. repeat split; assumption.
Qed.

Lemma match_path_plain (prev : option codepoint) (s : str) :
  forallb (plain_token_char dtbl) s = true -> match_path tbl prev s = None.
Proof.
  destruct s as [|c s]; [reflexivity|]. cbn [forallb]. intros H.
  apply andb_true_iff in H. destruct H as [H _].
  destruct (plain_token_head c H) as (H1 & H2 & _).
  unfold match_path. rewrite H1, H2. reflexivity.
Qed.

Lemma no_slash_prefix (w s : str) :
  existsb (N.eqb 47%N) w = true ->
  forallb (plain_token_char dtbl) s = true -> strip_prefix w s = None.
Proof.
  intros Hw Hs. destruct (strip_prefix w s) as [rest|] eqn:E; [|reflexivity].
  apply strip_prefix_Some in E. subst s. exfalso.
  rewrite forallb_app in Hs. apply andb_true_iff in Hs. destruct Hs as [Hs _].
  apply existsb_exists in Hw. destruct Hw as (c & Hin & Hc).
  apply N.eqb_eq in Hc. subst c.
  rewrite forallb_forall in Hs. specialize (Hs _ Hin). discriminate Hs.
Qed.

Lemma match_url_plain (prev : option codepoint) (s : str) :
  forallb (plain_token_char dtbl) s = true -> match_url prev s = None.
Proof.
  intros H. unfold match_url.
  rewrite (no_slash_prefix (lit "https://") s eq_refl H).
  rewrite (no_slash_prefix (lit "http://") s eq_refl H). reflexivity.
Qed.

Lemma match_number_plain (prev : option codepoint) (s : str) :
  forallb (plain_token_char dtbl) s = true -> match_number tbl dtbl prev s = None.
Proof.
  destruct s as [|c s]; [reflexivity|]. cbn [forallb]. intros H.
  apply andb_true_iff in H. destruct H as [H _].
  destruct (plain_token_head c H) as (_ & _ & H3).
  unfold match_number. rewrite H3, andb_false_r. reflexivity.
Qed.

Lemma match_timestamp_plain (prev : option codepoint) (s : str) :
  forallb (plain_token_char dtbl) s = true -> match_timestamp dtbl prev s = None.
Proof.
  destruct s as [|a s]; [reflexivity|]. cbn [forallb]. intros H.
  apply andb_true_iff in H. destruct H as [H _].
  destruct (plain_token_head a H) as (_ & _ & H3).
  unfold match_timestamp.
  destruct s as [|b [|c [|d [|e [|f [|g [|h s]]]]]]]; try reflexivity.
  rewrite H3. reflexivity.
Qed.

(** Text without slash, backslash and digit passes the four substitutions
    unchanged. *)
Lemma highlight_tokens_plain (s : str) :
  forallb (plain_token_char dtbl) s = true -> highlight_tokens tbl dtbl s = s.
Proof.
  intros H. unfold highlight_tokens, re_sub. cbv zeta.
  assert (P : re_sub_from (match_path tbl) "color: #1abc9c;" 0 None s = s).
  { apply re_sub_from_none. intros prev a b E. apply match_path_plain.
    apply (plain_token_suffix a). rewrite <- E. exact H. }
  rewrite P.
  assert (U : re_sub_from match_url "color: #3498db; text-decoration: underline;" 0 None s
              = s).
  { apply re_sub_from_none. intros prev a b E. apply match_url_plain.
    apply (plain_token_suffix a). rewrite <- E. exact H. }
  rewrite U.
  assert (N : re_sub_from (match_number tbl dtbl) "color: #9b59b6;" 0 None s = s).
  { apply re_sub_from_none. intros prev a b E. apply match_number_plain.
    apply (plain_token_suffix a). rewrite <- E. exact H. }
  rewrite N.
  apply re_sub_from_none. intros prev a b E. apply match_timestamp_plain.
  apply (plain_token_suffix a). rewrite <- E. exact H.
Qed.

Lemma escape_char_plain (c : codepoint) :
  plain_token_char dtbl c = true ->
  forallb (plain_token_char dtbl) (escape_char c) = true.
Proof.
  intros H. unfold escape_char.
  destruct (N.eqb c 38); [reflexivity|].
  destruct (N.eqb c 60); [reflexivity|].
  destruct (N.eqb c 62); [reflexivity|].
  cbn [forallb]. rewrite H. reflexivity.
Qed.

Lemma escape_html_plain (s : str) :
  forallb (plain_token_char dtbl) s = true ->
  forallb (plain_token_char dtbl) (escape_html s) = true.
Proof.
  rewrite escape_html_chars. induction s as [|c s IH]; [reflexivity|].
  cbn [forallb flat_map]. intros H. apply andb_true_iff in H. destruct H as [Hc H].
  rewrite forallb_app, (escape_char_plain c Hc), (IH H). reflexivity.
Qed.

(** X26: a line without keywords and tokens is shown escaped and otherwise
    as it is. When [detect_log_level] puts a line at Other and the line holds
    no slash, no backslash and no digit, [highlight_log_line] returns the line
    with [&], [<] and [>] replaced by their entities and no span added. *)
Theorem highlight_log_line_plain (line : str) :
  detect_log_level tbl line = "Other" ->
  forallb (plain_token_char dtbl) line = true ->
  highlight_log_line tbl dtbl line = escape_html line.
Proof.
  intros Hlevel Hplain. unfold highlight_log_line. cbv zeta.
  unfold detect_log_level in Hlevel. unfold re_search_words in *.
  rewrite escape_html_chars.
  rewrite !(fun alts H => search_from_escaped tbl alts line H None None eq_refl)
    by reflexivity.
  destruct (search_from tbl error_words None line); [discriminate Hlevel|].
  destruct (search_from tbl warning_words None line); [discriminate Hlevel|].
  destruct (search_from tbl success_words None line); [discriminate Hlevel|].
  destruct (search_from tbl info_words None line); [discriminate Hlevel|].
  rewrite <- escape_html_chars.
  exact (highlight_tokens_plain (escape_html line) (escape_html_plain line Hplain)).
Qed.

End TokenProperties.

Lemma highlight_log_line_plain_witness :
  highlight_log_line ascii_only ascii_only (lit "compiling <main> & co")
  = lit "compiling &lt;main&gt; &amp; co".
Proof.
  exact (highlight_log_line_plain ascii_only ascii_only (lit "compiling <main> & co")
           eq_refl eq_refl).
Defined.

(** ** URLs with a dot *)

Lemma take_while_app (f : codepoint -> bool) (a b : str) :
  forallb f a = true -> take_while f (a ++ b) = a ++ take_while f b.
Proof.
  induction a as [|c a IH]; [reflexivity|]. cbn [forallb app take_while]. intros H.
  apply andb_true_iff in H. destruct H as [Hc H]. rewrite Hc, (IH H). reflexivity.
Qed.

Lemma take_while_all (f : codepoint -> bool) (a : str) :
  forallb f a = true -> take_while f a = a.
Proof.
  intros H. rewrite <- (app_nil_r a) at 1. rewrite (take_while_app f a [] H).
  apply app_nil_r.
Qed.

(** What follows a match is passed over. *)
Lemma re_sub_from_skip (match_at : option codepoint -> str -> option nat) (style : string)
    (s : str) :
  forall (skip : nat) (prev : option codepoint),
    List.length s <= skip -> re_sub_from match_at style skip prev s = [].
Proof.
  induction s as [|c s IH]; intros skip prev H; [reflexivity|].
  cbn [List.length] in H. destruct skip as [|k]; [lia|].
  cbn [re_sub_from]. apply IH. lia.
Qed.

Section UrlProperties.

Variable tbl : codepoint -> bool.
Variable dtbl : codepoint -> bool.

Lemma letter_range (c : codepoint) :
  is_letter c = true -> (65 <= c <= 90)%N \/ (97 <= c <= 122)%N.
Proof.
  unfold is_letter, in_range. intros H. apply orb_true_iff in H.
  destruct H as [H|H]; apply andb_true_iff in H; destruct H as [H1 H2];
    apply N.leb_le in H1, H2; [left|right]; split; assumption.
Qed.

Lemma letter_is_word (c : codepoint) : is_letter c = true -> is_word tbl c = true.
Proof.
  intros H. pose proof (letter_range c H) as R.
  unfold is_word. replace (N.ltb c 128) with true by (symmetry; apply N.ltb_lt; lia).
  unfold is_letter in H. apply orb_true_iff in H.
  destruct H as [H|H]; rewrite H; rewrite ?orb_true_r; reflexivity.
Qed.

Lemma letter_not_digit (c : codepoint) : is_letter c = true -> is_digit dtbl c = false.
Proof.
  intros H. pose proof (letter_range c H) as R.
  unfold is_digit. replace (N.ltb c 128) with true by (symmetry; apply N.ltb_lt; lia).
  unfold in_range. replace (N.leb c 57) with false by (symmetry; apply N.leb_gt; lia).
  apply andb_false_r.
Qed.

Lemma letter_not (c d : codepoint) :
  is_letter c = true -> is_letter d = false -> N.eqb c d = false.
Proof.
  intros Hc Hd. destruct (N.eqb_spec c d) as [->|]; [|reflexivity].
  rewrite Hc in Hd. discriminate Hd.
Qed.

Lemma letter_in_path_class (c : codepoint) :
  is_letter c = true -> in_path_class tbl c = true.
Proof.
  intros H. unfold in_path_class. rewrite (letter_is_word c H). reflexivity.
Qed.

Lemma letters_forallb (f : codepoint -> bool) (s : str) :
  (forall c, is_letter c = true -> f c = true) ->
  forallb is_letter s = true -> forallb f s = true.
Proof.
  intros Hf H. rewrite forallb_forall in *. intros c Hc. exact (Hf c (H c Hc)).
Qed.

(** The extension of a path is looked for behind the last dot. *)
Lemma path_extension_no_dot (r : str) :
  forallb is_letter r = true -> path_extension tbl r = None.
Proof.
  induction r as [|c r IH]; [reflexivity|]. cbn [forallb path_extension]. intros H.
  apply andb_true_iff in H. destruct H as [Hc H]. rewrite (IH H).
  rewrite (letter_not c 46%N Hc eq_refl). reflexivity.
Qed.

Lemma path_extension_dotted (host tld : str) :
  forallb is_letter host = true -> forallb is_letter tld = true -> tld <> [] ->
  path_extension tbl (host ++ 46%N :: tld) = Some (List.length (host ++ 46%N :: tld)).
Proof.
  intros Hh Ht Hne. induction host as [|c host IH].
  - cbn [app path_extension]. rewrite (path_extension_no_dot tld Ht).
    destruct tld as [|d tld]; [destruct (Hne eq_refl)|].
    pose proof Ht as Ht'. cbn [forallb] in Ht'.
    apply andb_true_iff in Ht'. destruct Ht' as [Hd _].
    cbn [N.eqb Pos.eqb hd_error is_word_opt andb]. rewrite (letter_is_word d Hd).
    rewrite (take_while_all (is_word tbl) (d :: tld)
               (letters_forallb _ _ letter_is_word Ht)).
    reflexivity.
  - cbn [forallb] in Hh. apply andb_true_iff in Hh. destruct Hh as [_ Hh].
    cbn [app path_extension]. rewrite (IH Hh). reflexivity.
Qed.

(** The path pattern takes the two slashes of a URL with what follows. *)
Lemma match_path_dotted (prev : option codepoint) (host tld : str) :
  forallb is_letter host = true -> forallb is_letter tld = true -> tld <> [] ->
  match_path tbl prev (47%N :: 47%N :: host ++ 46%N :: tld)
  = Some (List.length (47%N :: 47%N :: host ++ 46%N :: tld)).
Proof.
  intros Hh Ht Hne. unfold match_path. cbn [N.eqb Pos.eqb orb].
  assert (C : forallb (in_path_class tbl) (47%N :: host ++ 46%N :: tld) = true).
  { cbn [forallb]. rewrite forallb_app. cbn [forallb].
    rewrite (letters_forallb _ _ letter_in_path_class Hh),
      (letters_forallb _ _ letter_in_path_class Ht).
    unfold in_path_class. cbn [N.eqb Pos.eqb]. rewrite !orb_true_r. reflexivity. }
  rewrite (take_while_all _ _ C), (path_extension_dotted host tld Hh Ht Hne).
  reflexivity.
Qed.

Lemma no_colon_prefix (w s : str) :
  existsb (N.eqb 58%N) w = true ->
  existsb (N.eqb 58%N) s = false -> strip_prefix w s = None.
Proof.
  intros Hw Hs. destruct (strip_prefix w s) as [rest|] eqn:E; [|reflexivity].
  apply strip_prefix_Some in E. subst s. exfalso.
  rewrite existsb_app in Hs. apply orb_false_iff in Hs. destruct Hs as [Hs _].
  pose proof (eq_trans (eq_sym Hw) Hs) as F. discriminate F.
Qed.

Lemma match_url_no_colon (prev : option codepoint) (s : str) :
  existsb (N.eqb 58%N) s = false -> match_url prev s = None.
Proof.
  intros H. unfold match_url.
  rewrite (no_colon_prefix (lit "https://") s eq_refl H).
  rewrite (no_colon_prefix (lit "http://") s eq_refl H). reflexivity.
Qed.

Lemma match_number_no_digit (prev : option codepoint) (s : str) :
  existsb (is_digit dtbl) s = false -> match_number tbl dtbl prev s = None.
Proof.
  destruct s as [|c s]; [reflexivity|]. cbn [existsb]. intros H.
  apply orb_false_iff in H. destruct H as [H _].
  unfold match_number. rewrite H, andb_false_r. reflexivity.
Qed.

Lemma match_timestamp_no_digit (prev : option codepoint) (s : str) :
  existsb (is_digit dtbl) s = false -> match_timestamp dtbl prev s = None.
Proof.
  destruct s as [|a s]; [reflexivity|]. cbn [existsb]. intros H.
  apply orb_false_iff in H. destruct H as [H _].
  unfold match_timestamp.
  destruct s as [|b [|c [|d [|e [|f [|g [|h s]]]]]]]; try reflexivity.
  rewrite H. reflexivity.
Qed.

Lemma existsb_suffix (f : codepoint -> bool) (a b : str) :
  existsb f (a ++ b) = false -> existsb f b = false.
Proof. rewrite existsb_app. intros H. apply orb_false_iff in H. exact (proj2 H). Qed.

(** The rest of the line after the opening tag of the path. *)
Lemma dotted_rest_plain (f : codepoint -> bool) (host tld : str) :
  (forall c, is_letter c = true -> f c = false) ->
  f 46%N = false ->
  existsb f (lit "</span>") = false ->
  forallb is_letter host = true -> forallb is_letter tld = true ->
  existsb f (host ++ 46%N :: tld ++ lit "</span>") = false.
Proof.
  intros Hf Hdot Hlit Hh Ht.
  assert (L : forall s, forallb is_letter s = true -> existsb f s = false).
  { induction s as [|c s IH]; [reflexivity|]. cbn [forallb existsb]. intros H.
    apply andb_true_iff in H. destruct H as [Hc H]. rewrite (Hf c Hc), (IH H). reflexivity. }
  rewrite existsb_app. apply orb_false_iff. split; [exact (L host Hh)|].
  cbn [existsb]. apply orb_false_iff. split; [exact Hdot|].
  rewrite existsb_app. apply orb_false_iff. split; [exact (L tld Ht) | exact Hlit].
Qed.

(** A place where the pattern does not match is passed as it is. *)
Lemma re_sub_from_step (match_at : option codepoint -> str -> option nat) (style : string)
    (prev : option codepoint) (c : codepoint) (s : str) :
  match_at prev (c :: s) = None ->
  re_sub_from match_at style 0 prev (c :: s)
  = c :: re_sub_from match_at style 0 (Some c) s.
Proof. intros H. cbn [re_sub_from]. rewrite H. reflexivity. Qed.

Lemma re_sub_from_match (match_at : option codepoint -> str -> option nat) (style : string)
    (prev : option codepoint) (c : codepoint) (s : str) (n : nat) :
  match_at prev (c :: s) = Some n ->
  re_sub_from match_at style 0 prev (c :: s)
  = span style (firstn n (c :: s)) ++ re_sub_from match_at style (Nat.pred n) (Some c) s.
Proof. intros H. cbn [re_sub_from]. rewrite H. reflexivity. Qed.

Lemma re_sub_from_rest (match_at : option codepoint -> str -> option nat) (style : string)
    (prev : option codepoint) (s : str) :
  (forall prev' b, (exists a, s = a ++ b) -> match_at prev' b = None) ->
  re_sub_from match_at style 0 prev s = s.
Proof.
  intros H. apply re_sub_from_none. intros prev' a b E. apply H. exists a. exact E.
Qed.

Lemma re_sub_path_dotted (prev : option codepoint) (host tld : str) :
  forallb is_letter host = true -> forallb is_letter tld = true -> tld <> [] ->
  re_sub_from (match_path tbl) "color: #1abc9c;" 0 prev (47%N :: 47%N :: host ++ 46%N :: tld)
  = span "color: #1abc9c;" (47%N :: 47%N :: host ++ 46%N :: tld).
Proof.
  intros Hh Ht Hne.
  rewrite (re_sub_from_match (match_path tbl) _ _ _ _ _
             (match_path_dotted prev host tld Hh Ht Hne)).
  rewrite firstn_all.
  etransitivity; [|apply app_nil_r]. f_equal.
  apply re_sub_from_skip. cbn [List.length Nat.pred]. apply le_n.
Qed.

Lemma match_timestamp_first (prev : option codepoint) (a : codepoint) (s : str) :
  is_digit dtbl a = false -> match_timestamp dtbl prev (a :: s) = None.
Proof.
  intros H. unfold match_timestamp.
  destruct s as [|b [|c [|d [|e [|f [|g [|h s]]]]]]]; try reflexivity.
  rewrite H. reflexivity.
Qed.

Lemma match_timestamp_second (prev : option codepoint) (a b : codepoint) (s : str) :
  is_digit dtbl b = false -> match_timestamp dtbl prev (a :: b :: s) = None.
Proof.
  intros H. unfold match_timestamp.
  destruct s as [|c [|d [|e [|f [|g [|h s]]]]]]; try reflexivity.
  rewrite H, andb_false_r. reflexivity.
Qed.

Ltac pass_tag U N T :=
  match goal with
  | |- context [?p ++ ?rest] =>
      is_var rest; let v := eval vm_compute in p in change p with v
  end;
  cbn [app];
  rewrite !(re_sub_from_step match_url) by reflexivity;
  rewrite U;
  rewrite !(re_sub_from_step (match_number tbl dtbl)) by reflexivity;
  rewrite N;
  rewrite !(re_sub_from_step (match_timestamp dtbl))
    by (first [ apply match_timestamp_first; reflexivity
              | apply match_timestamp_second; reflexivity ]);
  rewrite T;
  reflexivity.

(** X27: a URL with a dot is not shown as a URL. In a line that consists
    of [http://] or [https://], a host name and a dot with letters after it,
    the path pattern, which comes first, takes the two slashes with all that
    follows them; the URL pattern then finds [http:] followed by a tag and
    matches nothing. The line is shown as the scheme and a path. *)
Theorem highlight_tokens_dotted_url (secure : bool) (host tld : str) :
  forallb is_letter host = true ->
  forallb is_letter tld = true ->
  tld <> [] ->
  highlight_tokens tbl dtbl
    (lit (if secure then "https://" else "http://") ++ host ++ 46%N :: tld)
  = lit (if secure then "https:" else "http:")
      ++ span "color: #1abc9c;" (lit "//" ++ host ++ 46%N :: tld).
Proof.
  intros Hh Ht Hne. unfold highlight_tokens, re_sub. cbv zeta.
  assert (P1 : re_sub_from (match_path tbl) "color: #1abc9c;" 0 None
                 (lit (if secure then "https://" else "http://") ++ host ++ 46%N :: tld)
               = lit (if secure then "https:" else "http:")
                   ++ span "color: #1abc9c;" (lit "//" ++ host ++ 46%N :: tld)).
  { destruct secure; cbn [lit map list_ascii_of_string app];
      change (N_of_ascii "h") with 104%N; change (N_of_ascii "t") with 116%N;
      change (N_of_ascii "p") with 112%N; change (N_of_ascii "s") with 115%N;
      change (N_of_ascii ":") with 58%N; change (N_of_ascii "/") with 47%N;
      rewrite !(re_sub_from_step (match_path tbl)) by reflexivity;
      repeat (match goal with |- _ :: _ = _ :: _ => apply f_equal end);
      exact (re_sub_path_dotted (Some 58%N) host tld Hh Ht Hne). }
  rewrite P1. clear P1.
  assert (Eout : lit (if secure then "https:" else "http:")
                   ++ span "color: #1abc9c;" (lit "//" ++ host ++ 46%N :: tld)
                 = (lit (if secure then "https:" else "http:")
                      ++ lit "<span style=" ++ [QUOTE] ++ lit "color: #1abc9c;" ++ [QUOTE]
                      ++ lit ">//")
                     ++ (host ++ 46%N :: tld ++ lit "</span>")).
  { unfold span. rewrite <- !app_assoc. reflexivity. }
  rewrite Eout. clear Eout.
  set (rest := host ++ 46%N :: tld ++ lit "</span>").
  assert (Hcolon : existsb (N.eqb 58%N) rest = false).
  { apply dotted_rest_plain; try assumption; try reflexivity.
    intros c Hc. rewrite N.eqb_sym. exact (letter_not c 58%N Hc eq_refl). }
  assert (Hdigit : existsb (is_digit dtbl) rest = false).
  { apply dotted_rest_plain; try assumption; try reflexivity.
    exact letter_not_digit. }
  assert (U : forall prev, re_sub_from match_url "color: #3498db; text-decoration: underline;"
                             0 prev rest = rest).
  { intros prev. apply re_sub_from_rest. intros prev' b [a E].
    apply match_url_no_colon. apply (existsb_suffix _ a). rewrite <- E. exact Hcolon. }
  assert (N : forall prev, re_sub_from (match_number tbl dtbl) "color: #9b59b6;" 0 prev rest
                           = rest).
  { intros prev. apply re_sub_from_rest. intros prev' b [a E].
    apply match_number_no_digit. apply (existsb_suffix _ a). rewrite <- E. exact Hdigit. }
  assert (T : forall prev, re_sub_from (match_timestamp dtbl) "color: #95a5a6;" 0 prev rest
                           = rest).
  { intros prev. apply re_sub_from_rest. intros prev' b [a E].
    apply match_timestamp_no_digit. apply (existsb_suffix _ a). rewrite <- E. exact Hdigit. }
  clearbody rest.
  destruct secure.
  - pass_tag U N T.
  - pass_tag U N T.
Qed.

End UrlProperties.

Lemma highlight_tokens_dotted_url_witness :
  highlight_tokens ascii_only ascii_only (lit "https://example.com")
  = lit "https:" ++ span "color: #1abc9c;" (lit "//example.com").
Proof.
  exact (highlight_tokens_dotted_url ascii_only ascii_only true (lit "example") (lit "com")
           eq_refl eq_refl ltac:(discriminate)).
Defined.
